(** * Support-ticket pipeline: routing, dispatch, batch run and metrics

    A shallow embedding of [agents/router.py], [agents/orchestrator.py],
    [agents/solvers.py], [agents/evaluation.py] and [main.py].

    Conventions of the embedding.
    - Python values are the JSON-shaped trees of [Py.value]; a [dict] is an
      association list in insertion order, read by its first binding.
    - A Python exception is a [Py.Raise]; every function that can raise
      returns a [Py.result], and the order of the binds is the evaluation
      order of the source.
    - Python floats are carried as exact rationals: rounding, NaN and the
      infinities are outside the model.
    - [str.lower] is modelled on the ASCII range; other bytes are kept.
    - The inference service, the clock and the judge are oracles of a
      [world]; console output and the pacing sleeps have no model. *)

From Stdlib Require Import List String Ascii Bool Arith ZArith QArith Qround Qabs.
From Stdlib Require Import DecimalString Lia Permutation.
Import ListNotations.

Open Scope string_scope.

(* ================================================================== *)
(** ** Python values, exceptions and the dictionary operations used *)
(* ================================================================== *)

Module Py.

#[warnings="-register-all"]
Inductive value : Type :=
| VNone
| VBool (b : bool)
| VInt (z : Z)
| VFloat (q : Q)
| VStr (s : string)
| VList (l : list value)
| VDict (d : list (string * value)).

Definition dict : Type := list (string * value).

Inductive exn : Type :=
| AttributeError
| KeyError
| TypeError
| ValueError
| StatisticsError.

Inductive result (A : Type) : Type :=
| Ok (a : A)
| Raise (e : exn).
Arguments Ok {A} a.
Arguments Raise {A} e.

Definition bind {A B} (m : result A) (k : A -> result B) : result B :=
  match m with
  | Ok a => k a
  | Raise e => Raise e
  end.

(** [d.get(k)] without the default: the first binding of [k]. *)
Fixpoint lookup (k : string) (d : dict) : option value :=
  match d with
  | [] => None
  | (k', v) :: d' => if String.eqb k k' then Some v else lookup k d'
  end.

(** [d.get(k, default)] on a dictionary. *)
Definition get (k : string) (d : dict) (default : value) : value :=
  match lookup k d with
  | Some v => v
  | None => default
  end.

(** [d[k]]: [KeyError] when the key is missing. *)
Definition subscript (d : dict) (k : string) : result value :=
  match lookup k d with
  | Some v => Ok v
  | None => Raise KeyError
  end.

(** [d.pop(k, None)], as a statement: every binding of [k] goes. *)
Fixpoint pop (k : string) (d : dict) : dict :=
  match d with
  | [] => []
  | (k', v) :: d' => if String.eqb k k' then pop k d' else (k', v) :: pop k d'
  end.

(** [d[k] = v]: overwrite in place, or append a new last binding. *)
Fixpoint set (k : string) (v : value) (d : dict) : dict :=
  match d with
  | [] => [(k, v)]
  | (k', v') :: d' =>
      if String.eqb k k' then (k, v) :: d' else (k', v') :: set k v d'
  end.

(** [x.get(k, default)] on any value: only a dictionary has [get]. *)
Definition attr_get (x : value) (k : string) (default : value) : result value :=
  match x with
  | VDict d => Ok (get k d default)
  | _ => Raise AttributeError
  end.

(** Truth value of [if x:]. *)
Definition truthy (x : value) : bool :=
  match x with
  | VNone => false
  | VBool b => b
  | VInt z => negb (Z.eqb z 0)
  | VFloat q => negb (Z.eqb (Qnum q) 0)
  | VStr s => negb (String.eqb s "")
  | VList l => match l with [] => false | _ => true end
  | VDict d => match d with [] => false | _ => true end
  end.

(** [x == "literal"]: a value that is not a string is never equal to one. *)
Definition eq_str (x : value) (lit : string) : bool :=
  match x with
  | VStr s => String.eqb s lit
  | _ => false
  end.

Definition lower_ascii (c : ascii) : ascii :=
  let n := nat_of_ascii c in
  if (65 <=? n)%nat && (n <=? 90)%nat then ascii_of_nat (n + 32) else c.

Fixpoint lower (s : string) : string :=
  match s with
  | EmptyString => EmptyString
  | String c s' => String (lower_ascii c) (lower s')
  end.

(** [x.lower()] on any value: only a string has [lower]. *)
Definition attr_lower (x : value) : result string :=
  match x with
  | VStr s => Ok (lower s)
  | _ => Raise AttributeError
  end.

(** The number behind a value in [+] and [/]; [True] is 1. *)
Definition as_number (x : value) : option Q :=
  match x with
  | VBool b => Some (if b then 1 else 0)%Q
  | VInt z => Some (inject_Z z)
  | VFloat q => Some q
  | _ => None
  end.

(** [sum(xs)], started at [acc]: a left fold, [TypeError] on the first
    item that is not a number. The additions are exact here; those of
    Python round, so the total of the source depends on the order of the
    items and no statement below is about that order. *)
Fixpoint sum_from (acc : Q) (xs : list value) : result Q :=
  match xs with
  | [] => Ok acc
  | x :: xs' =>
      match as_number x with
      | Some q => sum_from (acc + q)%Q xs'
      | None => Raise TypeError
      end
  end.

Definition sum (xs : list value) : result Q := sum_from 0%Q xs.

Definition Qsum (qs : list Q) : Q := fold_right Qplus 0%Q qs.

(** [statistics.mean(xs)] on integers: no data point is an error. *)
Definition mean (xs : list Z) : result Q :=
  match xs with
  | [] => Raise StatisticsError
  | _ => Ok (Qsum (map inject_Z xs) / inject_Z (Z.of_nat (List.length xs)))%Q
  end.

(** [str(n)] for a counter. *)
Definition str_nat (n : nat) : string :=
  NilZero.string_of_uint (Nat.to_uint n).

(** Round a rational that is not negative to the nearest integer, ties
    to the even one. *)
Definition round_half_even (x : Q) : Z :=
  let f := Qfloor x in
  match ((x - inject_Z f) ?= (1 # 2))%Q with
  | Lt => f
  | Gt => (f + 1)%Z
  | Eq => if Z.even f then f else (f + 1)%Z
  end.

Definition two_digits (n : Z) : string :=
  let s := NilZero.string_of_uint (N.to_uint (Z.to_N n)) in
  if (n <? 10)%Z then "0" ++ s else s.

(** [f"{x:.2f}"]. *)
Definition format_2f (x : Q) : string :=
  let n := round_half_even (Qabs x * 100)%Q in
  (if (Qnum x <? 0)%Z then "-" else "")
    ++ NilZero.string_of_uint (N.to_uint (Z.to_N (n / 100)))
    ++ "." ++ two_digits (n mod 100)%Z.

End Py.

Import Py.

Declare Scope py_scope.
Delimit Scope py_scope with py.
Notation "x <- m ;; k" := (Py.bind m (fun x => k))
  (at level 61, m at next level, right associativity) : py_scope.
Open Scope py_scope.

(* ================================================================== *)
(** ** The structured inference client ([pydantic_ai.Agent]) *)
(* ================================================================== *)

Module Agent.

(** What the inference service answers to one request. *)
Inductive reply : Type :=
| Content (raw : value)
| RateLimited (message : string)
| Failed (message : string).

(** How [agent.run_sync(prompt)] ends: with [result.output], with
    [exceptions.ResourceExhausted], or with any other exception. *)
Inductive outcome (A : Type) : Type :=
| Output (a : A)
| ResourceExhausted (message : string)
| OtherException (message : string).
Arguments Output {A} a.
Arguments ResourceExhausted {A} message.
Arguments OtherException {A} message.

(** Modelled from the spec: [Agent.run_sync] of the agent library, which
    the sources call and do not contain. Section 4.1: on success the value
    conforms exactly to the shape, enumerations validated against their
    closed sets; content that cannot be parsed into the shape, invalid
    enum values included, is a failure; no retry is performed. Here the
    content of the reply is validated by [output_type], content that does
    not conform raises, and no second request is made. *)
Definition run_sync {A} (output_type : value -> option A) (r : reply)
  : outcome A :=
  match r with
  | Content raw =>
      match output_type raw with
      | Some a => Output a
      | None => OtherException "Invalid JSON"
      end
  | RateLimited m => ResourceExhausted m
  | Failed m => OtherException m
  end.

(** Field types of the [BaseModel] declarations of the sources. *)
Inductive field_type : Type :=
| TStr
| TBool
| TInt (ge le : Z)
| TListStr
| TEnum (values : list string).

Definition is_str (v : value) : bool :=
  match v with VStr _ => true | _ => false end.

Definition conforms (t : field_type) (v : value) : bool :=
  match t, v with
  | TStr, VStr _ => true
  | TBool, VBool _ => true
  | TInt lo hi, VInt z => (lo <=? z)%Z && (z <=? hi)%Z
  | TListStr, VList l => forallb is_str l
  | TEnum vs, VStr s => existsb (String.eqb s) vs
  | _, _ => false
  end.

(** Modelled from the spec: validation of a raw value against a
    [BaseModel] of the sources, done by the library. Every declared field
    is present and has a value of the declared type (no coercion); the
    result is [model_dump(mode='json')], the declared fields in
    declaration order. *)
Fixpoint validate_fields (fields : list (string * field_type)) (d : dict)
  : option dict :=
  match fields with
  | [] => Some []
  | (k, t) :: fields' =>
      match lookup k d with
      | Some v =>
          if conforms t v then
            match validate_fields fields' d with
            | Some rest => Some ((k, v) :: rest)
            | None => None
            end
          else None
      | None => None
      end
  end.

Definition validate (fields : list (string * field_type)) (raw : value)
  : option dict :=
  match raw with
  | VDict d => validate_fields fields d
  | _ => None
  end.

End Agent.

(* ================================================================== *)
(** ** evaluation.py *)
(* ================================================================== *)

Module Evaluation.

Record SolverEvaluationScore : Type := {
  relevance : Z;
  clarity : Z;
  actionability : Z
}.

Definition SolverEvaluationScore_fields : list (string * Agent.field_type) :=
  [("relevance", Agent.TInt 1 5);
   ("clarity", Agent.TInt 1 5);
   ("actionability", Agent.TInt 1 5)].

Definition int_field (k : string) (d : dict) : option Z :=
  match lookup k d with
  | Some (VInt z) => Some z
  | _ => None
  end.

Definition SolverEvaluationScore_validate (raw : value)
  : option SolverEvaluationScore :=
  match Agent.validate SolverEvaluationScore_fields raw with
  | Some d =>
      match int_field "relevance" d, int_field "clarity" d,
            int_field "actionability" d with
      | Some r, Some c, Some a =>
          Some {| relevance := r; clarity := c; actionability := a |}
      | _, _, _ => None
      end
  | None => None
  end.

(** The judge: the reply of the service to the [n]-th judgment request,
    made for an original ticket and a solver output. *)
Definition judge : Type := nat -> value -> value -> Agent.reply.

Definition run_solver_evaluator (service : value -> value -> Agent.reply)
    (ticket solver_output : value) : option SolverEvaluationScore :=
  match Agent.run_sync SolverEvaluationScore_validate
          (service ticket solver_output) with
  | Agent.Output score => Some score
  | Agent.ResourceExhausted _ => None
  | Agent.OtherException _ => None
  end.

(** The six counters of the loop of [calculate_metrics]. *)
Record counters : Type := {
  correctly_routed : nat;
  routing_attempts : nat;
  correctly_urgent : nat;
  urgency_attempts : nat;
  correctly_assigned_team : nat;
  team_assignment_attempts : nat
}.

Definition counters0 : counters :=
  {| correctly_routed := 0; routing_attempts := 0;
     correctly_urgent := 0; urgency_attempts := 0;
     correctly_assigned_team := 0; team_assignment_attempts := 0 |}.

(** [r.get("original_ticket", {}).get(field)] *)
Definition ground_truth (r : dict) (field : string) : result value :=
  attr_get (get "original_ticket" r (VDict [])) field VNone.

(** [r["router_output"].get(field, "")] *)
Definition predicted (r : dict) (field : string) : result value :=
  ro <- subscript r "router_output" ;;
  attr_get ro field (VStr "").

(** [gt.lower() == <prediction>.lower()], the left operand first. *)
Definition same_lower (gt : value) (prediction : result value) : result bool :=
  a <- attr_lower gt ;;
  p <- prediction ;;
  b <- attr_lower p ;;
  Ok (String.eqb a b).

(** [r.get("solver_output", {}).get("status") == "SUCCESS"] *)
Definition solved (r : dict) : result bool :=
  st <- attr_get (get "solver_output" r (VDict [])) "status" VNone ;;
  Ok (eq_str st "SUCCESS").

Definition bump (b : bool) (n : nat) : nat := if b then S n else n.

(** The router half of the loop body (lines 50 to 60). *)
Definition tally_router (r : dict) (c : counters) : result counters :=
  if negb (eq_str (get "router_output" r VNone) "ROUTING FAILED") then
    gt_cat <- ground_truth r "ground_truth_category" ;;
    c1 <- (if truthy gt_cat then
             hit <- same_lower gt_cat (predicted r "category") ;;
             Ok {| correctly_routed := bump hit (correctly_routed c);
                   routing_attempts := S (routing_attempts c);
                   correctly_urgent := correctly_urgent c;
                   urgency_attempts := urgency_attempts c;
                   correctly_assigned_team := correctly_assigned_team c;
                   team_assignment_attempts := team_assignment_attempts c |}
           else Ok c) ;;
    gt_urg <- ground_truth r "ground_truth_urgency" ;;
    if truthy gt_urg then
      hit <- same_lower gt_urg (predicted r "urgency") ;;
      Ok {| correctly_routed := correctly_routed c1;
            routing_attempts := routing_attempts c1;
            correctly_urgent := bump hit (correctly_urgent c1);
            urgency_attempts := S (urgency_attempts c1);
            correctly_assigned_team := correctly_assigned_team c1;
            team_assignment_attempts := team_assignment_attempts c1 |}
    else Ok c1
  else Ok c.

(** The solver half of the loop body (lines 64 to 71). *)
Definition tally_solver (r : dict) (c : counters) : result counters :=
  let solver_output := get "solver_output" r (VDict []) in
  st <- attr_get solver_output "status" VNone ;;
  if eq_str st "SUCCESS" then
    gt_team <- ground_truth r "ground_truth_team" ;;
    if truthy gt_team then
      data <- attr_get solver_output "data" (VDict []) ;;
      ai_team <- attr_get data "assigned_team" (VStr "") ;;
      hit <- same_lower gt_team (Ok ai_team) ;;
      Ok {| correctly_routed := correctly_routed c;
            routing_attempts := routing_attempts c;
            correctly_urgent := correctly_urgent c;
            urgency_attempts := urgency_attempts c;
            correctly_assigned_team := bump hit (correctly_assigned_team c);
            team_assignment_attempts := S (team_assignment_attempts c) |}
    else Ok c
  else Ok c.

Definition tally (r : dict) (c : counters) : result counters :=
  c1 <- tally_router r c ;;
  tally_solver r c1.

(** [for r in results: ...] *)
Fixpoint tally_all (results : list dict) (c : counters) : result counters :=
  match results with
  | [] => Ok c
  | r :: results' => c1 <- tally r c ;; tally_all results' c1
  end.

(** [[r for r in results if <solved r>]] *)
Fixpoint successes (results : list dict) : result (list dict) :=
  match results with
  | [] => Ok []
  | r :: results' =>
      ok <- solved r ;;
      rest <- successes results' ;;
      Ok (if ok then r :: rest else rest)
  end.

Definition Qnat (n : nat) : Q := inject_Z (Z.of_nat n).

(** [(matched / attempts) * 100 if attempts > 0 else 0] *)
Definition percent (matched attempts : nat) : Q :=
  if (0 <? attempts)%nat then (Qnat matched / Qnat attempts * 100)%Q else 0%Q.

Definition percent_with_counts (matched attempts : nat) : string :=
  format_2f (percent matched attempts)
    ++ "% (" ++ str_nat matched ++ "/" ++ str_nat attempts ++ ")".

(** The local variables of [calculate_metrics] at line 80. *)
Record locals : Type := {
  total_tickets : nat;
  average_processing_time : Q;
  counts : counters;
  successful_solves : nat
}.

Definition compute_locals (results : list dict) : result locals :=
  let total_tickets := List.length results in
  total_processing_time <-
    sum (map (fun r => get "processing_time_seconds" r (VInt 0)) results) ;;
  let average_processing_time :=
    if (0 <? total_tickets)%nat
    then (total_processing_time / Qnat total_tickets)%Q else 0%Q in
  c <- tally_all results counters0 ;;
  ok <- successes results ;;
  Ok {| total_tickets := total_tickets;
        average_processing_time := average_processing_time;
        counts := c;
        successful_solves := List.length ok |}.

(** The [metrics] dictionary of lines 81 to 95. *)
Definition metrics_of (l : locals) : dict :=
  let c := counts l in
  [("overall_performance", VDict
      [("total_tickets_processed", VInt (Z.of_nat (total_tickets l)));
       ("average_processing_time_seconds",
          VStr (format_2f (average_processing_time l)))]);
   ("router_evaluation", VDict
      [("routing_accuracy_percent",
          VStr (percent_with_counts (correctly_routed c) (routing_attempts c)));
       ("urgency_accuracy_percent",
          VStr (percent_with_counts (correctly_urgent c) (urgency_attempts c)))]);
   ("solver_evaluation", VDict
      [("solver_success_rate_percent",
          VStr (format_2f (percent (successful_solves l) (total_tickets l))
                  ++ "%"));
       ("team_assignment_accuracy_percent",
          VStr (percent_with_counts (correctly_assigned_team c)
                  (team_assignment_attempts c)))])].

(** [llm_eval_scores]: the three lists, appended to together. *)
Record score_lists : Type := {
  relevances : list Z;
  clarities : list Z;
  actionabilities : list Z
}.

(** [for result in successful_solves: ...] of lines 103 to 110; [n] counts
    the judgment requests made so far. *)
Fixpoint judge_all (j : judge) (n : nat) (solves : list dict)
    (acc : score_lists) : result score_lists :=
  match solves with
  | [] => Ok acc
  | r :: solves' =>
      ticket <- subscript r "original_ticket" ;;
      solver_output <- subscript r "solver_output" ;;
      match run_solver_evaluator (j n) ticket solver_output with
      | Some eval_score =>
          judge_all j (S n) solves'
            {| relevances := relevances acc ++ [relevance eval_score];
               clarities := clarities acc ++ [clarity eval_score];
               actionabilities :=
                 actionabilities acc ++ [actionability eval_score] |}
      | None => judge_all j (S n) solves' acc
      end
  end.

Definition out_of_5 (q : Q) : value := VStr (format_2f q ++ " / 5").

(** [metrics["solver_evaluation"][k] = v] *)
Definition set_solver_evaluation (k : string) (v : value) (metrics : dict)
  : result dict :=
  se <- subscript metrics "solver_evaluation" ;;
  match se with
  | VDict d => Ok (set "solver_evaluation" (VDict (set k v d)) metrics)
  | _ => Raise TypeError
  end.

(** Lines 98 to 118. *)
Definition llm_as_judge (j : judge) (results : list dict) (metrics : dict)
  : result dict :=
  solves <- successes results ;;
  scores <- judge_all j 0 solves
              {| relevances := []; clarities := []; actionabilities := [] |} ;;
  match solves with
  | [] => Ok metrics
  | _ =>
      avg_relevance <- mean (relevances scores) ;;
      avg_clarity <- mean (clarities scores) ;;
      avg_actionability <- mean (actionabilities scores) ;;
      set_solver_evaluation "llm_as_judge_metrics"
        (VDict
           [("evaluations_performed",
               VInt (Z.of_nat (List.length (relevances scores))));
            ("avg_relevance_score", out_of_5 avg_relevance);
            ("avg_clarity_score", out_of_5 avg_clarity);
            ("avg_actionability_score", out_of_5 avg_actionability)])
        metrics
  end.

Definition calculate_metrics (j : judge) (results : list dict)
    (evaluate_with_llm : bool) : result dict :=
  match results with
  | [] => Ok []
  | _ =>
      l <- compute_locals results ;;
      let metrics := metrics_of l in
      if evaluate_with_llm then llm_as_judge j results metrics
      else Ok metrics
  end.

End Evaluation.

(* ================================================================== *)
(** ** router.py *)
(* ================================================================== *)

Module Router.

Inductive TicketCategory : Type :=
| BUGS
| QUERY
| REQUEST
| SECURITY
| CORRECTNESS
| MISCELLANEOUS.

Definition TicketCategory_value (c : TicketCategory) : string :=
  match c with
  | BUGS => "BUGS"
  | QUERY => "QUERY"
  | REQUEST => "REQUEST"
  | SECURITY => "SECURITY"
  | CORRECTNESS => "CORRECTNESS"
  | MISCELLANEOUS => "MISCELLANEOUS"
  end.

Definition TicketCategory_members : list TicketCategory :=
  [BUGS; QUERY; REQUEST; SECURITY; CORRECTNESS; MISCELLANEOUS].

Inductive UrgencyLevel : Type :=
| HIGH
| MEDIUM
| LOW.

Definition UrgencyLevel_value (u : UrgencyLevel) : string :=
  match u with
  | HIGH => "High"
  | MEDIUM => "Medium"
  | LOW => "Low"
  end.

Definition UrgencyLevel_members : list UrgencyLevel := [HIGH; MEDIUM; LOW].

(** [Enum(value)]: the member that carries the value, if any. *)
Definition member_of_value {E} (value_of : E -> string) (members : list E)
    (s : string) : option E :=
  find (fun m => String.eqb s (value_of m)) members.

Record RoutingSlip : Type := {
  category : TicketCategory;
  urgency : UrgencyLevel;
  summary : string
}.

(** Validation of the content of a reply against [RoutingSlip]. *)
Definition RoutingSlip_validate (raw : value) : option RoutingSlip :=
  match raw with
  | VDict d =>
      match lookup "category" d, lookup "urgency" d, lookup "summary" d with
      | Some (VStr c), Some (VStr u), Some (VStr s) =>
          match member_of_value TicketCategory_value TicketCategory_members c,
                member_of_value UrgencyLevel_value UrgencyLevel_members u with
          | Some c', Some u' =>
              Some {| category := c'; urgency := u'; summary := s |}
          | _, _ => None
          end
      | _, _, _ => None
      end
  | _ => None
  end.

(** [slip.model_dump(mode='json')] *)
Definition model_dump (slip : RoutingSlip) : dict :=
  [("category", VStr (TicketCategory_value (category slip)));
   ("urgency", VStr (UrgencyLevel_value (urgency slip)));
   ("summary", VStr (summary slip))].

(** [prompt_content]: the seven fields read from the ticket, by label. *)
Definition prompt : Type := list (string * value).

Definition prompt_content (ticket : dict) : prompt :=
  [("Ticket ID", get "ticket_id" ticket (VStr "N/A"));
   ("Customer Tier", get "customer_tier" ticket (VStr "N/A"));
   ("Subject", get "subject" ticket (VStr ""));
   ("Message", get "message" ticket (VStr ""));
   ("Previous Tickets", get "previous_tickets" ticket (VInt 0));
   ("Monthly Revenue", get "monthly_revenue" ticket (VInt 0));
   ("Account Age (Days)", get "account_age_days" ticket (VInt 0))].

Definition run_router (service : prompt -> Agent.reply) (ticket : dict)
  : option RoutingSlip :=
  match Agent.run_sync RoutingSlip_validate (service (prompt_content ticket)) with
  | Agent.Output slip => Some slip
  | Agent.ResourceExhausted _ => None
  | Agent.OtherException _ => None
  end.

End Router.

(* ================================================================== *)
(** ** solvers.py *)
(* ================================================================== *)

Module Solvers.

Definition AssignedTeam : list string :=
  ["Frontend"; "Backend"; "Security"; "UI/UX"; "Customer Support";
   "Documentation"; "General Triage"].

Definition BugReport : list (string * Agent.field_type) :=
  [("title", Agent.TStr);
   ("reproduction_steps", Agent.TListStr);
   ("severity", Agent.TStr);
   ("assigned_team", Agent.TEnum AssignedTeam)].

Definition DraftResponse : list (string * Agent.field_type) :=
  [("customer_facing_response", Agent.TStr);
   ("is_resolved", Agent.TBool);
   ("assigned_team", Agent.TEnum AssignedTeam)].

Definition FeatureRequestReport : list (string * Agent.field_type) :=
  [("feature_summary", Agent.TStr);
   ("user_goal", Agent.TStr);
   ("business_impact", Agent.TStr);
   ("assigned_team", Agent.TEnum AssignedTeam)].

Definition SecurityAlert : list (string * Agent.field_type) :=
  [("alert_summary", Agent.TStr);
   ("severity", Agent.TStr);
   ("recommended_action", Agent.TStr);
   ("assigned_team", Agent.TEnum AssignedTeam)].

Definition CorrectnessReview : list (string * Agent.field_type) :=
  [("identified_error", Agent.TStr);
   ("suggested_correction", Agent.TStr);
   ("assigned_team", Agent.TEnum AssignedTeam)].

Definition GeneralTriage : list (string * Agent.field_type) :=
  [("triage_summary", Agent.TStr);
   ("recommended_next_step", Agent.TStr);
   ("assigned_team", Agent.TEnum AssignedTeam)].

(** The prompt of [_run_solver]: the model name, the ticket as it was
    passed, and the routing summary. *)
Record prompt : Type := {
  model_name : string;
  ticket_data : dict;
  routing_summary : string
}.

(** A solver agent is its output type; the result is the output object,
    carried as its [model_dump]. *)
Definition _run_solver (agent : list (string * Agent.field_type))
    (service : prompt -> Agent.reply) (ticket_data : dict) (summary : string)
    (model_name : string) : option dict :=
  let p := {| model_name := model_name; ticket_data := ticket_data;
              routing_summary := summary |} in
  match Agent.run_sync (Agent.validate agent) (service p) with
  | Agent.Output output => Some output
  | Agent.ResourceExhausted _ => None
  | Agent.OtherException _ => None
  end.

Definition generate_bug_report service ticket_data summary :=
  _run_solver BugReport service ticket_data summary "BugReport".
Definition generate_draft_response service ticket_data summary :=
  _run_solver DraftResponse service ticket_data summary "DraftResponse".
Definition generate_feature_request service ticket_data summary :=
  _run_solver FeatureRequestReport service ticket_data summary
    "FeatureRequestReport".
Definition generate_security_alert service ticket_data summary :=
  _run_solver SecurityAlert service ticket_data summary "SecurityAlert".
Definition generate_correctness_review service ticket_data summary :=
  _run_solver CorrectnessReview service ticket_data summary "CorrectnessReview".
Definition generate_general_triage service ticket_data summary :=
  _run_solver GeneralTriage service ticket_data summary "GeneralTriage".

End Solvers.

(* ================================================================== *)
(** ** orchestrator.py *)
(* ================================================================== *)

Module Orchestrator.

Import Router.

Definition _process_solver_output (solver_name : string)
    (result_obj : option dict) : dict :=
  match result_obj with
  | Some data =>
      [("status", VStr "SUCCESS"); ("solver", VStr solver_name);
       ("data", VDict data)]
  | None =>
      [("status", VStr "FAILURE"); ("solver", VStr solver_name);
       ("data", VStr "Could not generate valid structured output.")]
  end.

Definition handler : Type :=
  (Solvers.prompt -> Agent.reply) -> dict -> RoutingSlip -> dict.

Definition solve_bug_ticket : handler := fun service ticket slip =>
  _process_solver_output "BugSolver"
    (Solvers.generate_bug_report service ticket (summary slip)).

Definition solve_query_ticket : handler := fun service ticket slip =>
  _process_solver_output "QuerySolver"
    (Solvers.generate_draft_response service ticket (summary slip)).

Definition solve_request_ticket : handler := fun service ticket slip =>
  _process_solver_output "FeatureRequestSolver"
    (Solvers.generate_feature_request service ticket (summary slip)).

Definition solve_security_ticket : handler := fun service ticket slip =>
  _process_solver_output "SecuritySolver"
    (Solvers.generate_security_alert service ticket (summary slip)).

Definition solve_correctness_ticket : handler := fun service ticket slip =>
  _process_solver_output "CorrectnessSolver"
    (Solvers.generate_correctness_review service ticket (summary slip)).

Definition solve_misc_ticket : handler := fun service ticket slip =>
  _process_solver_output "MiscSolver"
    (Solvers.generate_general_triage service ticket (summary slip)).

Definition _HANDLER_MAP (c : TicketCategory) : option handler :=
  match c with
  | BUGS => Some solve_bug_ticket
  | QUERY => Some solve_query_ticket
  | REQUEST => Some solve_request_ticket
  | SECURITY => Some solve_security_ticket
  | CORRECTNESS => Some solve_correctness_ticket
  | MISCELLANEOUS => Some solve_misc_ticket
  end.

Definition route_to_solver (service : Solvers.prompt -> Agent.reply)
    (ticket : dict) (routing_slip : RoutingSlip) : dict :=
  let handler_function :=
    match _HANDLER_MAP (category routing_slip) with
    | Some h => h
    | None => solve_misc_ticket
    end in
  handler_function service ticket routing_slip.

End Orchestrator.

(* ================================================================== *)
(** ** main.py *)
(* ================================================================== *)

Module Main.

Definition BATCH_SIZE : Z := 3.
Definition EVALUATE_SOLVER_QUALITY_WITH_LLM : bool := false.

(** [range(start, stop, step)] for a positive step; [fuel] bounds the
    number of items. *)
Fixpoint range_up (fuel start stop step : nat) : list nat :=
  match fuel with
  | O => []
  | S fuel' =>
      if (start <? stop)%nat
      then start :: range_up fuel' (start + step) stop step
      else []
  end.

(** [range(0, stop, step)]: a zero step is a [ValueError], a negative
    one gives no item. *)
Definition range0 (stop : nat) (step : Z) : result (list nat) :=
  if (step =? 0)%Z then Raise ValueError
  else if (step <? 0)%Z then Ok []
  else Ok (range_up stop 0 stop (Z.to_nat step)).

(** [data[lo:lo + size]] for a size that is not negative. *)
Definition slice {A} (data : list A) (lo size : nat) : list A :=
  firstn size (skipn lo data).

Definition create_batches {A} (data : list A) (size : Z)
  : result (list (list A)) :=
  starts <- range0 (List.length data) size ;;
  Ok (map (fun i => slice data i (Z.to_nat size)) starts).

(** *** The store of ticket objects

    Tickets are dictionaries that the loop copies and then mutates, so
    they live in a store and are named by their location. *)

Definition loc : Type := nat.
Definition heap : Type := list dict.

Definition deref (h : heap) (l : loc) : dict := nth l h [].

(** A new object is placed after the existing ones. *)
Definition alloc (h : heap) (d : dict) : heap * loc :=
  ((h ++ [d])%list, List.length h).

(** In-place update of the object at [l]. *)
Fixpoint modify (f : dict -> dict) (l : loc) (h : heap) : heap :=
  match h, l with
  | [], _ => []
  | d :: h', O => f d :: h'
  | d :: h', S l' => d :: modify f l' h'
  end.

(** [ticket.copy()]: a new object with the bindings of the old one. *)
Definition dict_copy (h : heap) (l : loc) : heap * loc := alloc h (deref h l).

(** [obj.pop(k, None)] on the object at [l]. *)
Definition dict_pop (k : string) (l : loc) (h : heap) : heap :=
  modify (pop k) l h.

(** *** The environment of a run *)

Record world : Type := {
  router_service : nat -> Router.prompt -> Agent.reply;
  solver_service : nat -> Solvers.prompt -> Agent.reply;
  judge_service : Evaluation.judge;
  time : nat -> Q
}.

(** The ticket argument of each routing and solving call, as it was when
    the call was made. *)
Inductive request : Type :=
| RouterRequest (ticket : dict)
| SolverRequest (ticket : dict) (routing_summary : string).

Definition payload (rq : request) : dict :=
  match rq with
  | RouterRequest t => t
  | SolverRequest t _ => t
  end.

(** A [record] of the loop; [original_ticket] is the ticket object itself,
    not a copy. *)
Record envelope : Type := {
  original_ticket : loc;
  router_output : value;
  solver_output : value;
  processing_time_seconds : Q
}.

Record state : Type := {
  objects : heap;
  all_results : list envelope;
  requests : list request;
  clock_reads : nat
}.

(** The body of [for ticket in batch] (lines 43 to 65). *)
Definition process_ticket (w : world) (st : state) (ticket : loc) : state :=
  let start_time := time w (clock_reads st) in
  let '(h1, ticket_for_processing) := dict_copy (objects st) ticket in
  let h2 := dict_pop "ground_truth_category" ticket_for_processing h1 in
  let h3 := dict_pop "ground_truth_urgency" ticket_for_processing h2 in
  let h4 := dict_pop "ground_truth_team" ticket_for_processing h3 in
  let sent := deref h4 ticket_for_processing in
  let n := List.length (requests st) in
  let routing_slip := Router.run_router (router_service w n) sent in
  let end_time := time w (S (clock_reads st)) in
  match routing_slip with
  | Some slip =>
      let final_result :=
        Orchestrator.route_to_solver (solver_service w (S n)) sent slip in
      {| objects := h4;
         all_results := all_results st ++
           [{| original_ticket := ticket;
               router_output := VDict (Router.model_dump slip);
               solver_output := VDict final_result;
               processing_time_seconds := (end_time - start_time)%Q |}];
         requests := requests st ++
           [RouterRequest sent; SolverRequest sent (Router.summary slip)];
         clock_reads := S (S (clock_reads st)) |}
  | None =>
      {| objects := h4;
         all_results := all_results st ++
           [{| original_ticket := ticket;
               router_output := VStr "ROUTING FAILED";
               solver_output := VNone;
               processing_time_seconds := (end_time - start_time)%Q |}];
         requests := requests st ++ [RouterRequest sent];
         clock_reads := S (S (clock_reads st)) |}
  end.

Definition process_batch (w : world) (st : state) (batch : list loc) : state :=
  fold_left (process_ticket w) batch st.

(** [for i, batch in enumerate(ticket_batches)] *)
Definition process_batches (w : world) (st : state) (batches : list (list loc))
  : state :=
  fold_left (process_batch w) batches st.

(** A record as [json.dump] and [calculate_metrics] read it: the ticket
    object is read through the store. *)
Definition view (h : heap) (e : envelope) : dict :=
  [("original_ticket", VDict (deref h (original_ticket e)));
   ("router_output", router_output e);
   ("solver_output", solver_output e);
   ("processing_time_seconds", VFloat (processing_time_seconds e))].

Record run : Type := {
  final : state;
  output_file : list dict;
  evaluation : result dict
}.

(** [main], from the loaded tickets on. Each loaded ticket is an object
    of its own: the store starts as the ticket list and ticket [i] is at
    location [i]. The two module constants are parameters here. A run
    whose call of [calculate_metrics] raises has written the results file
    before; it is a [run] whose [evaluation] is the exception. *)
Definition main (w : world) (batch_size : Z) (evaluate_with_llm : bool)
    (tickets_to_process : list dict) : result run :=
  let refs := seq 0 (List.length tickets_to_process) in
  ticket_batches <- create_batches refs batch_size ;;
  let st := process_batches w
              {| objects := tickets_to_process; all_results := [];
                 requests := []; clock_reads := 0 |}
              ticket_batches in
  let out := map (view (objects st)) (all_results st) in
  Ok {| final := st;
        output_file := out;
        evaluation :=
          Evaluation.calculate_metrics (judge_service w) out
            evaluate_with_llm |}.

End Main.

(* ================================================================== *)
(** ** Reference notions, in the words of the specification *)
(* ================================================================== *)

Module Spec.

Import Evaluation.

(** Routing succeeded: the envelope does not carry the failure sentinel. *)
Definition routing_succeeded (r : dict) : bool :=
  negb (eq_str (get "router_output" r VNone) "ROUTING FAILED").

(** The original ticket of an envelope, when it is a dictionary. *)
Definition ticket_of (r : dict) : option dict :=
  match get "original_ticket" r (VDict []) with
  | VDict t => Some t
  | _ => None
  end.

(** A ground-truth field exists: it is there and it is not a falsy value. *)
Definition has_ground_truth (field : string) (r : dict) : bool :=
  match ticket_of r with
  | Some t => truthy (get field t VNone)
  | None => false
  end.

(** The solver outcome of the envelope is a success. *)
Definition solver_succeeded (r : dict) : bool :=
  match get "solver_output" r (VDict []) with
  | VDict so => eq_str (get "status" so VNone) "SUCCESS"
  | _ => false
  end.

(** Equality of two strings up to letter case. *)
Definition equal_ignoring_case (a b : value) : bool :=
  match a, b with
  | VStr x, VStr y => String.eqb (lower x) (lower y)
  | _, _ => false
  end.

Definition ground_truth_of (field : string) (r : dict) : value :=
  match ticket_of r with
  | Some t => get field t VNone
  | None => VNone
  end.

(** The router's prediction for a field; the empty string when missing. *)
Definition prediction_of (field : string) (r : dict) : value :=
  match get "router_output" r VNone with
  | VDict ro => get field ro (VStr "")
  | _ => VNone
  end.

(** The team the solver assigned; the empty string when missing. *)
Definition assigned_team_of (r : dict) : value :=
  match get "solver_output" r (VDict []) with
  | VDict so =>
      match get "data" so (VDict []) with
      | VDict data => get "assigned_team" data (VStr "")
      | _ => VNone
      end
  | _ => VNone
  end.

Definition routing_attempted (r : dict) : bool :=
  routing_succeeded r && has_ground_truth "ground_truth_category" r.

Definition urgency_attempted (r : dict) : bool :=
  routing_succeeded r && has_ground_truth "ground_truth_urgency" r.

Definition team_attempted (r : dict) : bool :=
  solver_succeeded r && has_ground_truth "ground_truth_team" r.

Definition routing_matched (r : dict) : bool :=
  routing_attempted r
  && equal_ignoring_case (ground_truth_of "ground_truth_category" r)
       (prediction_of "category" r).

Definition urgency_matched (r : dict) : bool :=
  urgency_attempted r
  && equal_ignoring_case (ground_truth_of "ground_truth_urgency" r)
       (prediction_of "urgency" r).

Definition team_matched (r : dict) : bool :=
  team_attempted r
  && equal_ignoring_case (ground_truth_of "ground_truth_team" r)
       (assigned_team_of r).

(** Number of items of a list that pass a test. *)
Definition count {A} (p : A -> bool) (xs : list A) : nat :=
  List.length (filter p xs).

(** The processing duration of an envelope; 0 when none is recorded. *)
Definition duration (r : dict) : Q :=
  match as_number (get "processing_time_seconds" r (VInt 0)) with
  | Some q => q
  | None => 0%Q
  end.

(** Arithmetic mean of a list of rationals. *)
Definition arithmetic_mean (qs : list Q) : Q :=
  (Qsum qs / Qnat (List.length qs))%Q.

(** An entry of a section of the metrics snapshot. *)
Definition metric (section key : string) (metrics : dict) : option value :=
  match lookup section metrics with
  | Some (VDict d) => lookup key d
  | _ => None
  end.

(** The ticket with its three ground-truth fields removed. *)
Definition sanitized (ticket : dict) : dict :=
  pop "ground_truth_team"
    (pop "ground_truth_urgency" (pop "ground_truth_category" ticket)).

Definition ground_truth_fields : list string :=
  ["ground_truth_category"; "ground_truth_urgency"; "ground_truth_team"].

(** A label the loop can compare: a falsy value, which it skips, or a
    string. *)
Definition label_ok (v : value) : bool := negb (truthy v) || Agent.is_str v.

(** Envelopes on which the loop of [calculate_metrics] runs through: the
    duration is a number, the ticket is a dictionary whose ground-truth
    labels are strings or falsy, the router output is the failure sentinel
    or a dictionary with string predictions, and the solver output is a
    dictionary (or is not bound) whose assigned team, on success, is a
    string. *)
Definition scorable (r : dict) : bool :=
  match as_number (get "processing_time_seconds" r (VInt 0)) with
  | Some _ => true
  | None => false
  end
  && match get "original_ticket" r (VDict []) with
     | VDict t => forallb (fun k => label_ok (get k t VNone)) ground_truth_fields
     | _ => false
     end
  && (eq_str (get "router_output" r VNone) "ROUTING FAILED"
      || match lookup "router_output" r with
         | Some (VDict ro) =>
             Agent.is_str (get "category" ro (VStr ""))
             && Agent.is_str (get "urgency" ro (VStr ""))
         | _ => false
         end)
  && match get "solver_output" r (VDict []) with
     | VDict so =>
         negb (eq_str (get "status" so VNone) "SUCCESS")
         || match get "data" so (VDict []) with
            | VDict data => Agent.is_str (get "assigned_team" data (VStr ""))
            | _ => false
            end
     | _ => false
     end.

(** A judge whose every call fails. *)
Definition judge_down : judge := fun _ _ _ => Agent.Failed "unavailable".

(** A judge that fails on its first call and scores every later one. *)
Definition judge_after_first : judge := fun n _ _ =>
  match n with
  | O => Agent.Failed "unavailable"
  | _ => Agent.Content
           (VDict [("relevance", VInt 4); ("clarity", VInt 5);
                   ("actionability", VInt 3)])
  end.

(** An envelope of a ticket whose routing failed, as [main] records it. *)
Definition routing_failed_envelope (ticket : dict) (seconds : Q) : dict :=
  [("original_ticket", VDict ticket);
   ("router_output", VStr "ROUTING FAILED");
   ("solver_output", VNone);
   ("processing_time_seconds", VFloat seconds)].

(** An envelope of a routed and solved ticket. *)
Definition solved_envelope (ticket : dict) (cat urg team : string)
    (seconds : Q) : dict :=
  [("original_ticket", VDict ticket);
   ("router_output",
      VDict [("category", VStr cat); ("urgency", VStr urg);
             ("summary", VStr "summary")]);
   ("solver_output",
      VDict [("status", VStr "SUCCESS"); ("solver", VStr "BugSolver");
             ("data", VDict [("title", VStr "title");
                             ("assigned_team", VStr team)])]);
   ("processing_time_seconds", VFloat seconds)].

(** The record of one routed and solved ticket that carries a ground-truth
    category and a ground-truth urgency. *)
Definition fully_labelled : list dict :=
  [solved_envelope
     [("ground_truth_category", VStr "bugs");
      ("ground_truth_urgency", VStr "HIGH")]
     "BUGS" "High" "Backend" 1].

(** What holds of a state after the tickets [done] of the loaded list
    [orig] went through the loop: the loaded objects are as they were
    loaded, there is one record per processed ticket, in order, and every
    request carried the sanitized form of a processed ticket. *)
Definition run_inv (orig : Main.heap) (done : list Main.loc) (st : Main.state) : Prop :=
  firstn (List.length orig) (Main.objects st) = orig
  /\ map Main.original_ticket (Main.all_results st) = done
  /\ Forall (fun rq => exists l, In l done
                                 /\ Main.payload rq = sanitized (Main.deref orig l))
       (Main.requests st).

(** A small run: the router answers the first request with a slip and is
    rate limited afterwards; the solver answers with a bug report. *)
Definition sample_world : Main.world :=
  {| Main.router_service := fun n _ =>
       match n with
       | O => Agent.Content
                (VDict [("category", VStr "BUGS"); ("urgency", VStr "High");
                        ("summary", VStr "Login fails")])
       | _ => Agent.RateLimited "429"
       end;
     Main.solver_service := fun _ _ =>
       Agent.Content
         (VDict [("title", VStr "Login fails");
                 ("reproduction_steps", VList [VStr "Open the login page"]);
                 ("severity", VStr "High");
                 ("assigned_team", VStr "Backend")]);
     Main.judge_service := judge_down;
     Main.time := fun n => inject_Z (Z.of_nat n) |}.

Definition sample_tickets : list dict :=
  [[("ticket_id", VStr "T-1"); ("subject", VStr "Login");
    ("ground_truth_category", VStr "BUGS");
    ("ground_truth_urgency", VStr "High");
    ("ground_truth_team", VStr "Backend")];
   [("ticket_id", VStr "T-2"); ("subject", VStr "Invoice");
    ("ground_truth_category", VStr "QUERY")]].

(** A router service that answers every request with a category that is
    not a member of [TicketCategory]. *)
Definition off_enum_world : Main.world :=
  {| Main.router_service := fun _ _ =>
       Agent.Content
         (VDict [("category", VStr "BILLING"); ("urgency", VStr "High");
                 ("summary", VStr "An invoice question")]);
     Main.solver_service := fun _ _ => Agent.Failed "unused";
     Main.judge_service := judge_down;
     Main.time := fun n => inject_Z (Z.of_nat n) |}.

Definition start_state (tickets : list dict) : Main.state :=
  {| Main.objects := tickets; Main.all_results := [];
     Main.requests := []; Main.clock_reads := 0 |}.

(** *** Reference notions for the rest of the sources *)

(** Batches of a given size: every batch but the last is full, and the
    last one holds between one item and a full batch. *)
Fixpoint well_batched {A} (size : nat) (batches : list (list A)) : Prop :=
  match batches with
  | [] => True
  | b :: rest =>
      match rest with
      | [] => (0 < List.length b <= size)%nat
      | _ :: _ => List.length b = size /\ well_batched size rest
      end
  end.

(** The dispatch table of the orchestrator, read off its six handlers:
    the name of the solver, the name of the model and the output shape
    for a category. *)
Definition solver_name (c : Router.TicketCategory) : string :=
  match c with
  | Router.BUGS => "BugSolver"
  | Router.QUERY => "QuerySolver"
  | Router.REQUEST => "FeatureRequestSolver"
  | Router.SECURITY => "SecuritySolver"
  | Router.CORRECTNESS => "CorrectnessSolver"
  | Router.MISCELLANEOUS => "MiscSolver"
  end.

Definition solver_model (c : Router.TicketCategory) : string :=
  match c with
  | Router.BUGS => "BugReport"
  | Router.QUERY => "DraftResponse"
  | Router.REQUEST => "FeatureRequestReport"
  | Router.SECURITY => "SecurityAlert"
  | Router.CORRECTNESS => "CorrectnessReview"
  | Router.MISCELLANEOUS => "GeneralTriage"
  end.

Definition solver_shape (c : Router.TicketCategory)
  : list (string * Agent.field_type) :=
  match c with
  | Router.BUGS => Solvers.BugReport
  | Router.QUERY => Solvers.DraftResponse
  | Router.REQUEST => Solvers.FeatureRequestReport
  | Router.SECURITY => Solvers.SecurityAlert
  | Router.CORRECTNESS => Solvers.CorrectnessReview
  | Router.MISCELLANEOUS => Solvers.GeneralTriage
  end.

(** The output of a solver that produced a value, and of one that did
    not. *)
Definition solver_success (c : Router.TicketCategory) (data : dict) : dict :=
  [("status", VStr "SUCCESS"); ("solver", VStr (solver_name c));
   ("data", VDict data)].

Definition solver_failure (c : Router.TicketCategory) : dict :=
  [("status", VStr "FAILURE"); ("solver", VStr (solver_name c));
   ("data", VStr "Could not generate valid structured output.")].

Definition is_ground_truth_field (k : string) : bool :=
  existsb (String.eqb k) ground_truth_fields.

(** A score of the judge that is within its declared bounds. *)
Definition in_range (z : Z) : Prop := (1 <= z <= 5)%Z.

(** The three score lists grow together, by scores in range, and by at
    most one entry per judged envelope. *)
Definition scores_ok (bound : nat) (s : score_lists) : Prop :=
  List.length (clarities s) = List.length (relevances s)
  /\ List.length (actionabilities s) = List.length (relevances s)
  /\ (List.length (relevances s) <= bound)%nat
  /\ Forall in_range (relevances s)
  /\ Forall in_range (clarities s)
  /\ Forall in_range (actionabilities s).

(** Sum of two sets of counters, field by field. *)
Definition add_counters (c d : counters) : counters :=
  {| correctly_routed := correctly_routed c + correctly_routed d;
     routing_attempts := routing_attempts c + routing_attempts d;
     correctly_urgent := correctly_urgent c + correctly_urgent d;
     urgency_attempts := urgency_attempts c + urgency_attempts d;
     correctly_assigned_team :=
       correctly_assigned_team c + correctly_assigned_team d;
     team_assignment_attempts :=
       team_assignment_attempts c + team_assignment_attempts d |}.

(** The ticket fields that the routing prompt reads. *)
Definition router_fields : list string :=
  ["ticket_id"; "customer_tier"; "subject"; "message"; "previous_tickets";
   "monthly_revenue"; "account_age_days"].

(** A record of the loop whose routing succeeded. *)
Definition routed (e : Main.envelope) : bool :=
  negb (eq_str (Main.router_output e) "ROUTING FAILED").

Definition is_router_request (rq : Main.request) : bool :=
  match rq with
  | Main.RouterRequest _ => true
  | Main.SolverRequest _ _ => false
  end.

Definition is_solver_request (rq : Main.request) : bool :=
  negb (is_router_request rq).

(** The two shapes of a record of the loop. *)
Definition record_shape (e : Main.envelope) : Prop :=
  (Main.router_output e = VStr "ROUTING FAILED"
   /\ Main.solver_output e = VNone)
  \/ (exists slip,
        Main.router_output e = VDict (Router.model_dump slip)
        /\ (Main.solver_output e
              = VDict (solver_failure (Router.category slip))
            \/ exists raw data,
                 Main.solver_output e
                   = VDict (solver_success (Router.category slip) data)
                 /\ Agent.validate (solver_shape (Router.category slip)) raw
                    = Some data)).

(** The tickets of a list whose ground-truth labels the metrics loop can
    compare. *)
Definition labelled_ok (t : dict) : bool :=
  forallb (fun k => label_ok (get k t VNone)) ground_truth_fields.

End Spec.

(* ================================================================== *)
(** ** Facts on the Python layer *)
(* ================================================================== *)

Module PyFacts.

Lemma bind_ok {A B} (m : result A) (k : A -> result B) (b : B) :
  bind m k = Ok b -> exists a, m = Ok a /\ k a = Ok b.
Proof.
  destruct m as [a|e]; simpl; intros H; [eauto | discriminate].
Qed.

Lemma bind_raise {A B} (m : result A) (k : A -> result B) (e : exn) :
  m = Raise e -> bind m k = Raise e.
Proof. intros ->; reflexivity. Qed.

Lemma attr_get_ok (x : value) (k : string) (dflt v : value) :
  attr_get x k dflt = Ok v -> exists d, x = VDict d /\ v = get k d dflt.
Proof.
  destruct x; simpl; try discriminate.
  intros H; injection H as <-; eauto.
Qed.

Lemma attr_lower_ok (x : value) (s : string) :
  attr_lower x = Ok s -> exists s0, x = VStr s0 /\ s = lower s0.
Proof.
  destruct x; simpl; try discriminate.
  intros H; injection H as <-; eauto.
Qed.

Lemma lookup_pop_same (k : string) (d : dict) : lookup k (pop k d) = None.
Proof.
  induction d as [|[k' v] d IH]; simpl; [reflexivity|].
  destruct (String.eqb k k') eqn:E; simpl; [exact IH|].
  rewrite E; exact IH.
Qed.

Lemma lookup_pop_other (k k' : string) (d : dict) :
  k' <> k -> lookup k' (pop k d) = lookup k' d.
Proof.
  intros Hne; induction d as [|[k0 v] d IH]; simpl; [reflexivity|].
  destruct (String.eqb k k0) eqn:E; simpl.
  - apply String.eqb_eq in E; subst k0.
    destruct (String.eqb k' k) eqn:E'; [|exact IH].
    apply String.eqb_eq in E'; contradiction.
  - rewrite IH; reflexivity.
Qed.

Lemma lookup_set_same (k : string) (v : value) (d : dict) :
  lookup k (set k v d) = Some v.
Proof.
  induction d as [|[k' v'] d IH]; simpl.
  - rewrite String.eqb_refl; reflexivity.
  - destruct (String.eqb k k') eqn:E; simpl.
    + rewrite String.eqb_refl; reflexivity.
    + rewrite E; exact IH.
Qed.

Lemma lookup_set_other (k k' : string) (v : value) (d : dict) :
  k' <> k -> lookup k' (set k v d) = lookup k' d.
Proof.
  intros Hne; induction d as [|[k0 v0] d IH]; simpl.
  - destruct (String.eqb k' k) eqn:E; [|reflexivity].
    apply String.eqb_eq in E; contradiction.
  - destruct (String.eqb k k0) eqn:E; simpl.
    + apply String.eqb_eq in E; subst k0.
      destruct (String.eqb k' k) eqn:E'; [|reflexivity].
      apply String.eqb_eq in E'; contradiction.
    + rewrite IH; reflexivity.
Qed.

Lemma sign_comp (x y : Q) :
  (x == y)%Q -> (Qnum x <? 0)%Z = (Qnum y <? 0)%Z.
Proof.
  unfold Qeq; intros H.
  destruct (Z.ltb_spec (Qnum x) 0), (Z.ltb_spec (Qnum y) 0);
    try reflexivity; exfalso; nia.
Qed.

Lemma round_half_even_comp (x y : Q) :
  (x == y)%Q -> round_half_even x = round_half_even y.
Proof.
  intros H; unfold round_half_even.
  rewrite (Qfloor_comp x y H).
  assert (E : ((x - inject_Z (Qfloor y) ?= 1 # 2)
               = (y - inject_Z (Qfloor y) ?= 1 # 2))%Q).
  { apply Qcompare_comp; [rewrite H|]; reflexivity. }
  rewrite E; reflexivity.
Qed.

(** The rendering of a rational does not depend on how the fraction is
    written. *)
Lemma format_2f_comp (x y : Q) : (x == y)%Q -> format_2f x = format_2f y.
Proof.
  intros H; unfold format_2f.
  rewrite (sign_comp x y H).
  assert (E : (Qabs x * 100 == Qabs y * 100)%Q) by (rewrite H; reflexivity).
  rewrite (round_half_even_comp _ _ E); reflexivity.
Qed.

Lemma sum_from_ok (xs : list value) : forall acc total,
  sum_from acc xs = Ok total ->
  Forall (fun x => as_number x <> None) xs
  /\ (total ==
      acc + Qsum (map (fun x => match as_number x with
                                | Some q => q
                                | None => 0
                                end) xs))%Q.
Proof.
  induction xs as [|x xs IH]; intros acc total H; simpl in H.
  - injection H as <-; split; [constructor | simpl; ring].
  - destruct (as_number x) as [q|] eqn:E; [|discriminate].
    apply IH in H; destruct H as (Hall & Heq); split.
    + constructor; [congruence | exact Hall].
    + simpl; rewrite E, Heq; unfold Qsum; ring.
Qed.

Lemma get_pop_same (k : string) (d : dict) (dflt : value) :
  get k (pop k d) dflt = dflt.
Proof. unfold get; rewrite lookup_pop_same; reflexivity. Qed.

Lemma get_pop_other (k k' : string) (d : dict) (dflt : value) :
  k' <> k -> get k' (pop k d) dflt = get k' d dflt.
Proof. intros H; unfold get; rewrite lookup_pop_other by exact H; reflexivity. Qed.

Lemma get_present (k : string) (d : dict) (v dflt : value) :
  lookup k d = Some v -> get k d dflt = v.
Proof. intros H; unfold get; rewrite H; reflexivity. Qed.

Lemma get_set_same (k : string) (v : value) (d : dict) (dflt : value) :
  get k (set k v d) dflt = v.
Proof. unfold get; rewrite lookup_set_same; reflexivity. Qed.

Lemma get_set_other (k k' : string) (v : value) (d : dict) (dflt : value) :
  k' <> k -> get k' (set k v d) dflt = get k' d dflt.
Proof. intros H; unfold get; rewrite lookup_set_other by exact H; reflexivity. Qed.

End PyFacts.

(* ================================================================== *)
(** ** Facts on [calculate_metrics] *)
(* ================================================================== *)

Module EvaluationFacts.

Import Evaluation Spec PyFacts.

Tactic Notation "bind_inv" hyp(H) "as" ident(x) ident(Hx) :=
  apply bind_ok in H; destruct H as (x & Hx & H).

Lemma ground_truth_ok (r : dict) (field : string) (gt : value) :
  ground_truth r field = Ok gt ->
  ground_truth_of field r = gt /\ has_ground_truth field r = truthy gt.
Proof.
  unfold ground_truth, ground_truth_of, has_ground_truth, ticket_of.
  intros H; apply attr_get_ok in H; destruct H as (t & -> & ->).
  split; reflexivity.
Qed.

Lemma predicted_ok (r : dict) (field : string) (p : value) :
  predicted r field = Ok p -> prediction_of field r = p.
Proof.
  unfold predicted, prediction_of, subscript, get; intros H.
  destruct (lookup "router_output" r) as [ro|]; simpl in H; [|discriminate].
  apply attr_get_ok in H; destruct H as (d & -> & ->); reflexivity.
Qed.

Lemma same_lower_ok (gt : value) (prediction : result value) (hit : bool) :
  same_lower gt prediction = Ok hit ->
  exists p, prediction = Ok p /\ hit = equal_ignoring_case gt p.
Proof.
  unfold same_lower; intros H.
  bind_inv H as a Ha. apply attr_lower_ok in Ha; destruct Ha as (s0 & -> & ->).
  bind_inv H as p Hp. exists p; split; [assumption|].
  bind_inv H as b Hb. apply attr_lower_ok in Hb; destruct Hb as (s1 & -> & ->).
  injection H as <-; reflexivity.
Qed.

Lemma solved_ok (r : dict) (b : bool) :
  solved r = Ok b -> b = solver_succeeded r.
Proof.
  unfold solved, solver_succeeded; intros H.
  bind_inv H as st Hst. apply attr_get_ok in Hst; destruct Hst as (so & -> & ->).
  injection H as <-; reflexivity.
Qed.

(** What the router half of the loop body does to the counters. *)
Lemma tally_router_ok (r : dict) (c c' : counters) :
  tally_router r c = Ok c' ->
  routing_attempts c' = bump (routing_attempted r) (routing_attempts c)
  /\ correctly_routed c' = bump (routing_matched r) (correctly_routed c)
  /\ urgency_attempts c' = bump (urgency_attempted r) (urgency_attempts c)
  /\ correctly_urgent c' = bump (urgency_matched r) (correctly_urgent c)
  /\ team_assignment_attempts c' = team_assignment_attempts c
  /\ correctly_assigned_team c' = correctly_assigned_team c.
Proof.
  unfold tally_router, routing_matched, urgency_matched,
    routing_attempted, urgency_attempted.
  fold (routing_succeeded r).
  destruct (routing_succeeded r); simpl;
    [|intros H; injection H as <-; repeat split; reflexivity].
  intros H.
  bind_inv H as gt_cat Hcat.
  apply ground_truth_ok in Hcat; destruct Hcat as (Hc1 & Hc2).
  bind_inv H as c1 Hstep.
  bind_inv H as gt_urg Hurg.
  apply ground_truth_ok in Hurg; destruct Hurg as (Hu1 & Hu2).
  rewrite Hc1, Hc2, Hu1, Hu2; clear Hc1 Hc2 Hu1 Hu2.
  assert (Hfirst :
    routing_attempts c1 = bump (truthy gt_cat) (routing_attempts c)
    /\ correctly_routed c1 =
         bump (truthy gt_cat
               && equal_ignoring_case gt_cat (prediction_of "category" r))
           (correctly_routed c)
    /\ urgency_attempts c1 = urgency_attempts c
    /\ correctly_urgent c1 = correctly_urgent c
    /\ team_assignment_attempts c1 = team_assignment_attempts c
    /\ correctly_assigned_team c1 = correctly_assigned_team c).
  { destruct (truthy gt_cat); simpl.
    - bind_inv Hstep as hit Hhit.
      apply same_lower_ok in Hhit; destruct Hhit as (p & Hp & ->).
      apply predicted_ok in Hp; rewrite Hp.
      injection Hstep as <-; simpl; repeat split; reflexivity.
    - injection Hstep as <-; repeat split; reflexivity. }
  destruct Hfirst as (A1 & A2 & A3 & A4 & A5 & A6).
  destruct (truthy gt_urg); simpl.
  - bind_inv H as hit Hhit.
    apply same_lower_ok in Hhit; destruct Hhit as (p & Hp & ->).
    apply predicted_ok in Hp; rewrite Hp.
    injection H as <-; simpl.
    rewrite A1, A2, A3, A4, A5, A6; repeat split; reflexivity.
  - injection H as <-.
    rewrite A1, A2, A3, A4, A5, A6; repeat split; reflexivity.
Qed.

(** What the solver half of the loop body does to the counters. *)
Lemma tally_solver_ok (r : dict) (c c' : counters) :
  tally_solver r c = Ok c' ->
  solved r = Ok (solver_succeeded r)
  /\ routing_attempts c' = routing_attempts c
  /\ correctly_routed c' = correctly_routed c
  /\ urgency_attempts c' = urgency_attempts c
  /\ correctly_urgent c' = correctly_urgent c
  /\ team_assignment_attempts c' =
       bump (team_attempted r) (team_assignment_attempts c)
  /\ correctly_assigned_team c' =
       bump (team_matched r) (correctly_assigned_team c).
Proof.
  unfold tally_solver, team_matched, team_attempted, solved,
    solver_succeeded, assigned_team_of.
  intros H.
  bind_inv H as st Hst.
  apply attr_get_ok in Hst; destruct Hst as (so & Hso & ->).
  rewrite Hso in *; simpl.
  split; [reflexivity|].
  destruct (eq_str (get "status" so VNone) "SUCCESS"); simpl;
    [|injection H as <-; repeat split; reflexivity].
  bind_inv H as gt_team Hteam.
  apply ground_truth_ok in Hteam; destruct Hteam as (Ht1 & Ht2).
  rewrite Ht1, Ht2; clear Ht1 Ht2.
  destruct (truthy gt_team); simpl;
    [|injection H as <-; repeat split; reflexivity].
  bind_inv H as data Hdata.
  apply attr_get_ok in Hdata; destruct Hdata as (so' & Hso' & ->).
  injection Hso' as <-.
  bind_inv H as ai_team Hai.
  apply attr_get_ok in Hai; destruct Hai as (d' & Hd' & ->).
  rewrite Hd'.
  bind_inv H as hit Hhit.
  apply same_lower_ok in Hhit; destruct Hhit as (p & Hp & ->).
  injection Hp as <-.
  injection H as <-; simpl; repeat split; reflexivity.
Qed.

Lemma count_cons {A} (p : A -> bool) (x : A) (xs : list A) :
  count p (x :: xs) = ((if p x then 1 else 0) + count p xs)%nat.
Proof. unfold count; simpl; destruct (p x); reflexivity. Qed.

Lemma bump_count (b : bool) (n m : nat) :
  (bump b n + m = n + ((if b then 1 else 0) + m))%nat.
Proof. destruct b; simpl; lia. Qed.

(** The loop counts exactly the envelopes that the reference notions
    select, whenever it runs to its end. *)
Lemma tally_all_ok (results : list dict) : forall c c',
  tally_all results c = Ok c' ->
  routing_attempts c' = (routing_attempts c + count routing_attempted results)%nat
  /\ correctly_routed c' = (correctly_routed c + count routing_matched results)%nat
  /\ urgency_attempts c' = (urgency_attempts c + count urgency_attempted results)%nat
  /\ correctly_urgent c' = (correctly_urgent c + count urgency_matched results)%nat
  /\ team_assignment_attempts c' =
       (team_assignment_attempts c + count team_attempted results)%nat
  /\ correctly_assigned_team c' =
       (correctly_assigned_team c + count team_matched results)%nat.
Proof.
  induction results as [|r results IH]; intros c c' H; simpl in H.
  - injection H as <-; unfold count; simpl; repeat split; lia.
  - bind_inv H as c2 Ht. unfold tally in Ht. bind_inv Ht as c1 Hr.
    apply tally_router_ok in Hr.
    apply tally_solver_ok in Ht.
    apply IH in H.
    destruct Hr as (R1 & R2 & R3 & R4 & R5 & R6).
    destruct Ht as (_ & S1 & S2 & S3 & S4 & S5 & S6).
    destruct H as (H1 & H2 & H3 & H4 & H5 & H6).
    rewrite !count_cons.
    rewrite H1, H2, H3, H4, H5, H6, S1, S2, S3, S4, S5, S6,
      R1, R2, R3, R4, R5, R6.
    rewrite !bump_count; repeat split; reflexivity.
Qed.

(** Every envelope of a list the loop ran through has a readable solver
    status. *)
Lemma tally_all_solved (results : list dict) : forall c c',
  tally_all results c = Ok c' ->
  Forall (fun r => solved r = Ok (solver_succeeded r)) results.
Proof.
  induction results as [|r results IH]; intros c c' H; simpl in H.
  - constructor.
  - bind_inv H as c2 Ht. unfold tally in Ht. bind_inv Ht as c1 Hr.
    apply tally_solver_ok in Ht. destruct Ht as (Hs & _).
    constructor; [exact Hs | eapply IH; eassumption].
Qed.

Lemma successes_ok (results : list dict) :
  Forall (fun r => solved r = Ok (solver_succeeded r)) results ->
  successes results = Ok (filter solver_succeeded results).
Proof.
  induction 1 as [|r results Hr _ IH]; simpl; [reflexivity|].
  rewrite Hr, IH; simpl. reflexivity.
Qed.

End EvaluationFacts.

Module MetricsFacts.

Import Evaluation Spec PyFacts EvaluationFacts.

Lemma compute_locals_ok (results : list dict) (l : locals) :
  compute_locals results = Ok l ->
  total_tickets l = List.length results
  /\ (exists total,
        sum (map (fun r => get "processing_time_seconds" r (VInt 0)) results)
          = Ok total
        /\ average_processing_time l =
             if (0 <? List.length results)%nat
             then (total / Qnat (List.length results))%Q else 0%Q)
  /\ tally_all results counters0 = Ok (counts l)
  /\ successful_solves l = count solver_succeeded results.
Proof.
  unfold compute_locals; intros H.
  bind_inv H as total Htotal.
  bind_inv H as c Hc.
  bind_inv H as ok Hok.
  injection H as <-; simpl.
  rewrite (successes_ok results (tally_all_solved _ _ _ Hc)) in Hok.
  injection Hok as <-.
  repeat split; eauto.
Qed.

(** The snapshot a returning run reports is the one of its locals, up to
    the judge section that the optional pass adds. *)
Lemma calculate_metrics_ok (j : judge) (results : list dict) (llm : bool)
    (m : dict) :
  results <> [] ->
  calculate_metrics j results llm = Ok m ->
  exists l,
    compute_locals results = Ok l
    /\ forall section key,
         key <> "llm_as_judge_metrics" ->
         metric section key m = metric section key (metrics_of l).
Proof.
  intros Hne H. destruct results as [|r results]; [contradiction|].
  unfold calculate_metrics in H.
  bind_inv H as l Hl. exists l; split; [exact Hl|].
  intros section key Hkey.
  remember (metrics_of l) as m0 eqn:Em0.
  destruct llm; [|injection H as <-; reflexivity].
  unfold llm_as_judge in H.
  bind_inv H as solves Hsolves.
  bind_inv H as scores Hscores.
  destruct solves as [|s solves]; [injection H as <-; reflexivity|].
  bind_inv H as ar Har. bind_inv H as ac Hac. bind_inv H as aa Haa.
  unfold set_solver_evaluation in H.
  bind_inv H as se Hse.
  destruct se as [| | | | | |d]; try discriminate.
  injection H as <-.
  unfold subscript in Hse.
  destruct (lookup "solver_evaluation" m0) as [v|] eqn:E;
    [|discriminate].
  injection Hse as ->.
  unfold metric.
  destruct (String.eqb section "solver_evaluation") eqn:Es.
  - apply String.eqb_eq in Es; subst section.
    rewrite lookup_set_same, E.
    apply lookup_set_other; exact Hkey.
  - apply String.eqb_neq in Es.
    rewrite lookup_set_other by exact Es. reflexivity.
Qed.

(** *** The loop runs through on scorable envelopes *)

Lemma label_ok_truthy (v : value) :
  label_ok v = true -> truthy v = true -> exists s, v = VStr s.
Proof.
  unfold label_ok. intros H Ht. rewrite Ht in H. simpl in H.
  destruct v; try discriminate. eauto.
Qed.

Lemma is_str_inv (v : value) : Agent.is_str v = true -> exists s, v = VStr s.
Proof. destruct v; try discriminate. eauto. Qed.

(** One guarded comparison of the loop, on a label and a prediction the
    loop can compare. *)
Lemma compare_returns {A} (gt p : value) (k : bool -> A) (skip : A) :
  label_ok gt = true ->
  Agent.is_str p = true ->
  exists a : A,
    (if truthy gt then hit <- same_lower gt (Ok p) ;; Ok (k hit) else Ok skip)
    = Ok a.
Proof.
  intros Hgt Hp. destruct (truthy gt) eqn:Ht; [|eauto].
  apply label_ok_truthy in Hgt; [|exact Ht]. destruct Hgt as (s & ->).
  apply is_str_inv in Hp. destruct Hp as (s' & ->).
  simpl. eauto.
Qed.

Lemma tally_router_scorable (r : dict) (c : counters) :
  scorable r = true -> exists c', tally_router r c = Ok c'.
Proof.
  unfold scorable. intros H.
  apply andb_prop in H; destruct H as (H & _).
  apply andb_prop in H; destruct H as (H & Hrouter).
  apply andb_prop in H; destruct H as (_ & Hticket).
  unfold tally_router.
  destruct (eq_str (get "router_output" r VNone) "ROUTING FAILED");
    simpl; [eauto|].
  simpl in Hrouter.
  unfold ground_truth, predicted, subscript.
  destruct (get "original_ticket" r (VDict [])) as [| | | | | |t];
    try discriminate.
  simpl in Hticket.
  apply andb_prop in Hticket; destruct Hticket as (Hcat & Hticket).
  apply andb_prop in Hticket; destruct Hticket as (Hurg & _).
  destruct (lookup "router_output" r) as [[| | | | | |ro]|]; try discriminate.
  apply andb_prop in Hrouter; destruct Hrouter as (Hpc & Hpu).
  cbn [bind attr_get].
  destruct (compare_returns (get "ground_truth_category" t VNone)
              (get "category" ro (VStr ""))
              (fun hit =>
                 {| correctly_routed := bump hit (correctly_routed c);
                    routing_attempts := S (routing_attempts c);
                    correctly_urgent := correctly_urgent c;
                    urgency_attempts := urgency_attempts c;
                    correctly_assigned_team := correctly_assigned_team c;
                    team_assignment_attempts := team_assignment_attempts c |})
              c Hcat Hpc) as (c1 & Hc1).
  rewrite Hc1. cbn [bind].
  apply (compare_returns (get "ground_truth_urgency" t VNone)
           (get "urgency" ro (VStr ""))
           (fun hit =>
              {| correctly_routed := correctly_routed c1;
                 routing_attempts := routing_attempts c1;
                 correctly_urgent := bump hit (correctly_urgent c1);
                 urgency_attempts := S (urgency_attempts c1);
                 correctly_assigned_team := correctly_assigned_team c1;
                 team_assignment_attempts := team_assignment_attempts c1 |})
           c1 Hurg Hpu).
Qed.

Lemma tally_solver_scorable (r : dict) (c : counters) :
  scorable r = true -> exists c', tally_solver r c = Ok c'.
Proof.
  unfold scorable. intros H.
  apply andb_prop in H; destruct H as (H & Hsolver).
  apply andb_prop in H; destruct H as (H & _).
  apply andb_prop in H; destruct H as (_ & Hticket).
  unfold tally_solver, ground_truth.
  destruct (get "solver_output" r (VDict [])) as [| | | | | |so];
    try discriminate.
  cbn [bind attr_get].
  destruct (eq_str (get "status" so VNone) "SUCCESS"); [|eauto].
  simpl in Hsolver.
  destruct (get "original_ticket" r (VDict [])) as [| | | | | |t];
    try discriminate.
  simpl in Hticket.
  apply andb_prop in Hticket; destruct Hticket as (_ & Hticket).
  apply andb_prop in Hticket; destruct Hticket as (_ & Hticket).
  apply andb_prop in Hticket; destruct Hticket as (Hteam & _).
  cbn [bind attr_get].
  destruct (truthy (get "ground_truth_team" t VNone)) eqn:Ht; [|eauto].
  destruct (get "data" so (VDict [])) as [| | | | | |data]; try discriminate.
  cbn [bind attr_get].
  apply label_ok_truthy in Hteam; [|exact Ht]. destruct Hteam as (s & ->).
  apply is_str_inv in Hsolver. destruct Hsolver as (s' & ->).
  simpl. eauto.
Qed.

Lemma tally_all_scorable (results : list dict) :
  forallb scorable results = true ->
  forall c, exists c', tally_all results c = Ok c'.
Proof.
  induction results as [|r results IH]; intros H c; simpl; [eauto|].
  simpl in H. apply andb_prop in H; destruct H as (Hr & H).
  unfold tally.
  destruct (tally_router_scorable r c Hr) as (c1 & ->). cbn [bind].
  destruct (tally_solver_scorable r c1 Hr) as (c2 & ->). cbn [bind].
  apply IH; exact H.
Qed.

Lemma sum_scorable (results : list dict) :
  forallb scorable results = true ->
  forall acc, exists total,
    sum_from acc
      (map (fun r => get "processing_time_seconds" r (VInt 0)) results)
    = Ok total.
Proof.
  induction results as [|r results IH]; intros H acc; simpl; [eauto|].
  simpl in H. apply andb_prop in H; destruct H as (Hr & H).
  unfold scorable in Hr.
  apply andb_prop in Hr; destruct Hr as (Hr & _).
  apply andb_prop in Hr; destruct Hr as (Hr & _).
  apply andb_prop in Hr; destruct Hr as (Hr & _).
  destruct (as_number (get "processing_time_seconds" r (VInt 0)));
    [|discriminate].
  apply IH; exact H.
Qed.

(** With the judgment pass off, [calculate_metrics] returns a snapshot on
    every list of scorable envelopes. *)
Lemma calculate_metrics_returns_on_scorable (j : judge) (results : list dict) :
  forallb scorable results = true ->
  exists m, calculate_metrics j results false = Ok m.
Proof.
  intros H. destruct results as [|r results]; [simpl; eauto|].
  unfold calculate_metrics, compute_locals, sum.
  destruct (sum_scorable _ H 0%Q) as (total & ->). cbn [bind].
  destruct (tally_all_scorable _ H counters0) as (c & Hc).
  rewrite Hc. cbn [bind].
  rewrite (successes_ok _ (tally_all_solved _ _ _ Hc)). cbn [bind].
  eauto.
Qed.

End MetricsFacts.

(* ================================================================== *)
(** ** Properties of the metrics engine *)
(* ================================================================== *)

Module MetricsProps.

Import Evaluation Spec PyFacts EvaluationFacts MetricsFacts.

Lemma solved_null_solver_output (r : dict) :
  lookup "solver_output" r = Some VNone -> solved r = Raise AttributeError.
Proof.
  intros H; unfold solved, get; rewrite H; reflexivity.
Qed.

Lemma calculate_metrics_solved (j : judge) (results : list dict) (llm : bool)
    (m : dict) :
  calculate_metrics j results llm = Ok m ->
  Forall (fun r => solved r = Ok (solver_succeeded r)) results.
Proof.
  intros H. destruct results as [|r results]; [constructor|].
  apply calculate_metrics_ok in H; [|discriminate].
  destruct H as (l & Hl & _).
  apply compute_locals_ok in Hl; destruct Hl as (_ & _ & Hc & _).
  eapply tally_all_solved; eassumption.
Qed.

(** C1 (defect). The claim asks [calculate_metrics] to return a snapshot
    for every envelope list, also when an envelope records a routing
    failure with a null [solver_output]. The code raises instead: as soon
    as one envelope of the list binds [solver_output] to [None], which is
    what [main] records for every failed routing, the call ends with an
    exception and no snapshot. *)
Theorem calculate_metrics_raises_on_null_solver_output :
  forall (j : judge) (results : list dict) (llm : bool) (r : dict),
    In r results ->
    lookup "solver_output" r = Some VNone ->
    exists e, calculate_metrics j results llm = Raise e.
Proof.
  intros j results llm r Hin Hnull.
  destruct (calculate_metrics j results llm) as [m|e] eqn:E; [|eauto].
  exfalso.
  apply calculate_metrics_solved in E.
  rewrite Forall_forall in E. specialize (E r Hin).
  rewrite (solved_null_solver_output r Hnull) in E. discriminate.
Qed.

Lemma calculate_metrics_raises_on_null_solver_output_witness :
  In (routing_failed_envelope [] 1) [routing_failed_envelope [] 1]
  /\ lookup "solver_output" (routing_failed_envelope [] 1) = Some VNone
  /\ exists e,
       calculate_metrics judge_down [routing_failed_envelope [] 1] false
         = Raise e.
Proof.
  split; [simpl; auto|]. split; [reflexivity|].
  apply (calculate_metrics_raises_on_null_solver_output judge_down
           [routing_failed_envelope [] 1] false (routing_failed_envelope [] 1));
    [simpl; auto | reflexivity].
Defined.

(** The exception of the smallest such list is the [AttributeError] of
    [None.get]. *)
Example routing_failure_alone_raises :
  calculate_metrics judge_down [routing_failed_envelope [] 1] false
    = Raise AttributeError.
Proof. reflexivity. Qed.

(** Three tickets: one routed to BUGS with ground truth BUGS, one whose
    routing failed, one routed to QUERY with no ground-truth category.
    The run of [calculate_metrics] on their records raises. *)
Example three_tickets_one_routing_failure :
  calculate_metrics judge_down
    [solved_envelope [("ground_truth_category", VStr "BUGS")]
       "BUGS" "High" "Backend" 1;
     routing_failed_envelope [("ground_truth_category", VStr "QUERY")] 1;
     solved_envelope [] "QUERY" "Low" "Customer Support" 1] false
  = Raise AttributeError.
Proof. reflexivity. Qed.

(** The success rate of a list the computation ran through. *)
Lemma solver_success_rate_when_returned (j : judge) (results : list dict)
    (llm : bool) (m : dict) :
  results <> [] ->
  calculate_metrics j results llm = Ok m ->
  metric "solver_evaluation" "solver_success_rate_percent" m
    = Some (VStr (format_2f (percent (count solver_succeeded results)
                               (List.length results)) ++ "%")).
Proof.
  intros Hne H. apply calculate_metrics_ok in H; [|exact Hne].
  destruct H as (l & Hl & Hm).
  rewrite Hm by discriminate.
  apply compute_locals_ok in Hl; destruct Hl as (Hn & _ & _ & Hs).
  unfold metric; simpl. rewrite Hn, Hs. reflexivity.
Qed.

(** C2 (defect, the one of C1). The claim asks for a success rate of one
    half on a list of one solved envelope and one envelope of a failed
    routing. The code raises [AttributeError] on that list and reports no
    rate. *)
Theorem solver_success_rate_lost_on_routing_failure :
  let results :=
    [solved_envelope [] "BUGS" "High" "Backend" 1;
     routing_failed_envelope [] 1] in
  calculate_metrics judge_down results false = Raise AttributeError
  /\ count solver_succeeded results = 1%nat
  /\ List.length results = 2%nat
  /\ format_2f (percent 1 2) = "50.00".
Proof. repeat split; reflexivity. Qed.

Lemma judge_all_every_call_fails (j : judge) (solves : list dict) :
  (forall n t s, run_solver_evaluator (j n) t s = None) ->
  forall n acc scores,
    judge_all j n solves acc = Ok scores -> scores = acc.
Proof.
  intros Hdown; induction solves as [|r solves IH]; intros n acc scores H;
    simpl in H.
  - injection H as <-; reflexivity.
  - bind_inv H as t Ht. bind_inv H as s Hs.
    rewrite Hdown in H. eapply IH; eassumption.
Qed.

(** C3 (defect). The claim asks the metrics computation to complete when
    every judgment call fails. With the judgment pass enabled, the code
    raises whenever at least one envelope was solved and no judgment
    succeeded: the three score lists stay empty and the mean of an empty
    list is an error, the guard being on the list of solved envelopes and
    not on the scores. *)
Theorem calculate_metrics_raises_when_every_judgment_fails :
  forall (j : judge) (results : list dict),
    (forall n t s, run_solver_evaluator (j n) t s = None) ->
    (exists r, In r results /\ solver_succeeded r = true) ->
    exists e, calculate_metrics j results true = Raise e.
Proof.
  intros j results Hdown (r & Hin & Hsucc).
  destruct (calculate_metrics j results true) as [m|e] eqn:E; [|eauto].
  exfalso.
  pose proof (calculate_metrics_solved _ _ _ _ E) as Hsolved.
  apply successes_ok in Hsolved.
  destruct results as [|r0 results]; [contradiction|].
  unfold calculate_metrics in E.
  bind_inv E as l Hl.
  assert (Hmem : In r (filter solver_succeeded (r0 :: results)))
    by (apply filter_In; split; assumption).
  remember (filter solver_succeeded (r0 :: results)) as solves eqn:Esolves.
  unfold llm_as_judge in E. rewrite Hsolved in E. simpl in E.
  bind_inv E as scores Hscores.
  apply (judge_all_every_call_fails j _ Hdown) in Hscores. subst scores.
  destruct solves as [|s solves]; [contradiction|].
  simpl in E. discriminate.
Qed.

Lemma calculate_metrics_raises_when_every_judgment_fails_witness :
  (forall n t s, run_solver_evaluator (judge_down n) t s = None)
  /\ (exists r,
        In r [solved_envelope [] "BUGS" "High" "Backend" 1]
        /\ solver_succeeded r = true)
  /\ exists e,
       calculate_metrics judge_down
         [solved_envelope [] "BUGS" "High" "Backend" 1] true = Raise e.
Proof.
  assert (Hdown : forall n t s, run_solver_evaluator (judge_down n) t s = None)
    by reflexivity.
  assert (Hex : exists r,
             In r [solved_envelope [] "BUGS" "High" "Backend" 1]
             /\ solver_succeeded r = true).
  { exists (solved_envelope [] "BUGS" "High" "Backend" 1).
    split; [simpl; auto | reflexivity]. }
  split; [exact Hdown|]. split; [exact Hex|].
  exact (calculate_metrics_raises_when_every_judgment_fails judge_down
           [solved_envelope [] "BUGS" "High" "Backend" 1] Hdown Hex).
Defined.

(** A failed judgment next to one that succeeds is skipped: the averages
    are those of the judgment that succeeded. *)
Example one_failed_judgment_is_skipped :
  option_map (fun m => metric "solver_evaluation" "llm_as_judge_metrics" m)
    (match calculate_metrics judge_after_first
             [solved_envelope [] "BUGS" "High" "Backend" 1;
              solved_envelope [] "QUERY" "Low" "Backend" 1] true with
     | Ok m => Some m
     | Raise _ => None
     end)
  = Some (Some (VDict
       [("evaluations_performed", VInt 1);
        ("avg_relevance_score", VStr "4.00 / 5");
        ("avg_clarity_score", VStr "5.00 / 5");
        ("avg_actionability_score", VStr "3.00 / 5")])).
Proof. reflexivity. Qed.

(** The exception is the [StatisticsError] of [statistics.mean]. *)
Example every_judgment_fails_raises :
  calculate_metrics judge_down
    [solved_envelope [] "BUGS" "High" "Backend" 1] true
    = Raise StatisticsError.
Proof. reflexivity. Qed.

Lemma count_le_length {A} (p : A -> bool) (xs : list A) :
  (count p xs <= List.length xs)%nat.
Proof. unfold count; apply filter_length_le. Qed.

Lemma count_all {A} (p : A -> bool) (xs : list A) :
  count p xs = List.length xs <-> forallb p xs = true.
Proof.
  induction xs as [|x xs IH]; [unfold count; simpl; tauto|].
  rewrite count_cons; simpl.
  pose proof (count_le_length p xs) as Hle.
  destruct (p x); simpl.
  - rewrite <- IH; split; intros H; lia.
  - split; [intros H; lia | discriminate].
Qed.

(** C4 (defect, the one of C1). The claim gives the two denominators for
    every envelope list. On the records of three tickets, one routed to
    BUGS with ground truth BUGS, one whose routing failed, one routed to
    QUERY with no ground-truth category, the routing denominator it asks
    for is 1 (the record of the failed routing is left out although its
    ticket has a ground-truth category) and the urgency denominator is 1,
    out of 3 tickets. The code raises [AttributeError] on that list, at
    the null solver output of the failed routing, and reports no
    denominator. *)
Theorem accuracy_denominators_lost_on_routing_failure :
  let results :=
    [solved_envelope
       [("ground_truth_category", VStr "BUGS");
        ("ground_truth_urgency", VStr "High")]
       "BUGS" "High" "Backend" 1;
     routing_failed_envelope
       [("ground_truth_category", VStr "QUERY");
        ("ground_truth_urgency", VStr "Low")] 1;
     solved_envelope [] "QUERY" "Low" "Customer Support" 1] in
  calculate_metrics judge_down results false = Raise AttributeError
  /\ calculate_metrics judge_down results true = Raise AttributeError
  /\ tally_all results counters0 = Raise AttributeError
  /\ count routing_attempted results = 1%nat
  /\ count urgency_attempted results = 1%nat
  /\ List.length results = 3%nat.
Proof. repeat split; reflexivity. Qed.

(** The denominators of a list the computation ran through. On every
    envelope list on which [calculate_metrics] returns, the
    routing-accuracy denominator is the number of envelopes
    where routing succeeded and a ground-truth category exists, and the
    urgency-accuracy denominator is the number where routing succeeded and
    a ground-truth urgency exists; the two are counted by tests of their
    own, and both are reported for a list that is not empty. Each
    denominator is at most the total ticket count and equals it exactly
    when every envelope of the list is counted. *)
Theorem accuracy_denominators_are_filtered_counts :
  forall (j : judge) (results : list dict) (llm : bool) (m : dict),
    calculate_metrics j results llm = Ok m ->
    exists c,
      tally_all results counters0 = Ok c
      /\ routing_attempts c = count routing_attempted results
      /\ urgency_attempts c = count urgency_attempted results
      /\ (results <> [] ->
          metric "router_evaluation" "routing_accuracy_percent" m
            = Some (VStr (percent_with_counts (correctly_routed c)
                            (count routing_attempted results)))
          /\ metric "router_evaluation" "urgency_accuracy_percent" m
               = Some (VStr (percent_with_counts (correctly_urgent c)
                               (count urgency_attempted results))))
      /\ (count routing_attempted results <= List.length results)%nat
      /\ (count urgency_attempted results <= List.length results)%nat
      /\ (count routing_attempted results = List.length results
          <-> forallb routing_attempted results = true)
      /\ (count urgency_attempted results = List.length results
          <-> forallb urgency_attempted results = true).
Proof.
  intros j results llm m H.
  assert (Hbounds :
    (count routing_attempted results <= List.length results)%nat
    /\ (count urgency_attempted results <= List.length results)%nat
    /\ (count routing_attempted results = List.length results
        <-> forallb routing_attempted results = true)
    /\ (count urgency_attempted results = List.length results
        <-> forallb urgency_attempted results = true)).
  { repeat split; try apply count_le_length; apply count_all. }
  destruct results as [|r results].
  - exists counters0. split; [reflexivity|].
    split; [reflexivity|]. split; [reflexivity|].
    split; [intros Hne; contradiction | exact Hbounds].
  - apply calculate_metrics_ok in H; [|discriminate].
    destruct H as (l & Hl & Hm).
    apply compute_locals_ok in Hl; destruct Hl as (_ & _ & Hc & _).
    pose proof (tally_all_ok _ _ _ Hc) as (H1 & _ & H3 & _).
    simpl in H1, H3.
    exists (counts l). split; [exact Hc|].
    split; [exact H1|]. split; [exact H3|].
    split; [|exact Hbounds].
    intros _. rewrite !Hm by discriminate.
    unfold metric; simpl lookup. rewrite H1, H3. split; reflexivity.
Qed.

Lemma accuracy_denominators_are_filtered_counts_witness :
  calculate_metrics judge_down
    [solved_envelope [("ground_truth_category", VStr "bugs")]
       "BUGS" "High" "Backend" 1;
     solved_envelope [("ground_truth_urgency", VStr "low")]
       "QUERY" "High" "Backend" 2;
     solved_envelope [] "QUERY" "Low" "Backend" 3] false
  = Ok
      [("overall_performance", VDict
          [("total_tickets_processed", VInt 3);
           ("average_processing_time_seconds", VStr "2.00")]);
       ("router_evaluation", VDict
          [("routing_accuracy_percent", VStr "100.00% (1/1)");
           ("urgency_accuracy_percent", VStr "0.00% (0/1)")]);
       ("solver_evaluation", VDict
          [("solver_success_rate_percent", VStr "100.00%");
           ("team_assignment_accuracy_percent", VStr "0.00% (0/0)")])]
  /\ exists c,
       tally_all
         [solved_envelope [("ground_truth_category", VStr "bugs")]
            "BUGS" "High" "Backend" 1;
          solved_envelope [("ground_truth_urgency", VStr "low")]
            "QUERY" "High" "Backend" 2;
          solved_envelope [] "QUERY" "Low" "Backend" 3] counters0 = Ok c
       /\ routing_attempts c = 1%nat
       /\ urgency_attempts c = 1%nat.
Proof.
  split; [reflexivity|].
  destruct (accuracy_denominators_are_filtered_counts judge_down
              [solved_envelope [("ground_truth_category", VStr "bugs")]
                 "BUGS" "High" "Backend" 1;
               solved_envelope [("ground_truth_urgency", VStr "low")]
                 "QUERY" "High" "Backend" 2;
               solved_envelope [] "QUERY" "Low" "Backend" 3] false _
              eq_refl) as (c & Hc & H1 & H2 & _).
  exists c. split; [exact Hc|]. split; [exact H1 | exact H2].
Defined.

(** C5 (as stated, refuted). The claim has the empty envelope list
    reported with an average latency of zero. For the empty list the code
    returns the empty dictionary, which has no latency entry at all. *)
Lemma empty_list_reports_no_latency :
  calculate_metrics judge_down [] false = Ok []
  /\ metric "overall_performance" "average_processing_time_seconds" [] = None
  /\ metric "overall_performance" "average_processing_time_seconds" []
       <> Some (VStr (format_2f 0)).
Proof.
  split; [reflexivity|]. split; [reflexivity | discriminate].
Qed.

(** C5 (amended). For the empty envelope list [calculate_metrics] returns
    the empty snapshot, with no latency entry. For every envelope list
    that is not empty and on which it returns, the reported average
    latency is the arithmetic mean of the per-ticket processing durations
    (an envelope with no recorded duration counts for 0), written with two
    decimals. *)
Theorem average_latency_is_the_mean :
  (forall (j : judge) (llm : bool), calculate_metrics j [] llm = Ok [])
  /\ forall (j : judge) (results : list dict) (llm : bool) (m : dict),
       results <> [] ->
       calculate_metrics j results llm = Ok m ->
       metric "overall_performance" "average_processing_time_seconds" m
         = Some (VStr (format_2f (arithmetic_mean (map duration results)))).
Proof.
  split; [reflexivity|].
  intros j results llm m Hne H.
  apply calculate_metrics_ok in H; [|exact Hne].
  destruct H as (l & Hl & Hm).
  rewrite Hm by discriminate.
  apply compute_locals_ok in Hl.
  destruct Hl as (_ & (total & Hsum & Havg) & _ & _).
  change (metric "overall_performance" "average_processing_time_seconds"
            (metrics_of l))
    with (Some (VStr (format_2f (average_processing_time l)))).
  do 2 f_equal.
  apply format_2f_comp. rewrite Havg.
  assert (Hpos : (0 <? List.length results)%nat = true).
  { apply Nat.ltb_lt. destruct results; [contradiction | simpl; lia]. }
  rewrite Hpos.
  apply sum_from_ok in Hsum; destruct Hsum as (_ & Hsum).
  rewrite map_map in Hsum.
  unfold arithmetic_mean. rewrite length_map.
  rewrite Hsum. unfold duration. field.
  unfold Qnat. intros Hz.
  destruct results; [contradiction|]. discriminate Hz.
Qed.

Lemma average_latency_is_the_mean_witness :
  [solved_envelope [] "BUGS" "High" "Backend" 1;
   solved_envelope [] "QUERY" "Low" "Backend" (5 # 2)] <> []
  /\ metric "overall_performance" "average_processing_time_seconds"
       [("overall_performance", VDict
           [("total_tickets_processed", VInt 2);
            ("average_processing_time_seconds", VStr "1.75")]);
        ("router_evaluation", VDict
           [("routing_accuracy_percent", VStr "0.00% (0/0)");
            ("urgency_accuracy_percent", VStr "0.00% (0/0)")]);
        ("solver_evaluation", VDict
           [("solver_success_rate_percent", VStr "100.00%");
            ("team_assignment_accuracy_percent", VStr "0.00% (0/0)")])]
     = Some (VStr (format_2f (arithmetic_mean
                     (map duration
                        [solved_envelope [] "BUGS" "High" "Backend" 1;
                         solved_envelope [] "QUERY" "Low" "Backend"
                           (5 # 2)])))).
Proof.
  split; [discriminate|].
  refine (proj2 average_latency_is_the_mean judge_down
            [solved_envelope [] "BUGS" "High" "Backend" 1;
             solved_envelope [] "QUERY" "Low" "Backend" (5 # 2)] false _ _ _).
  - discriminate.
  - reflexivity.
Defined.

(** C8. Every comparison with a ground-truth field ignores letter case:
    two strings count as equal exactly when their lowercased forms are the
    same, and on every list on which [calculate_metrics] returns, each of
    the three matched counters (category, urgency, team) is the number of
    counted envelopes whose ground truth and prediction are equal in that
    sense; these are the counts the snapshot reports. *)
Theorem ground_truth_comparisons_ignore_case :
  (forall a b : string,
     equal_ignoring_case (VStr a) (VStr b) = true <-> lower a = lower b)
  /\ forall (j : judge) (results : list dict) (llm : bool) (m : dict),
       calculate_metrics j results llm = Ok m ->
       exists c,
         tally_all results counters0 = Ok c
         /\ correctly_routed c = count routing_matched results
         /\ correctly_urgent c = count urgency_matched results
         /\ correctly_assigned_team c = count team_matched results
         /\ (results <> [] ->
             metric "router_evaluation" "routing_accuracy_percent" m
               = Some (VStr (percent_with_counts
                               (count routing_matched results)
                               (count routing_attempted results)))
             /\ metric "router_evaluation" "urgency_accuracy_percent" m
                  = Some (VStr (percent_with_counts
                                  (count urgency_matched results)
                                  (count urgency_attempted results)))
             /\ metric "solver_evaluation" "team_assignment_accuracy_percent" m
                  = Some (VStr (percent_with_counts
                                  (count team_matched results)
                                  (count team_attempted results)))).
Proof.
  split; [intros a b; simpl; apply String.eqb_eq|].
  intros j results llm m H.
  destruct results as [|r results].
  - exists counters0. repeat split; try reflexivity; contradiction.
  - apply calculate_metrics_ok in H; [|discriminate].
    destruct H as (l & Hl & Hm).
    apply compute_locals_ok in Hl; destruct Hl as (_ & _ & Hc & _).
    pose proof (tally_all_ok _ _ _ Hc) as (H1 & H2 & H3 & H4 & H5 & H6).
    simpl in H1, H2, H3, H4, H5, H6.
    exists (counts l). split; [exact Hc|].
    split; [exact H2|]. split; [exact H4|]. split; [exact H6|].
    intros _. rewrite !Hm by discriminate.
    change (metric "router_evaluation" "routing_accuracy_percent"
              (metrics_of l))
      with (Some (VStr (percent_with_counts (correctly_routed (counts l))
                          (routing_attempts (counts l))))).
    change (metric "router_evaluation" "urgency_accuracy_percent"
              (metrics_of l))
      with (Some (VStr (percent_with_counts (correctly_urgent (counts l))
                          (urgency_attempts (counts l))))).
    change (metric "solver_evaluation" "team_assignment_accuracy_percent"
              (metrics_of l))
      with (Some (VStr (percent_with_counts
                          (correctly_assigned_team (counts l))
                          (team_assignment_attempts (counts l))))).
    rewrite H1, H2, H3, H4, H5, H6. repeat split; reflexivity.
Qed.

Lemma ground_truth_comparisons_ignore_case_witness :
  lower "backend" = lower "Backend"
  /\ calculate_metrics judge_down
       [solved_envelope
          [("ground_truth_category", VStr "bugs");
           ("ground_truth_urgency", VStr "HIGH");
           ("ground_truth_team", VStr "Backend")]
          "BUGS" "High" "backend" 1] false
     = Ok
         [("overall_performance", VDict
             [("total_tickets_processed", VInt 1);
              ("average_processing_time_seconds", VStr "1.00")]);
          ("router_evaluation", VDict
             [("routing_accuracy_percent", VStr "100.00% (1/1)");
              ("urgency_accuracy_percent", VStr "100.00% (1/1)")]);
          ("solver_evaluation", VDict
             [("solver_success_rate_percent", VStr "100.00%");
              ("team_assignment_accuracy_percent", VStr "100.00% (1/1)")])]
  /\ exists c,
       tally_all
         [solved_envelope
            [("ground_truth_category", VStr "bugs");
             ("ground_truth_urgency", VStr "HIGH");
             ("ground_truth_team", VStr "Backend")]
            "BUGS" "High" "backend" 1] counters0 = Ok c
       /\ correctly_routed c = 1%nat
       /\ correctly_urgent c = 1%nat
       /\ correctly_assigned_team c = 1%nat.
Proof.
  split; [reflexivity|]. split; [reflexivity|].
  destruct (proj2 ground_truth_comparisons_ignore_case judge_down
              [solved_envelope
                 [("ground_truth_category", VStr "bugs");
                  ("ground_truth_urgency", VStr "HIGH");
                  ("ground_truth_team", VStr "Backend")]
                 "BUGS" "High" "backend" 1] false _ eq_refl)
    as (c & Hc & H1 & H2 & H3 & _).
  exists c. repeat split; assumption.
Defined.

Section FalsyGroundTruth.

(** An envelope [r] whose ticket [t] binds the ground-truth field [k] to a
    falsy value [v], and the same envelope with the field removed. *)
Variables (r : dict) (t : dict) (k : string) (v : value).
Hypothesis Hfield : In k ground_truth_fields.
Hypothesis Hticket : lookup "original_ticket" r = Some (VDict t).
Hypothesis Hbound : lookup k t = Some v.
Hypothesis Hfalsy : truthy v = false.

Let r' : dict := set "original_ticket" (VDict (pop k t)) r.

Lemma ground_truth_with_field (f : string) :
  ground_truth r f = Ok (get f t VNone).
Proof.
  unfold ground_truth. rewrite (get_present _ _ _ _ Hticket). reflexivity.
Qed.

Lemma ground_truth_without_field (f : string) :
  ground_truth r' f = Ok (get f (pop k t) VNone).
Proof.
  unfold ground_truth, r'. rewrite get_set_same. reflexivity.
Qed.

Lemma other_key_kept (f : string) (dflt : value) :
  f <> "original_ticket" -> get f r' dflt = get f r dflt.
Proof. intros H; unfold r'; apply get_set_other; exact H. Qed.

Lemma predicted_kept (f : string) : predicted r' f = predicted r f.
Proof.
  unfold predicted, subscript, r'.
  rewrite lookup_set_other by discriminate. reflexivity.
Qed.

Ltac field_cases :=
  destruct Hfield as [<-|[<-|[<-|[]]]];
  rewrite ?get_pop_same, ?(get_present _ _ _ _ Hbound), ?Hfalsy;
  rewrite ?get_pop_other by discriminate;
  reflexivity.

Lemma tally_router_falsy (c : counters) : tally_router r' c = tally_router r c.
Proof.
  unfold tally_router.
  rewrite (other_key_kept "router_output") by discriminate.
  destruct (negb (eq_str (get "router_output" r VNone) "ROUTING FAILED"));
    [|reflexivity].
  rewrite !ground_truth_without_field, !ground_truth_with_field,
    !predicted_kept.
  cbn [bind]. field_cases.
Qed.

Lemma tally_solver_falsy (c : counters) : tally_solver r' c = tally_solver r c.
Proof.
  unfold tally_solver.
  rewrite (other_key_kept "solver_output") by discriminate.
  rewrite !ground_truth_without_field, !ground_truth_with_field.
  cbn [bind]. field_cases.
Qed.

Lemma tally_falsy (c : counters) : tally r' c = tally r c.
Proof.
  unfold tally. rewrite tally_router_falsy.
  destruct (tally_router r c) as [c1|e]; simpl; [|reflexivity].
  apply tally_solver_falsy.
Qed.

Lemma solved_falsy : solved r' = solved r.
Proof.
  unfold solved. rewrite (other_key_kept "solver_output") by discriminate.
  reflexivity.
Qed.

Lemma tally_all_falsy (pre post : list dict) (c : counters) :
  tally_all (pre ++ r' :: post) c = tally_all (pre ++ r :: post) c.
Proof.
  revert c; induction pre as [|x pre IH]; intros c; simpl.
  - rewrite tally_falsy. reflexivity.
  - destruct (tally x c) as [c1|e]; simpl; [apply IH | reflexivity].
Qed.

Lemma successes_falsy (pre post : list dict) :
  bind (successes (pre ++ r' :: post)) (fun ok => Ok (List.length ok))
  = bind (successes (pre ++ r :: post)) (fun ok => Ok (List.length ok)).
Proof.
  induction pre as [|x pre IH]; simpl.
  - rewrite solved_falsy.
    destruct (solved r) as [b|e]; simpl; [|reflexivity].
    destruct (successes post) as [rest|e]; simpl; [|reflexivity].
    destruct b; reflexivity.
  - destruct (solved x) as [b|e]; simpl; [|reflexivity].
    destruct (successes (pre ++ r' :: post)) as [rest'|e'],
             (successes (pre ++ r :: post)) as [rest|e];
      simpl in *; try discriminate.
    + injection IH as IH. destruct b; simpl; rewrite IH; reflexivity.
    + exact IH.
Qed.

Lemma durations_falsy (pre post : list dict) :
  map (fun x => get "processing_time_seconds" x (VInt 0)) (pre ++ r' :: post)
  = map (fun x => get "processing_time_seconds" x (VInt 0)) (pre ++ r :: post).
Proof.
  rewrite !map_app; simpl.
  rewrite (other_key_kept "processing_time_seconds") by discriminate.
  reflexivity.
Qed.

Lemma compute_locals_falsy (pre post : list dict) :
  compute_locals (pre ++ r' :: post) = compute_locals (pre ++ r :: post).
Proof.
  unfold compute_locals.
  rewrite durations_falsy, tally_all_falsy.
  replace (List.length (pre ++ r' :: post))
    with (List.length (pre ++ r :: post))
    by (rewrite !length_app; reflexivity).
  destruct (sum _) as [total|e]; simpl; [|reflexivity].
  destruct (tally_all (pre ++ r :: post) counters0) as [c|e]; simpl;
    [|reflexivity].
  pose proof (successes_falsy pre post) as Hs.
  destruct (successes (pre ++ r' :: post)) as [ok'|e'],
           (successes (pre ++ r :: post)) as [ok|e];
    simpl in *; try discriminate.
  - injection Hs as ->. reflexivity.
  - injection Hs as ->. reflexivity.
Qed.

Lemma calculate_metrics_falsy (j : judge) (pre post : list dict) :
  calculate_metrics j (pre ++ r' :: post) false
  = calculate_metrics j (pre ++ r :: post) false.
Proof.
  unfold calculate_metrics.
  rewrite compute_locals_falsy.
  destruct pre; reflexivity.
Qed.

Lemma no_ground_truth_when_falsy : has_ground_truth k r = false.
Proof.
  unfold has_ground_truth, ticket_of.
  rewrite (get_present _ _ _ _ Hticket), (get_present _ _ _ _ Hbound).
  exact Hfalsy.
Qed.

End FalsyGroundTruth.

(** C9. A ground-truth field (category, urgency or team) that is present
    with a falsy value is treated as an absent one: removing the field
    from the ticket of the envelope changes neither what the loop body
    does to the counters nor, at any position of any envelope list, the
    result of [calculate_metrics]; the envelope is not counted in the
    denominator of that field. *)
Theorem falsy_ground_truth_is_absent :
  forall (r t : dict) (k : string) (v : value),
    In k ground_truth_fields ->
    lookup "original_ticket" r = Some (VDict t) ->
    lookup k t = Some v ->
    truthy v = false ->
    let r' := set "original_ticket" (VDict (pop k t)) r in
    lookup k (pop k t) = None
    /\ (forall c, tally r' c = tally r c)
    /\ (forall pre post,
          compute_locals (pre ++ r' :: post)
          = compute_locals (pre ++ r :: post))
    /\ (forall j pre post,
          calculate_metrics j (pre ++ r' :: post) false
          = calculate_metrics j (pre ++ r :: post) false)
    /\ has_ground_truth k r = false
    /\ has_ground_truth k r' = false.
Proof.
  intros r t k v Hfield Hticket Hbound Hfalsy r'.
  split; [apply lookup_pop_same|].
  split; [intros c; eapply tally_falsy; eassumption|].
  split; [intros pre post; eapply compute_locals_falsy; eassumption|].
  split; [intros j pre post; eapply calculate_metrics_falsy; eassumption|].
  split; [eapply no_ground_truth_when_falsy; eassumption|].
  unfold has_ground_truth, ticket_of, r'.
  rewrite get_set_same, get_pop_same. reflexivity.
Qed.

Lemma falsy_ground_truth_is_absent_witness :
  In "ground_truth_team" ground_truth_fields
  /\ lookup "original_ticket"
       (solved_envelope [("ground_truth_team", VStr "")]
          "BUGS" "High" "Backend" 1)
     = Some (VDict [("ground_truth_team", VStr "")])
  /\ lookup "ground_truth_team" [("ground_truth_team", VStr "")]
     = Some (VStr "")
  /\ truthy (VStr "") = false
  /\ calculate_metrics judge_down
       ([] ++ set "original_ticket"
                (VDict (pop "ground_truth_team"
                          [("ground_truth_team", VStr "")]))
                (solved_envelope [("ground_truth_team", VStr "")]
                   "BUGS" "High" "Backend" 1) :: []) false
     = calculate_metrics judge_down
         ([] ++ solved_envelope [("ground_truth_team", VStr "")]
                  "BUGS" "High" "Backend" 1 :: []) false.
Proof.
  assert (H1 : In "ground_truth_team" ground_truth_fields)
    by (simpl; auto).
  split; [exact H1|]. split; [reflexivity|]. split; [reflexivity|].
  split; [reflexivity|].
  exact (proj1 (proj2 (proj2 (proj2
           (falsy_ground_truth_is_absent
              (solved_envelope [("ground_truth_team", VStr "")]
                 "BUGS" "High" "Backend" 1)
              [("ground_truth_team", VStr "")] "ground_truth_team" (VStr "")
              H1 eq_refl eq_refl eq_refl))))
           judge_down [] []).
Defined.

(** The falsy field leaves the team denominator at 0: not an attempt that
    failed. *)
Example empty_team_label_is_not_an_attempt :
  metric "solver_evaluation" "team_assignment_accuracy_percent"
    (metrics_of
       {| total_tickets := 1; average_processing_time := 1;
          counts := counters0; successful_solves := 1 |})
  = Some (VStr "0.00% (0/0)")
  /\ calculate_metrics judge_down
       [solved_envelope [("ground_truth_team", VStr "")]
          "BUGS" "High" "Backend" 1] false
     = Ok (metrics_of
             {| total_tickets := 1; average_processing_time := 1;
                counts := counters0; successful_solves := 1 |}).
Proof. split; reflexivity. Qed.

(** A solved envelope is scorable; the record of a failed routing is not,
    for its null solver output. *)
Example scorable_envelopes :
  scorable (solved_envelope [("ground_truth_team", VStr "Backend")]
              "BUGS" "High" "backend" 1) = true
  /\ scorable (routing_failed_envelope [] 1) = false.
Proof. split; reflexivity. Qed.

End MetricsProps.

(* ================================================================== *)
(** ** Facts on the batch pipeline *)
(* ================================================================== *)

Module PipelineFacts.

Import Main Spec PyFacts.
#[local] Open Scope list_scope.

(** *** Batches *)

Lemma range_up_concat {A} (data : list A) (step : nat) :
  (0 < step)%nat ->
  forall fuel start,
    (List.length data <= fuel + start)%nat ->
    List.concat (map (fun i => slice data i step)
              (range_up fuel start (List.length data) step))
    = skipn start data.
Proof.
  intros Hstep; induction fuel as [|fuel IH]; intros start Hfuel; simpl.
  - symmetry; apply skipn_all2; lia.
  - destruct (Nat.ltb_spec start (List.length data)) as [Hlt|Hge]; simpl.
    + rewrite IH by lia. unfold slice.
      rewrite <- (firstn_skipn step (skipn start data)) at 2.
      rewrite skipn_skipn, (Nat.add_comm step start). reflexivity.
    + symmetry; apply skipn_all2; lia.
Qed.

(** For a positive size, [create_batches] returns and the batches, put
    end to end, are the data. *)
Lemma create_batches_concat {A} (data : list A) (size : Z) :
  (0 < size)%Z ->
  exists batches,
    create_batches data size = Ok batches /\ List.concat batches = data.
Proof.
  intros Hsize. unfold create_batches, range0.
  destruct (Z.eqb_spec size 0) as [->|_]; [lia|].
  destruct (Z.ltb_spec size 0) as [Hneg|_]; [lia|].
  simpl. eexists; split; [reflexivity|].
  rewrite range_up_concat by lia. apply skipn_0.
Qed.

Lemma fold_left_concat {S T} (f : S -> T -> S) (xss : list (list T)) :
  forall s,
    fold_left (fun s xs => fold_left f xs s) xss s
    = fold_left f (List.concat xss) s.
Proof.
  induction xss as [|xs xss IH]; intros s; simpl; [reflexivity|].
  rewrite fold_left_app. apply IH.
Qed.

Lemma in_slice {A} (data : list A) (lo size : nat) (x : A) :
  In x (slice data lo size) -> In x data.
Proof.
  unfold slice. intros H.
  rewrite <- (firstn_skipn lo data). apply in_or_app; right.
  rewrite <- (firstn_skipn size (skipn lo data)). apply in_or_app; left.
  exact H.
Qed.

Lemma map_nth_seq {A} (l : list A) (d : A) :
  map (fun i => nth i l d) (seq 0 (List.length l)) = l.
Proof.
  induction l as [|a l IH]; simpl; [reflexivity|].
  rewrite <- seq_shift, map_map. simpl. rewrite IH. reflexivity.
Qed.

(** *** The store *)

Lemma deref_new (h : heap) (d : dict) : deref (h ++ [d]) (List.length h) = d.
Proof. unfold deref. apply nth_middle. Qed.

Lemma modify_new (f : dict -> dict) (h : heap) (d : dict) :
  modify f (List.length h) (h ++ [d]) = (h ++ [f d])%list.
Proof.
  induction h as [|x h IH]; simpl; [reflexivity|].
  rewrite IH. reflexivity.
Qed.

(** The copy that [process_ticket] makes and strips is a new last object
    of the store; it holds the sanitized ticket. *)
Lemma sanitized_copy (h : heap) (ticket : loc) :
  let '(h1, c) := dict_copy h ticket in
  dict_pop "ground_truth_team" c
    (dict_pop "ground_truth_urgency" c
       (dict_pop "ground_truth_category" c h1))
  = (h ++ [sanitized (deref h ticket)])%list
  /\ c = List.length h.
Proof.
  unfold dict_copy, alloc, dict_pop, sanitized.
  rewrite !modify_new. split; reflexivity.
Qed.

(** *** One ticket *)

Lemma process_ticket_step (w : world) (st : state) (ticket : loc) :
  let sent := sanitized (deref (objects st) ticket) in
  let n := List.length (requests st) in
  let st' := process_ticket w st ticket in
  objects st' = (objects st ++ [sent])%list
  /\ exists e,
       all_results st' = (all_results st ++ [e])%list
       /\ original_ticket e = ticket
       /\ match Router.run_router (router_service w n) sent with
          | Some slip =>
              router_output e = VDict (Router.model_dump slip)
              /\ solver_output e =
                   VDict (Orchestrator.route_to_solver
                            (solver_service w (S n)) sent slip)
              /\ requests st' =
                   (requests st ++
                      [RouterRequest sent;
                       SolverRequest sent (Router.summary slip)])%list
          | None =>
              router_output e = VStr "ROUTING FAILED"
              /\ solver_output e = VNone
              /\ requests st' = (requests st ++ [RouterRequest sent])%list
          end.
Proof.
  intros sent n st'. subst st'. unfold process_ticket.
  pose proof (sanitized_copy (objects st) ticket) as Hcopy.
  destruct (dict_copy (objects st) ticket) as [h1 c].
  destruct Hcopy as (Hh & ->). rewrite Hh.
  rewrite deref_new. fold sent. fold n.
  destruct (Router.run_router (router_service w n) sent) as [slip|]; simpl.
  - split; [reflexivity|]. eexists; split; [reflexivity|].
    simpl. repeat split; reflexivity.
  - split; [reflexivity|]. eexists; split; [reflexivity|].
    simpl. repeat split; reflexivity.
Qed.

(** *** The run *)

Lemma run_inv_deref (orig : heap) (done : list loc) (st : state) (l : loc) :
  run_inv orig done st ->
  (l < List.length orig)%nat ->
  deref (objects st) l = deref orig l.
Proof.
  intros (Hobj & _) Hl. unfold deref.
  transitivity (nth l (firstn (List.length orig) (objects st)) []).
  - rewrite nth_firstn. apply Nat.ltb_lt in Hl. rewrite Hl. reflexivity.
  - rewrite Hobj. reflexivity.
Qed.

Lemma run_inv_step (w : world) (orig : heap) (done : list loc) (st : state)
    (ticket : loc) :
  run_inv orig done st ->
  (ticket < List.length orig)%nat ->
  run_inv orig (done ++ [ticket]) (process_ticket w st ticket).
Proof.
  intros Hinv Hticket.
  pose proof (run_inv_deref _ _ _ _ Hinv Hticket) as Hderef.
  destruct Hinv as (Hobj & Hres & Hreq).
  pose proof (process_ticket_step w st ticket) as (Ho & e & Ha & He & Hr).
  rewrite Hderef in Ho, Hr.
  assert (Hlen : (List.length orig <= List.length (objects st))%nat).
  { pose proof (f_equal (@List.length dict) Hobj) as Hl.
    rewrite length_firstn in Hl. lia. }
  assert (Hold : Forall (fun rq => exists l, In l (done ++ [ticket])
                           /\ payload rq = sanitized (deref orig l))
                   (requests st)).
  { eapply Forall_impl; [|exact Hreq].
    intros rq (l & Hl & Hp); exists l; split;
      [apply in_or_app; left; exact Hl | exact Hp]. }
  assert (Hnew : forall rq, payload rq = sanitized (deref orig ticket) ->
                   exists l, In l (done ++ [ticket])
                             /\ payload rq = sanitized (deref orig l)).
  { intros rq Hp; exists ticket; split;
      [apply in_or_app; right; simpl; auto | exact Hp]. }
  repeat split.
  - rewrite Ho, firstn_app.
    replace (List.length orig - List.length (objects st))%nat with 0%nat
      by lia.
    rewrite Hobj. apply app_nil_r.
  - rewrite Ha, map_app, Hres. simpl. rewrite He. reflexivity.
  - destruct (Router.run_router _ _) as [slip|];
      destruct Hr as (_ & _ & ->); apply Forall_app; split;
      try exact Hold; repeat constructor; apply Hnew; reflexivity.
Qed.

Lemma run_inv_fold (w : world) (orig : heap) (todo : list loc) :
  Forall (fun l => (l < List.length orig)%nat) todo ->
  forall done st,
    run_inv orig done st ->
    run_inv orig (done ++ todo) (fold_left (process_ticket w) todo st).
Proof.
  induction 1 as [|l todo Hl _ IH]; intros done st Hinv; simpl.
  - rewrite app_nil_r. exact Hinv.
  - replace (done ++ l :: todo)%list with ((done ++ [l]) ++ todo)%list
      by (rewrite <- app_assoc; reflexivity).
    apply IH. apply run_inv_step; assumption.
Qed.

(** [main] on a positive batch size: it returns, and its final state is
    the one of the loop run over the loaded tickets in order. *)
Lemma main_returns (w : world) (size : Z) (llm : bool) (tickets : list dict) :
  (0 < size)%Z ->
  exists r,
    main w size llm tickets = Ok r
    /\ run_inv tickets (seq 0 (List.length tickets)) (final r)
    /\ output_file r = map (view (objects (final r))) (all_results (final r)).
Proof.
  intros Hsize. unfold main.
  destruct (create_batches_concat (seq 0 (List.length tickets)) size Hsize)
    as (batches & -> & Hcat).
  cbn [bind]. eexists; split; [reflexivity|].
  cbn [final output_file]. split; [|reflexivity].
  unfold process_batches, process_batch.
  rewrite fold_left_concat. unfold loc. rewrite Hcat.
  apply (run_inv_fold w tickets (seq 0 (List.length tickets))) with (done := []).
  - apply Forall_forall. intros l Hl. apply in_seq in Hl. lia.
  - repeat split; simpl; [apply firstn_all | constructor].
Qed.

(** Whatever the batch size, a run that returns leaves the loaded ticket
    objects as they were loaded, and its records name loaded tickets. *)
Lemma main_frame (w : world) (size : Z) (llm : bool) (tickets : list dict)
    (r : run) :
  main w size llm tickets = Ok r ->
  exists done,
    run_inv tickets done (final r)
    /\ Forall (fun l => (l < List.length tickets)%nat) done.
Proof.
  unfold main. intros H.
  apply bind_ok in H. destruct H as (batches & Hb & H).
  injection H as <-. cbn [final].
  unfold process_batches, process_batch. rewrite fold_left_concat.
  assert (Hrefs : Forall (fun l => (l < List.length tickets)%nat)
                    (List.concat batches)).
  { unfold create_batches in Hb.
    apply bind_ok in Hb. destruct Hb as (starts & _ & Hb).
    injection Hb as <-.
    apply Forall_forall. intros l Hl.
    apply in_concat in Hl. destruct Hl as (b & Hb & Hl).
    apply in_map_iff in Hb. destruct Hb as (i & <- & _).
    apply in_slice, in_seq in Hl. lia. }
  exists (List.concat batches). split; [|exact Hrefs].
  apply (run_inv_fold w tickets (List.concat batches) Hrefs) with (done := []).
  repeat split; simpl; [apply firstn_all | constructor].
Qed.

End PipelineFacts.

(* ================================================================== *)
(** ** Properties of routing and of the batch pipeline *)
(* ================================================================== *)

Module PipelineProps.

Import Main Spec PyFacts PipelineFacts.
#[local] Open Scope list_scope.

Lemma member_of_value_outside {E} (value_of : E -> string) (members : list E)
    (s : string) :
  (forall m, value_of m <> s) ->
  Router.member_of_value value_of members s = None.
Proof.
  intros Hout. unfold Router.member_of_value.
  destruct (find _ members) as [m|] eqn:E0; [|reflexivity].
  apply find_some in E0. destruct E0 as (_ & E0).
  apply String.eqb_eq in E0. exfalso. apply (Hout m). symmetry. exact E0.
Qed.

Lemma validate_outside_category (raw : dict) (c : string) :
  lookup "category" raw = Some (VStr c) ->
  (forall m, Router.TicketCategory_value m <> c) ->
  Router.RoutingSlip_validate (VDict raw) = None.
Proof.
  intros Hc Hout. unfold Router.RoutingSlip_validate. rewrite Hc.
  rewrite (member_of_value_outside _ _ _ Hout).
  destruct (lookup "urgency" raw) as [[]|]; try reflexivity.
  destruct (lookup "summary" raw) as [[]|]; reflexivity.
Qed.

(** C6. For every ticket, when the inference service answers the routing
    request with a category string that is no member of [TicketCategory],
    the answer does not validate as a routing slip, [run_router] returns
    [None], and the record of the ticket has [router_output] equal to
    "ROUTING FAILED" and a null [solver_output]; no solver request is made,
    so no category, MISCELLANEOUS or other, stands in for the string. *)
Theorem unknown_category_is_a_routing_failure :
  forall (w : world) (st : state) (ticket : loc) (raw : dict) (c : string),
    let sent := sanitized (deref (objects st) ticket) in
    let n := List.length (requests st) in
    router_service w n (Router.prompt_content sent)
      = Agent.Content (VDict raw) ->
    lookup "category" raw = Some (VStr c) ->
    (forall m, Router.TicketCategory_value m <> c) ->
    Router.RoutingSlip_validate (VDict raw) = None
    /\ Router.run_router (router_service w n) sent = None
    /\ (exists e,
          all_results (process_ticket w st ticket) = all_results st ++ [e]
          /\ original_ticket e = ticket
          /\ router_output e = VStr "ROUTING FAILED"
          /\ solver_output e = VNone)
    /\ requests (process_ticket w st ticket)
         = requests st ++ [RouterRequest sent].
Proof.
  intros w st ticket raw c sent n Hreply Hc Hout.
  pose proof (validate_outside_category raw c Hc Hout) as Hval.
  assert (Hrun : Router.run_router (router_service w n) sent = None).
  { unfold Router.run_router, Agent.run_sync. rewrite Hreply, Hval.
    reflexivity. }
  split; [exact Hval|]. split; [exact Hrun|].
  pose proof (process_ticket_step w st ticket) as (_ & e & Ha & He & Hr).
  fold sent in Hr. fold n in Hr. rewrite Hrun in Hr.
  destruct Hr as (Hro & Hso & Hrq).
  split; [exists e; repeat split; assumption | exact Hrq].
Qed.

Lemma unknown_category_is_a_routing_failure_witness :
  router_service off_enum_world 0
    (Router.prompt_content
       (sanitized (deref (objects (start_state sample_tickets)) 0%nat)))
  = Agent.Content
      (VDict [("category", VStr "BILLING"); ("urgency", VStr "High");
              ("summary", VStr "An invoice question")])
  /\ (forall m, Router.TicketCategory_value m <> "BILLING")
  /\ Router.run_router (router_service off_enum_world 0)
       (sanitized (deref (objects (start_state sample_tickets)) 0%nat)) = None.
Proof.
  assert (Hout : forall m, Router.TicketCategory_value m <> "BILLING")
    by (intros []; discriminate).
  split; [reflexivity|]. split; [exact Hout|].
  exact (proj1 (proj2
           (unknown_category_is_a_routing_failure off_enum_world
              (start_state sample_tickets) 0%nat
              [("category", VStr "BILLING"); ("urgency", VStr "High");
               ("summary", VStr "An invoice question")]
              "BILLING" eq_refl eq_refl Hout))).
Defined.

(** The record of that ticket, computed. *)
Example off_enum_record :
  all_results (process_ticket off_enum_world (start_state sample_tickets) 0%nat)
  = [{| original_ticket := 0%nat;
        router_output := VStr "ROUTING FAILED";
        solver_output := VNone;
        processing_time_seconds := (1 - 0)%Q |}].
Proof. reflexivity. Qed.

Lemma sanitized_lacks_ground_truth (t : dict) (k : string) :
  In k ground_truth_fields -> lookup k (sanitized t) = None.
Proof.
  unfold sanitized. intros [<-|[<-|[<-|[]]]].
  - rewrite !lookup_pop_other by discriminate. apply lookup_pop_same.
  - rewrite lookup_pop_other by discriminate. apply lookup_pop_same.
  - apply lookup_pop_same.
Qed.

(** C7. For every ticket list and every positive batch size: the batches,
    put end to end, are the ticket list; [main] returns with exactly one
    record per ticket, the record at each position being the one of the
    ticket at that position; and the ticket passed with every routing and
    solving request is the sanitized copy of a ticket of the list, in
    which none of the three ground-truth fields is bound. *)
Theorem one_envelope_per_ticket_and_sanitized_requests :
  forall (w : world) (size : Z) (llm : bool) (tickets : list dict),
    (0 < size)%Z ->
    exists r batches,
      main w size llm tickets = Ok r
      /\ create_batches tickets size = Ok batches
      /\ List.concat batches = tickets
      /\ List.length (all_results (final r)) = List.length tickets
      /\ map original_ticket (all_results (final r))
           = seq 0 (List.length tickets)
      /\ map (fun e => deref (objects (final r)) (original_ticket e))
           (all_results (final r)) = tickets
      /\ map (lookup "original_ticket") (output_file r)
           = map (fun t => Some (VDict t)) tickets
      /\ Forall (fun rq =>
                   (exists t, In t tickets /\ payload rq = sanitized t)
                   /\ forall k, In k ground_truth_fields ->
                                lookup k (payload rq) = None)
           (requests (final r)).
Proof.
  intros w size llm tickets Hsize.
  destruct (main_returns w size llm tickets Hsize) as (r & Hr & Hinv & Hout).
  destruct (create_batches_concat tickets size Hsize) as (batches & Hb & Hcat).
  exists r, batches.
  split; [exact Hr|]. split; [exact Hb|]. split; [exact Hcat|].
  pose proof Hinv as (Hobj & Hres & Hreq).
  assert (Hderef :
    map (fun e => deref (objects (final r)) (original_ticket e))
      (all_results (final r)) = tickets).
  { rewrite <- (map_map original_ticket (deref (objects (final r)))), Hres.
    transitivity (map (deref tickets) (seq 0 (List.length tickets)));
      [|apply map_nth_seq].
    apply map_ext_in. intros l Hl. apply in_seq in Hl.
    apply (run_inv_deref _ _ _ _ Hinv). lia. }
  split.
  { rewrite <- (length_map original_ticket), Hres. apply length_seq. }
  split; [exact Hres|]. split; [exact Hderef|].
  split.
  { rewrite Hout, map_map. simpl.
    transitivity
      (map (fun t => Some (VDict t))
         (map (fun e => deref (objects (final r)) (original_ticket e))
            (all_results (final r))));
      [rewrite map_map; reflexivity | rewrite Hderef; reflexivity]. }
  eapply Forall_impl; [|exact Hreq].
  intros rq (l & Hl & Hp). apply in_seq in Hl. split.
  - exists (deref tickets l). split; [|exact Hp].
    apply nth_In. lia.
  - intros k Hk. rewrite Hp. apply sanitized_lacks_ground_truth. exact Hk.
Qed.

Lemma one_envelope_per_ticket_and_sanitized_requests_witness :
  (0 < 1)%Z
  /\ exists r batches,
       main sample_world 1 false sample_tickets = Ok r
       /\ create_batches sample_tickets 1 = Ok batches
       /\ List.concat batches = sample_tickets
       /\ List.length (all_results (final r)) = List.length sample_tickets
       /\ map original_ticket (all_results (final r))
            = seq 0 (List.length sample_tickets)
       /\ map (fun e => deref (objects (final r)) (original_ticket e))
            (all_results (final r)) = sample_tickets
       /\ map (lookup "original_ticket") (output_file r)
            = map (fun t => Some (VDict t)) sample_tickets
       /\ Forall (fun rq =>
                    (exists t, In t sample_tickets
                               /\ payload rq = sanitized t)
                    /\ forall k, In k ground_truth_fields ->
                                 lookup k (payload rq) = None)
            (requests (final r)).
Proof.
  split; [reflexivity|].
  apply (one_envelope_per_ticket_and_sanitized_requests sample_world 1 false
           sample_tickets).
  reflexivity.
Defined.

(** The requests of the small run: the second ticket is rate limited at
    routing and reaches no solver. *)
Example sample_requests :
  exists r,
    main sample_world 1 false sample_tickets = Ok r
    /\ requests (final r)
       = [RouterRequest [("ticket_id", VStr "T-1"); ("subject", VStr "Login")];
          SolverRequest [("ticket_id", VStr "T-1"); ("subject", VStr "Login")]
            "Login fails";
          RouterRequest
            [("ticket_id", VStr "T-2"); ("subject", VStr "Invoice")]]
    /\ evaluation r = Raise AttributeError.
Proof. eexists; split; [reflexivity|]. split; reflexivity. Qed.

(** C10. Sanitization leaves the loaded tickets as they are: one pass of
    the loop body only adds an object to the store, the stripped copy, and
    after a run that returns, the loaded ticket objects have the content
    they were loaded with; the [original_ticket] of every record is one of
    them, so each of its fields, the three ground-truth fields among them,
    is bound as it was in the input. *)
Theorem original_tickets_keep_their_ground_truth :
  forall (w : world) (size : Z) (llm : bool) (tickets : list dict) (r : run),
    main w size llm tickets = Ok r ->
    (forall st ticket,
       objects (process_ticket w st ticket)
       = objects st ++ [sanitized (deref (objects st) ticket)])
    /\ firstn (List.length tickets) (objects (final r)) = tickets
    /\ Forall (fun e =>
                 (original_ticket e < List.length tickets)%nat
                 /\ deref (objects (final r)) (original_ticket e)
                      = deref tickets (original_ticket e)
                 /\ forall k,
                      lookup k (deref (objects (final r)) (original_ticket e))
                      = lookup k (deref tickets (original_ticket e)))
         (all_results (final r)).
Proof.
  intros w size llm tickets r Hr.
  split; [intros st ticket; apply process_ticket_step|].
  destruct (main_frame w size llm tickets r Hr) as (done & Hinv & Hdone).
  pose proof Hinv as (Hobj & Hres & _).
  split; [exact Hobj|].
  apply Forall_forall. intros e He.
  assert (Hl : (original_ticket e < List.length tickets)%nat).
  { rewrite Forall_forall in Hdone. apply Hdone.
    rewrite <- Hres. apply in_map. exact He. }
  pose proof (run_inv_deref _ _ _ _ Hinv Hl) as Hd.
  split; [exact Hl|]. split; [exact Hd|].
  intros k. rewrite Hd. reflexivity.
Qed.

Lemma original_tickets_keep_their_ground_truth_witness :
  exists r,
    main sample_world 1 false sample_tickets = Ok r
    /\ firstn (List.length sample_tickets) (objects (final r))
         = sample_tickets
    /\ Forall (fun e =>
                 (original_ticket e < List.length sample_tickets)%nat
                 /\ deref (objects (final r)) (original_ticket e)
                      = deref sample_tickets (original_ticket e)
                 /\ forall k,
                      lookup k (deref (objects (final r)) (original_ticket e))
                      = lookup k (deref sample_tickets (original_ticket e)))
         (all_results (final r)).
Proof.
  eexists. split; [reflexivity|].
  exact (proj2 (original_tickets_keep_their_ground_truth sample_world 1 false
                  sample_tickets _ eq_refl)).
Defined.

End PipelineProps.

(* ================================================================== *)
(** ** More on [create_batches] and on the batch size *)
(* ================================================================== *)

Module BatchProps.

Import Main Spec PyFacts PipelineFacts.
#[local] Open Scope list_scope.

Lemma slice_length {A} (data : list A) (lo size : nat) :
  List.length (slice data lo size) = Nat.min size (List.length data - lo).
Proof. unfold slice. rewrite length_firstn, length_skipn. reflexivity. Qed.

Lemma range_up_well_batched {A} (data : list A) (step : nat) :
  (0 < step)%nat ->
  forall fuel start,
    (List.length data <= fuel + start)%nat ->
    well_batched step
      (map (fun i => slice data i step)
         (range_up fuel start (List.length data) step)).
Proof.
  intros Hstep; induction fuel as [|fuel IH]; intros start Hfuel; simpl;
    [exact I|].
  destruct (Nat.ltb_spec start (List.length data)) as [Hlt|Hge]; simpl;
    [|exact I].
  specialize (IH (start + step)%nat ltac:(lia)).
  destruct fuel as [|fuel'].
  - simpl. rewrite slice_length. lia.
  - simpl in *.
    destruct (Nat.ltb_spec (start + step) (List.length data)) as [Hlt'|Hge'];
      simpl in *.
    + split; [rewrite slice_length; lia | exact IH].
    + rewrite slice_length. lia.
Qed.

Lemma well_batched_count {A} (size : nat) (batches : list (list A)) :
  (0 < size)%nat ->
  well_batched size batches ->
  List.length batches
  = ((List.length (List.concat batches) + size - 1) / size)%nat.
Proof.
  intros Hsize. induction batches as [|b rest IH]; intros H.
  - simpl. symmetry. apply Nat.div_small. lia.
  - destruct rest as [|b' rest'].
    + simpl in *. rewrite app_nil_r.
      apply (Nat.div_unique _ _ 1 (List.length b - 1)); lia.
    + destruct H as (Hb & H). specialize (IH H).
      change (List.concat (b :: b' :: rest'))
        with (b ++ List.concat (b' :: rest')).
      rewrite length_app, Hb.
      change (List.length (b :: b' :: rest'))
        with (S (List.length (b' :: rest'))).
      rewrite IH.
      replace (size + List.length (List.concat (b' :: rest')) + size - 1)%nat
        with (1 * size
              + (List.length (List.concat (b' :: rest')) + size - 1))%nat
        by lia.
      rewrite Nat.div_add_l by lia. reflexivity.
Qed.

(** Shape of the batches of a positive size: every batch but the last has
    exactly [size] items, the last has between 1 and [size], and there are
    ceil(len / size) of them; no batch is empty. *)
Theorem create_batches_shape :
  forall (A : Type) (data : list A) (size : Z),
    (0 < size)%Z ->
    exists batches,
      create_batches data size = Ok batches
      /\ well_batched (Z.to_nat size) batches
      /\ Forall (fun b => (0 < List.length b <= Z.to_nat size)%nat) batches
      /\ List.length batches
         = ((List.length data + Z.to_nat size - 1) / Z.to_nat size)%nat.
Proof.
  intros A data size Hsize.
  destruct (create_batches_concat data size Hsize) as (batches & Hb & Hcat).
  exists batches. split; [exact Hb|].
  assert (Hwb : well_batched (Z.to_nat size) batches).
  { unfold create_batches, range0 in Hb.
    destruct (Z.eqb_spec size 0) as [->|_]; [lia|].
    destruct (Z.ltb_spec size 0) as [Hneg|_]; [lia|].
    simpl in Hb. injection Hb as <-.
    apply range_up_well_batched; lia. }
  split; [exact Hwb|]. split.
  - clear Hb Hcat. induction batches as [|b rest IH]; [constructor|].
    destruct rest as [|b' rest'].
    + constructor; [exact Hwb | constructor].
    + destruct Hwb as (Hlen & Hwb).
      constructor; [lia | exact (IH Hwb)].
  - rewrite <- Hcat. apply well_batched_count; [lia | exact Hwb].
Qed.

Lemma create_batches_shape_witness :
  (0 < 3)%Z
  /\ exists batches,
       create_batches [1; 2; 3; 4; 5; 6; 7]%nat 3 = Ok batches
       /\ well_batched (Z.to_nat 3) batches
       /\ Forall (fun b => (0 < List.length b <= Z.to_nat 3)%nat) batches
       /\ List.length batches
          = ((List.length [1; 2; 3; 4; 5; 6; 7]%nat + Z.to_nat 3 - 1)
             / Z.to_nat 3)%nat.
Proof.
  split; [reflexivity|].
  apply (create_batches_shape nat [1; 2; 3; 4; 5; 6; 7]%nat 3).
  reflexivity.
Defined.

(** When [create_batches] keeps the data: it returns batches that, put end
    to end, give the data back exactly for a positive size, and for a
    negative size only when there is nothing to batch. A zero size raises
    [ValueError], whatever the data; a negative size returns no batch and
    so drops any data there is. *)
Theorem create_batches_keeps_data_iff :
  forall (A : Type) (data : list A) (size : Z),
    ((exists batches,
        create_batches data size = Ok batches
        /\ List.concat batches = data)
     <-> ((0 < size)%Z \/ ((size < 0)%Z /\ data = [])))
    /\ create_batches data 0 = Raise ValueError
    /\ ((size < 0)%Z -> create_batches data size = Ok []).
Proof.
  intros A data size.
  assert (Hzero : create_batches data 0 = Raise ValueError) by reflexivity.
  assert (Hneg : (size < 0)%Z -> create_batches data size = Ok []).
  { intros H. unfold create_batches, range0.
    destruct (Z.eqb_spec size 0) as [->|_]; [lia|].
    destruct (Z.ltb_spec size 0) as [_|Hge]; [reflexivity | lia]. }
  split; [|split; assumption].
  split.
  - intros (batches & Hb & Hcat).
    destruct (Z.lt_trichotomy size 0) as [Hlt|[->|Hgt]].
    + right. split; [exact Hlt|].
      rewrite (Hneg Hlt) in Hb. injection Hb as <-.
      symmetry. exact Hcat.
    + rewrite Hzero in Hb. discriminate.
    + left. exact Hgt.
  - intros [Hpos|(Hlt & ->)].
    + apply create_batches_concat. exact Hpos.
    + exists []. split; [apply Hneg; exact Hlt | reflexivity].
Qed.

Lemma create_batches_keeps_data_iff_witness :
  (-2 < 0)%Z
  /\ create_batches [1; 2; 3]%nat (-2) = Ok []
  /\ ~ exists batches,
        create_batches [1; 2; 3]%nat (-2) = Ok batches
        /\ List.concat batches = [1; 2; 3]%nat.
Proof.
  assert (Hneg : (-2 < 0)%Z) by reflexivity.
  split; [exact Hneg|]. split.
  - exact (proj2 (proj2 (create_batches_keeps_data_iff nat [1; 2; 3]%nat
                           (-2))) Hneg).
  - intros H.
    apply (proj1 (create_batches_keeps_data_iff nat [1; 2; 3]%nat (-2))) in H.
    destruct H as [H|(_ & H)]; discriminate H.
Defined.

(** [main] with a batch size: what it returns is the loop run over the
    batches in order. *)
Lemma main_final (w : world) (size : Z) (llm : bool) (tickets : list dict)
    (r : run) :
  main w size llm tickets = Ok r ->
  exists batches,
    create_batches (seq 0 (List.length tickets)) size = Ok batches
    /\ final r
       = fold_left (process_ticket w) (List.concat batches)
           (start_state tickets)
    /\ output_file r = map (view (objects (final r))) (all_results (final r))
    /\ evaluation r
       = Evaluation.calculate_metrics (judge_service w) (output_file r) llm.
Proof.
  unfold main. intros H.
  apply bind_ok in H. destruct H as (batches & Hb & H).
  injection H as <-. exists batches. split; [exact Hb|].
  cbn [final output_file evaluation].
  unfold process_batches, process_batch. rewrite fold_left_concat.
  repeat split; reflexivity.
Qed.

Lemma main_positive (w : world) (size : Z) (llm : bool)
    (tickets : list dict) :
  (0 < size)%Z ->
  main w size llm tickets
  = Ok (let st := fold_left (process_ticket w)
                    (seq 0 (List.length tickets)) (start_state tickets) in
        let out := map (view (objects st)) (all_results st) in
        {| final := st;
           output_file := out;
           evaluation :=
             Evaluation.calculate_metrics (judge_service w) out llm |}).
Proof.
  intros Hsize. unfold main.
  destruct (create_batches_concat (seq 0 (List.length tickets)) size Hsize)
    as (batches & -> & Hcat).
  cbn [bind]. unfold process_batches, process_batch.
  rewrite fold_left_concat. unfold loc. rewrite Hcat. reflexivity.
Qed.

(** The batch size has no effect on the outcome of a run: for any two
    positive sizes, [main] ends in the same store, the same records, the
    same requests and the same metrics. *)
Theorem batch_size_does_not_matter :
  forall (w : world) (size1 size2 : Z) (llm : bool) (tickets : list dict),
    (0 < size1)%Z -> (0 < size2)%Z ->
    main w size1 llm tickets = main w size2 llm tickets.
Proof.
  intros w size1 size2 llm tickets H1 H2.
  rewrite (main_positive w size1 llm tickets H1).
  rewrite (main_positive w size2 llm tickets H2). reflexivity.
Qed.

Lemma batch_size_does_not_matter_witness :
  (0 < 1)%Z /\ (0 < BATCH_SIZE)%Z
  /\ main sample_world 1 false sample_tickets
     = main sample_world BATCH_SIZE false sample_tickets.
Proof.
  split; [reflexivity|]. split; [reflexivity|].
  apply batch_size_does_not_matter; reflexivity.
Defined.

End BatchProps.

(* ================================================================== *)
(** ** Validation, routing and dispatch *)
(* ================================================================== *)

Module DispatchProps.

Import Spec PyFacts.
#[local] Open Scope list_scope.

(** *** Validation against a model *)

Lemma validate_fields_skip (fields : list (string * Agent.field_type))
    (k : string) (v : value) (d : dict) :
  ~ In k (map fst fields) ->
  Agent.validate_fields fields ((k, v) :: d) = Agent.validate_fields fields d.
Proof.
  induction fields as [|[k' t] fields IH]; intros Hk; [reflexivity|].
  simpl in *.
  destruct (String.eqb_spec k' k) as [->|_]; [exfalso; auto|].
  rewrite IH by auto. reflexivity.
Qed.

Lemma validate_fields_sound (fields : list (string * Agent.field_type)) :
  forall (d out : dict),
    Agent.validate_fields fields d = Some out ->
    map fst out = map fst fields
    /\ forall k t,
         In (k, t) fields ->
         NoDup (map fst fields) ->
         exists v,
           lookup k out = Some v
           /\ lookup k d = Some v
           /\ Agent.conforms t v = true.
Proof.
  induction fields as [|[k0 t0] fields IH]; intros d out H; simpl in H.
  - injection H as <-. split; [reflexivity|]. intros k t [].
  - destruct (lookup k0 d) as [v0|] eqn:E0; [|discriminate].
    destruct (Agent.conforms t0 v0) eqn:C0; [|discriminate].
    destruct (Agent.validate_fields fields d) as [rest|] eqn:Er;
      [|discriminate].
    injection H as <-.
    destruct (IH d rest Er) as (Hkeys & Hrest).
    split; [simpl; rewrite Hkeys; reflexivity|].
    intros k t [Heq|Hin] Hnd; inversion Hnd as [|? ? Hnotin Hnd']; subst.
    + injection Heq as <- <-. exists v0. simpl. rewrite String.eqb_refl.
      repeat split; assumption.
    + destruct (Hrest k t Hin Hnd') as (v & Hv & Hd & Hc).
      exists v. simpl.
      destruct (String.eqb_spec k k0) as [->|_].
      * exfalso. apply Hnotin. apply (in_map fst) in Hin. exact Hin.
      * repeat split; assumption.
Qed.

Lemma validate_fields_again (fields : list (string * Agent.field_type)) :
  forall (d out : dict),
    NoDup (map fst fields) ->
    Agent.validate_fields fields d = Some out ->
    Agent.validate_fields fields out = Some out.
Proof.
  induction fields as [|[k0 t0] fields IH]; intros d out Hnd H; simpl in H.
  - injection H as <-. reflexivity.
  - destruct (lookup k0 d) as [v0|] eqn:E0; [|discriminate].
    destruct (Agent.conforms t0 v0) eqn:C0; [|discriminate].
    destruct (Agent.validate_fields fields d) as [rest|] eqn:Er;
      [|discriminate].
    injection H as <-.
    inversion Hnd as [|? ? Hnotin Hnd']; subst.
    simpl. rewrite String.eqb_refl, C0.
    rewrite validate_fields_skip by exact Hnotin.
    rewrite (IH d rest Hnd' Er). reflexivity.
Qed.

Lemma shapes_have_distinct_fields (c : Router.TicketCategory) :
  NoDup (map fst (solver_shape c)).
Proof.
  destruct c; simpl;
    repeat (constructor; [simpl; intuition discriminate|]); constructor.
Qed.

Lemma conforms_enum (values : list string) (v : value) :
  Agent.conforms (Agent.TEnum values) v = true ->
  exists s, v = VStr s /\ In s values.
Proof.
  destruct v; simpl; try discriminate. intros H.
  apply existsb_exists in H. destruct H as (x & Hin & Heq).
  apply String.eqb_eq in Heq. subst x. eauto.
Qed.

Lemma validated_team (c : Router.TicketCategory) (raw : value) (data : dict) :
  Agent.validate (solver_shape c) raw = Some data ->
  exists team,
    lookup "assigned_team" data = Some (VStr team)
    /\ In team Solvers.AssignedTeam.
Proof.
  intros H. destruct raw as [| | | | | |d]; try discriminate. simpl in H.
  destruct (validate_fields_sound _ _ _ H) as (_ & Hsound).
  assert (Hteam : In ("assigned_team", Agent.TEnum Solvers.AssignedTeam)
                    (solver_shape c))
    by (destruct c; simpl; auto 10).
  destruct (Hsound _ _ Hteam (shapes_have_distinct_fields c))
    as (v & Hv & _ & Hc).
  apply conforms_enum in Hc. destruct Hc as (team & -> & Hin).
  exists team. split; assumption.
Qed.

(** A validated solver output is a fixed point of validation: it holds
    exactly the declared fields, in declaration order, each read from the
    raw reply; it validates again, to itself; and its [assigned_team] is a
    string of the [AssignedTeam] enumeration. This holds for each of the
    six output shapes. *)
Theorem validated_solver_output :
  forall (c : Router.TicketCategory) (raw : value) (data : dict),
    Agent.validate (solver_shape c) raw = Some data ->
    map fst data = map fst (solver_shape c)
    /\ (exists d, raw = VDict d
                  /\ forall k v, lookup k data = Some v -> lookup k d = Some v)
    /\ Agent.validate (solver_shape c) (VDict data) = Some data
    /\ exists team,
         lookup "assigned_team" data = Some (VStr team)
         /\ In team Solvers.AssignedTeam.
Proof.
  intros c raw data H.
  destruct raw as [| | | | | |d]; try discriminate. simpl in H.
  pose proof (shapes_have_distinct_fields c) as Hnd.
  destruct (validate_fields_sound _ _ _ H) as (Hkeys & Hsound).
  split; [exact Hkeys|]. split.
  - exists d. split; [reflexivity|]. intros k v Hk.
    assert (Hin : In k (map fst (solver_shape c))).
    { rewrite <- Hkeys. clear - Hk.
      induction data as [|[k' v'] data IH]; [discriminate|].
      simpl in *. destruct (String.eqb_spec k k') as [->|_]; auto. }
    apply in_map_iff in Hin. destruct Hin as ([k' t] & Heq & Hin).
    simpl in Heq. subst k'.
    destruct (Hsound k t Hin Hnd) as (v' & Hv' & Hd & _).
    rewrite Hk in Hv'. injection Hv' as <-. exact Hd.
  - split; [exact (validate_fields_again _ _ _ Hnd H)|].
    apply (validated_team c (VDict d)). exact H.
Qed.

Lemma validated_solver_output_witness :
  Agent.validate (solver_shape Router.QUERY)
    (VDict [("assigned_team", VStr "Customer Support");
            ("note", VStr "not a declared field");
            ("is_resolved", VBool true);
            ("customer_facing_response", VStr "Hello")])
  = Some [("customer_facing_response", VStr "Hello");
          ("is_resolved", VBool true);
          ("assigned_team", VStr "Customer Support")]
  /\ exists team,
       lookup "assigned_team"
         [("customer_facing_response", VStr "Hello");
          ("is_resolved", VBool true);
          ("assigned_team", VStr "Customer Support")] = Some (VStr team)
       /\ In team Solvers.AssignedTeam.
Proof.
  split; [reflexivity|].
  exact (proj2 (proj2 (proj2
           (validated_solver_output Router.QUERY
              (VDict [("assigned_team", VStr "Customer Support");
                      ("note", VStr "not a declared field");
                      ("is_resolved", VBool true);
                      ("customer_facing_response", VStr "Hello")])
              _ eq_refl)))).
Defined.

(** *** The routing slip *)

Lemma member_of_value_sound {E} (value_of : E -> string) (members : list E)
    (s : string) (m : E) :
  Router.member_of_value value_of members s = Some m -> value_of m = s.
Proof.
  unfold Router.member_of_value. intros H.
  apply find_some in H. destruct H as (_ & H).
  apply String.eqb_eq in H. symmetry. exact H.
Qed.

(** Round trip of a routing slip: the dump of a slip validates to the slip
    itself; and a raw reply validates to a slip only if it binds category,
    urgency and summary to the strings that the dump of this slip carries,
    so the category and urgency strings of the reply are the values of
    enumeration members, letter for letter. *)
Theorem routing_slip_round_trip :
  (forall slip : Router.RoutingSlip,
     Router.RoutingSlip_validate (VDict (Router.model_dump slip)) = Some slip)
  /\ forall (raw : value) (slip : Router.RoutingSlip),
       Router.RoutingSlip_validate raw = Some slip ->
       exists d,
         raw = VDict d
         /\ forall k, In k ["category"; "urgency"; "summary"] ->
                      lookup k d = lookup k (Router.model_dump slip).
Proof.
  split.
  - intros [c u s]. destruct c, u; reflexivity.
  - intros raw slip H.
    destruct raw as [| | | | | |d]; try discriminate.
    exists d. split; [reflexivity|].
    unfold Router.RoutingSlip_validate in H.
    destruct (lookup "category" d) as [[| | | |c| |]|] eqn:Lc;
      try discriminate.
    destruct (lookup "urgency" d) as [[| | | |u| |]|] eqn:Lu;
      try discriminate.
    destruct (lookup "summary" d) as [[| | | |s| |]|] eqn:Ls;
      try discriminate.
    destruct (Router.member_of_value Router.TicketCategory_value _ c)
      as [c'|] eqn:Ec; [|discriminate].
    destruct (Router.member_of_value Router.UrgencyLevel_value _ u)
      as [u'|] eqn:Eu; [|discriminate].
    injection H as <-.
    apply member_of_value_sound in Ec, Eu.
    intros k [<-|[<-|[<-|[]]]]; simpl; [rewrite Lc | rewrite Lu | rewrite Ls];
      congruence.
Qed.

Lemma routing_slip_round_trip_witness :
  Router.RoutingSlip_validate
    (VDict [("summary", VStr "s"); ("urgency", VStr "Low");
            ("category", VStr "QUERY"); ("confidence", VFloat (9 # 10))])
  = Some {| Router.category := Router.QUERY; Router.urgency := Router.LOW;
            Router.summary := "s" |}
  /\ exists d,
       VDict [("summary", VStr "s"); ("urgency", VStr "Low");
              ("category", VStr "QUERY"); ("confidence", VFloat (9 # 10))]
       = VDict d
       /\ forall k, In k ["category"; "urgency"; "summary"] ->
                    lookup k d
                    = lookup k (Router.model_dump
                                  {| Router.category := Router.QUERY;
                                     Router.urgency := Router.LOW;
                                     Router.summary := "s" |}).
Proof.
  split; [reflexivity|].
  exact (proj2 routing_slip_round_trip
           (VDict [("summary", VStr "s"); ("urgency", VStr "Low");
                   ("category", VStr "QUERY");
                   ("confidence", VFloat (9 # 10))])
           {| Router.category := Router.QUERY; Router.urgency := Router.LOW;
              Router.summary := "s" |} eq_refl).
Defined.

(** [run_router] returns a slip exactly when the service answers the
    prompt of the ticket with content that validates to that slip; a rate
    limit, any other failure and content that does not validate all give
    [None]. *)
Theorem run_router_returns_validated_content :
  forall (service : Router.prompt -> Agent.reply) (ticket : dict),
    (forall slip,
       Router.run_router service ticket = Some slip
       <-> exists raw,
             service (Router.prompt_content ticket) = Agent.Content raw
             /\ Router.RoutingSlip_validate raw = Some slip)
    /\ (Router.run_router service ticket = None
        <-> forall raw,
              service (Router.prompt_content ticket) = Agent.Content raw ->
              Router.RoutingSlip_validate raw = None).
Proof.
  intros service ticket. unfold Router.run_router, Agent.run_sync.
  destruct (service (Router.prompt_content ticket)) as [raw|m|m].
  - destruct (Router.RoutingSlip_validate raw) as [slip0|] eqn:E; split.
    + intros slip; split.
      * intros H; injection H as <-. eauto.
      * intros (raw' & Hr & Hv). injection Hr as <-. congruence.
    + split; [discriminate|]. intros H. specialize (H raw eq_refl).
      congruence.
    + intros slip; split; [discriminate|].
      intros (raw' & Hr & Hv). injection Hr as <-. congruence.
    + split; [|reflexivity]. intros _ raw' Hr. injection Hr as <-. exact E.
  - split.
    + intros slip; split; [discriminate|]. intros (raw & Hr & _).
      discriminate.
    + split; [|reflexivity]. intros _ raw Hr. discriminate.
  - split.
    + intros slip; split; [discriminate|]. intros (raw & Hr & _).
      discriminate.
    + split; [|reflexivity]. intros _ raw Hr. discriminate.
Qed.

Lemma run_router_returns_validated_content_witness :
  Router.run_router (Main.router_service sample_world 0) [] 
  = Some {| Router.category := Router.BUGS; Router.urgency := Router.HIGH;
            Router.summary := "Login fails" |}
  /\ Router.run_router (Main.router_service sample_world 1) [] = None.
Proof.
  split.
  - apply (proj1 (run_router_returns_validated_content
                    (Main.router_service sample_world 0) [])).
    eexists. split; reflexivity.
  - apply (proj2 (run_router_returns_validated_content
                    (Main.router_service sample_world 1) [])).
    intros raw H. discriminate H.
Defined.

(** The routing prompt reads seven fields of the ticket and no other:
    removing any other field, a ground-truth field in particular, changes
    neither the prompt nor the result of [run_router]. *)
Theorem routing_prompt_reads_seven_fields :
  forall (service : Router.prompt -> Agent.reply) (ticket : dict)
         (k : string),
    ~ In k router_fields ->
    Router.prompt_content (pop k ticket) = Router.prompt_content ticket
    /\ Router.run_router service (pop k ticket)
       = Router.run_router service ticket
    /\ Router.prompt_content (sanitized ticket)
       = Router.prompt_content ticket.
Proof.
  assert (Hpop : forall ticket k, ~ In k router_fields ->
            Router.prompt_content (pop k ticket)
            = Router.prompt_content ticket).
  { intros ticket k Hk. unfold Router.prompt_content.
    rewrite !get_pop_other; [reflexivity|..];
      intros E; subst k; apply Hk; simpl; auto 10. }
  intros service ticket k Hk.
  split; [apply Hpop; exact Hk|]. split.
  - unfold Router.run_router. rewrite Hpop by exact Hk. reflexivity.
  - unfold sanitized.
    rewrite !Hpop; [reflexivity|..]; simpl; intuition discriminate.
Qed.

Lemma routing_prompt_reads_seven_fields_witness :
  ~ In "ground_truth_team" router_fields
  /\ Router.prompt_content
       (pop "ground_truth_team"
          [("ticket_id", VStr "T-1"); ("ground_truth_team", VStr "Backend")])
     = Router.prompt_content
         [("ticket_id", VStr "T-1"); ("ground_truth_team", VStr "Backend")].
Proof.
  assert (H : ~ In "ground_truth_team" router_fields)
    by (simpl; intuition discriminate).
  split; [exact H|].
  exact (proj1 (routing_prompt_reads_seven_fields
                  (fun _ => Agent.Failed "unused")
                  [("ticket_id", VStr "T-1");
                   ("ground_truth_team", VStr "Backend")]
                  "ground_truth_team" H)).
Defined.

(** *** Dispatch *)

Lemma route_to_solver_eq (service : Solvers.prompt -> Agent.reply)
    (ticket : dict) (c : Router.TicketCategory) (u : Router.UrgencyLevel)
    (s : string) :
  Orchestrator.route_to_solver service ticket
    {| Router.category := c; Router.urgency := u; Router.summary := s |}
  = match service {| Solvers.model_name := solver_model c;
                     Solvers.ticket_data := ticket;
                     Solvers.routing_summary := s |} with
    | Agent.Content raw =>
        match Agent.validate (solver_shape c) raw with
        | Some data => solver_success c data
        | None => solver_failure c
        end
    | _ => solver_failure c
    end.
Proof.
  destruct c;
    unfold Orchestrator.route_to_solver; simpl;
    unfold Orchestrator.solve_bug_ticket, Orchestrator.solve_query_ticket,
      Orchestrator.solve_request_ticket, Orchestrator.solve_security_ticket,
      Orchestrator.solve_correctness_ticket, Orchestrator.solve_misc_ticket,
      Solvers.generate_bug_report, Solvers.generate_draft_response,
      Solvers.generate_feature_request, Solvers.generate_security_alert,
      Solvers.generate_correctness_review, Solvers.generate_general_triage,
      Solvers._run_solver, Agent.run_sync; simpl;
    match goal with
    | |- context [service ?p] => destruct (service p) as [raw|m|m]
    end; try reflexivity;
    match goal with
    | |- context [Agent.validate ?sh ?r] =>
        destruct (Agent.validate sh r); reflexivity
    end.
Qed.

(** Dispatch by category: [route_to_solver] makes one request, for the
    model of the category, with the ticket and the routing summary as it
    received them; the result names the solver of the category; it is the
    success record around the validated output when the reply validates
    against the shape of the category, and the failure record in every
    other case. Every category has its handler: the default of the table
    lookup is never taken. *)
Theorem route_to_solver_dispatch :
  forall (service : Solvers.prompt -> Agent.reply) (ticket : dict)
         (slip : Router.RoutingSlip),
    let c := Router.category slip in
    let p := {| Solvers.model_name := solver_model c;
                Solvers.ticket_data := ticket;
                Solvers.routing_summary := Router.summary slip |} in
    Orchestrator._HANDLER_MAP c <> None
    /\ Orchestrator.route_to_solver service ticket slip
       = match service p with
         | Agent.Content raw =>
             match Agent.validate (solver_shape c) raw with
             | Some data => solver_success c data
             | None => solver_failure c
             end
         | _ => solver_failure c
         end
    /\ lookup "solver" (Orchestrator.route_to_solver service ticket slip)
       = Some (VStr (solver_name c)).
Proof.
  intros service ticket [c u s]. simpl.
  pose proof (route_to_solver_eq service ticket c u s) as Heq.
  split; [destruct c; discriminate|]. split; [exact Heq|].
  rewrite Heq.
  destruct (service _) as [raw|m|m]; try reflexivity.
  destruct (Agent.validate (solver_shape c) raw); reflexivity.
Qed.

End DispatchProps.

(* ================================================================== *)
(** ** Invariants of a run of [main] *)
(* ================================================================== *)

Module RunProps.

Import Main Spec PyFacts PipelineFacts EvaluationFacts BatchProps DispatchProps.
#[local] Open Scope list_scope.

Lemma fold_invariant (P : state -> Prop) (w : world) (todo : list loc) :
  (forall st t, P st -> P (process_ticket w st t)) ->
  forall st, P st -> P (fold_left (process_ticket w) todo st).
Proof.
  intros Hstep. induction todo as [|t todo IH]; intros st H; simpl;
    [exact H|].
  apply IH, Hstep, H.
Qed.

Lemma count_app {A} (p : A -> bool) (xs ys : list A) :
  count p (xs ++ ys) = (count p xs + count p ys)%nat.
Proof. unfold count. rewrite filter_app, length_app. reflexivity. Qed.

Lemma routed_dump (e : envelope) (slip : Router.RoutingSlip) :
  router_output e = VDict (Router.model_dump slip) -> routed e = true.
Proof. unfold routed. intros ->. reflexivity. Qed.

Lemma routed_sentinel (e : envelope) :
  router_output e = VStr "ROUTING FAILED" -> routed e = false.
Proof. unfold routed. intros ->. reflexivity. Qed.

(** What one pass of the loop body adds: one record of one of the two
    shapes, one store object, one routing request, and one solver request
    exactly when the record is a routed one. *)
Lemma process_ticket_adds (w : world) (st : state) (ticket : loc) :
  let st' := process_ticket w st ticket in
  exists e,
    all_results st' = all_results st ++ [e]
    /\ record_shape e
    /\ List.length (objects st') = S (List.length (objects st))
    /\ count is_router_request (requests st')
       = S (count is_router_request (requests st))
    /\ count is_solver_request (requests st')
       = (count is_solver_request (requests st)
          + (if routed e then 1 else 0))%nat.
Proof.
  intros st'. subst st'.
  pose proof (process_ticket_step w st ticket) as (Ho & e & Ha & _ & Hr).
  exists e. split; [exact Ha|].
  assert (Hlen : List.length (objects (process_ticket w st ticket))
                 = S (List.length (objects st))).
  { rewrite Ho, length_app. simpl. lia. }
  destruct (Router.run_router _ _) as [slip|].
  - destruct Hr as (Hro & Hso & Hrq).
    split.
    { right. exists slip. split; [exact Hro|].
      rewrite Hso. destruct slip as [c u s]. rewrite route_to_solver_eq.
      simpl Router.category.
      destruct (solver_service w _ _) as [raw|m|m]; auto.
      destruct (Agent.validate (solver_shape c) raw) as [data|] eqn:E; auto.
      right. exists raw, data. split; [reflexivity | exact E]. }
    split; [exact Hlen|].
    rewrite Hrq, !count_app, (routed_dump e slip Hro).
    unfold count; simpl. split; lia.
  - destruct Hr as (Hro & Hso & Hrq).
    split; [left; split; assumption|].
    split; [exact Hlen|].
    rewrite Hrq, !count_app, (routed_sentinel e Hro).
    unfold count; simpl. split; lia.
Qed.

Lemma process_ticket_clock (w : world) (st : state) (ticket : loc) :
  let st' := process_ticket w st ticket in
  clock_reads st' = S (S (clock_reads st))
  /\ exists e,
       all_results st' = all_results st ++ [e]
       /\ processing_time_seconds e
          = (time w (S (clock_reads st)) - time w (clock_reads st))%Q.
Proof.
  intros st'. subst st'. unfold process_ticket.
  destruct (dict_copy (objects st) ticket) as [h1 c].
  destruct (Router.run_router _ _); simpl; split; eauto.
Qed.

(** Every record of a run has one of two shapes: the failure sentinel
    with a null solver output, or the dump of a routing slip with the
    output of the solver of its category, which is the failure record or
    the success record around a validated value. A record has a null
    solver output exactly when its router output is the sentinel. *)
Theorem run_records_have_two_shapes :
  forall (w : world) (size : Z) (llm : bool) (tickets : list dict) (r : run),
    main w size llm tickets = Ok r ->
    Forall record_shape (all_results (final r))
    /\ Forall (fun e => router_output e = VStr "ROUTING FAILED"
                        <-> solver_output e = VNone)
         (all_results (final r)).
Proof.
  intros w size llm tickets r Hr.
  destruct (main_final w size llm tickets r Hr) as (batches & _ & -> & _).
  assert (Hshape : Forall record_shape
            (all_results (fold_left (process_ticket w) (List.concat batches)
                            (start_state tickets)))).
  { apply (fold_invariant (fun st => Forall record_shape (all_results st))).
    - intros st t H.
      destruct (process_ticket_adds w st t) as (e & -> & He & _).
      apply Forall_app. split; [exact H | constructor; [exact He|constructor]].
    - constructor. }
  split; [exact Hshape|].
  eapply Forall_impl; [|exact Hshape].
  intros e [(Hro & Hso)|(slip & Hro & [Hso|(raw & data & Hso & _)])];
    rewrite Hro, Hso; split; discriminate || reflexivity.
Qed.

Lemma run_records_have_two_shapes_witness :
  exists r,
    main sample_world BATCH_SIZE false sample_tickets = Ok r
    /\ Forall record_shape (all_results (final r))
    /\ map router_output (all_results (final r))
       = [VDict [("category", VStr "BUGS"); ("urgency", VStr "High");
                 ("summary", VStr "Login fails")];
          VStr "ROUTING FAILED"].
Proof.
  eexists. split; [reflexivity|]. split; [|reflexivity].
  exact (proj1 (run_records_have_two_shapes sample_world BATCH_SIZE false
                  sample_tickets _ eq_refl)).
Defined.

(** Accounting of a run: each processed ticket costs exactly one routing
    request, one new store object (its stripped copy) and two clock
    reads; the number of solver requests is the number of routed records,
    so a ticket whose routing failed never reaches a solver. *)
Theorem run_accounting :
  forall (w : world) (size : Z) (llm : bool) (tickets : list dict) (r : run),
    main w size llm tickets = Ok r ->
    let n := List.length (all_results (final r)) in
    count is_router_request (requests (final r)) = n
    /\ count is_solver_request (requests (final r))
       = count routed (all_results (final r))
    /\ List.length (objects (final r)) = (List.length tickets + n)%nat
    /\ clock_reads (final r) = (2 * n)%nat
    /\ List.length (output_file r) = n.
Proof.
  intros w size llm tickets r Hr n. subst n.
  destruct (main_final w size llm tickets r Hr) as (batches & _ & Hf & Ho & _).
  rewrite Ho, length_map. rewrite Hf.
  assert (H : forall st,
    (count is_router_request (requests st) = List.length (all_results st)
     /\ count is_solver_request (requests st) = count routed (all_results st)
     /\ List.length (objects st)
        = (List.length tickets + List.length (all_results st))%nat
     /\ clock_reads st = (2 * List.length (all_results st))%nat) ->
    forall t,
    let st' := process_ticket w st t in
    count is_router_request (requests st') = List.length (all_results st')
    /\ count is_solver_request (requests st') = count routed (all_results st')
    /\ List.length (objects st')
       = (List.length tickets + List.length (all_results st'))%nat
    /\ clock_reads st' = (2 * List.length (all_results st'))%nat).
  { intros st (H1 & H2 & H3 & H4) t st'. subst st'.
    destruct (process_ticket_adds w st t) as (e & Ha & _ & Hl & Hr1 & Hr2).
    destruct (process_ticket_clock w st t) as (Hc & _).
    rewrite Ha, Hl, Hr1, Hr2, Hc, count_app, length_app, H1, H2, H3, H4.
    unfold count at 3. simpl. destruct (routed e); simpl; repeat split; lia. }
  pose proof (fold_invariant
    (fun st =>
       count is_router_request (requests st) = List.length (all_results st)
       /\ count is_solver_request (requests st)
          = count routed (all_results st)
       /\ List.length (objects st)
          = (List.length tickets + List.length (all_results st))%nat
       /\ clock_reads st = (2 * List.length (all_results st))%nat)
    w (List.concat batches) (fun st t Hst => H st Hst t)
    (start_state tickets)) as Hfold.
  destruct Hfold as (H1 & H2 & H3 & H4).
  - unfold start_state, count; simpl. repeat split; lia.
  - repeat split; assumption.
Qed.

Lemma run_accounting_witness :
  exists r,
    main sample_world BATCH_SIZE false sample_tickets = Ok r
    /\ count is_router_request (requests (final r)) = 2%nat
    /\ count is_solver_request (requests (final r)) = 1%nat
    /\ count is_solver_request (requests (final r))
       = count routed (all_results (final r)).
Proof.
  eexists. split; [reflexivity|]. split; [reflexivity|].
  split; [reflexivity|].
  exact (proj1 (proj2 (run_accounting sample_world BATCH_SIZE false
                         sample_tickets _ eq_refl))).
Defined.

(** The recorded processing time of the ticket at position [i] is the
    difference of the two clock reads of its pass, the reads number [2i]
    and [2i+1] of the run; so under a clock that never runs backwards no
    recorded time is negative. *)
Theorem processing_times_are_clock_differences :
  forall (w : world) (size : Z) (llm : bool) (tickets : list dict) (r : run),
    main w size llm tickets = Ok r ->
    (forall i e,
       nth_error (all_results (final r)) i = Some e ->
       processing_time_seconds e
       = (time w (S (2 * i)) - time w (2 * i))%Q)
    /\ ((forall a b, (a <= b)%nat -> (time w a <= time w b)%Q) ->
        Forall (fun e => (0 <= processing_time_seconds e)%Q)
          (all_results (final r))).
Proof.
  intros w size llm tickets r Hr.
  destruct (main_final w size llm tickets r Hr) as (batches & _ & -> & _).
  assert (Hall : forall i e,
    nth_error (all_results (fold_left (process_ticket w) (List.concat batches)
                              (start_state tickets))) i = Some e ->
    processing_time_seconds e = (time w (S (2 * i)) - time w (2 * i))%Q).
  { apply (fold_invariant
      (fun st =>
         clock_reads st = (2 * List.length (all_results st))%nat
         /\ forall i e, nth_error (all_results st) i = Some e ->
              processing_time_seconds e
              = (time w (S (2 * i)) - time w (2 * i))%Q)
      w (List.concat batches)).
    - intros st t (Hc & Hprev).
      destruct (process_ticket_clock w st t) as (Hc' & e' & Ha & He').
      rewrite Ha, Hc', length_app. simpl. split; [lia|].
      intros i e Hi.
      destruct (Nat.lt_ge_cases i (List.length (all_results st))) as [Hlt|Hge].
      + rewrite nth_error_app1 in Hi by exact Hlt. apply Hprev. exact Hi.
      + rewrite nth_error_app2 in Hi by exact Hge.
        destruct (i - List.length (all_results st))%nat as [|k] eqn:Ek.
        * simpl in Hi. injection Hi as <-.
          assert (i = List.length (all_results st)) by lia. subst i.
          rewrite He', Hc. reflexivity.
        * simpl in Hi. destruct k; discriminate.
    - unfold start_state; simpl. split; [reflexivity|].
      intros [|i] e H; discriminate. }
  split; [exact Hall|].
  intros Hmono. apply Forall_forall. intros e He.
  apply In_nth_error in He. destruct He as (i & Hi).
  rewrite (Hall i e Hi).
  assert (Hle : (time w (2 * i) <= time w (S (2 * i)))%Q)
    by (apply Hmono; lia).
  apply (Qplus_le_r _ _ (time w (2 * i))). ring_simplify. exact Hle.
Qed.

Lemma processing_times_are_clock_differences_witness :
  (forall a b, (a <= b)%nat ->
     (time sample_world a <= time sample_world b)%Q)
  /\ exists r,
       main sample_world BATCH_SIZE false sample_tickets = Ok r
       /\ Forall (fun e => (0 <= processing_time_seconds e)%Q)
            (all_results (final r)).
Proof.
  assert (Hmono : forall a b, (a <= b)%nat ->
            (time sample_world a <= time sample_world b)%Q).
  { intros a b Hab. simpl. rewrite <- Zle_Qle. lia. }
  split; [exact Hmono|].
  eexists. split; [reflexivity|].
  exact (proj2 (processing_times_are_clock_differences sample_world BATCH_SIZE
                  false sample_tickets _ eq_refl) Hmono).
Defined.

End RunProps.

(* ================================================================== *)
(** ** More on sanitization *)
(* ================================================================== *)

Module SanitizeProps.

Import Main Spec PyFacts PipelineFacts.
#[local] Open Scope list_scope.

Lemma pop_filter (k : string) (d : dict) :
  pop k d = filter (fun kv => negb (String.eqb k (fst kv))) d.
Proof.
  induction d as [|[k' v] d IH]; simpl; [reflexivity|].
  destruct (String.eqb k k'); simpl; rewrite IH; reflexivity.
Qed.

Lemma filter_filter {A} (p q : A -> bool) (l : list A) :
  filter p (filter q l) = filter (fun x => q x && p x) l.
Proof.
  induction l as [|x l IH]; simpl; [reflexivity|].
  destruct (q x); simpl; [destruct (p x)|]; rewrite IH; reflexivity.
Qed.

Lemma sanitized_filter (t : dict) :
  sanitized t = filter (fun kv => negb (is_ground_truth_field (fst kv))) t.
Proof.
  unfold sanitized. rewrite !pop_filter, !filter_filter.
  apply filter_ext. intros [k v].
  unfold is_ground_truth_field, ground_truth_fields. cbn [existsb fst].
  rewrite (String.eqb_sym k "ground_truth_category"),
    (String.eqb_sym k "ground_truth_urgency"),
    (String.eqb_sym k "ground_truth_team").
  destruct (String.eqb "ground_truth_category" k),
    (String.eqb "ground_truth_urgency" k),
    (String.eqb "ground_truth_team" k); reflexivity.
Qed.

(** The copy that the loop strips is the ticket without the bindings of
    the three ground-truth fields and with every other binding, in the
    order of the ticket: a field that is not a ground-truth field reads
    the same from the copy as from the ticket. *)
Theorem sanitization_keeps_every_other_field :
  forall (h : heap) (ticket : loc),
    let '(h1, c) := dict_copy h ticket in
    let h4 :=
      dict_pop "ground_truth_team" c
        (dict_pop "ground_truth_urgency" c
           (dict_pop "ground_truth_category" c h1)) in
    deref h4 c
    = filter (fun kv => negb (is_ground_truth_field (fst kv)))
        (deref h ticket)
    /\ forall k, is_ground_truth_field k = false ->
                 lookup k (deref h4 c) = lookup k (deref h ticket).
Proof.
  intros h ticket.
  pose proof (sanitized_copy h ticket) as Hcopy.
  destruct (dict_copy h ticket) as [h1 c].
  destruct Hcopy as (Hh & ->). cbv zeta. rewrite Hh, deref_new.
  split; [apply sanitized_filter|].
  intros k Hk. unfold is_ground_truth_field, ground_truth_fields in Hk.
  cbn [existsb] in Hk.
  apply orb_false_elim in Hk. destruct Hk as (H1 & Hk).
  apply orb_false_elim in Hk. destruct Hk as (H2 & Hk).
  apply orb_false_elim in Hk. destruct Hk as (H3 & _).
  apply String.eqb_neq in H1, H2, H3.
  unfold sanitized. rewrite !lookup_pop_other by assumption. reflexivity.
Qed.

Lemma sanitization_keeps_every_other_field_witness :
  is_ground_truth_field "subject" = false
  /\ lookup "subject"
       (deref
          (dict_pop "ground_truth_team" 1%nat
             (dict_pop "ground_truth_urgency" 1%nat
                (dict_pop "ground_truth_category" 1%nat
                   (fst (dict_copy
                           [[("ground_truth_team", VStr "Backend");
                             ("subject", VStr "Login")]] 0%nat)))))
          1%nat)
     = Some (VStr "Login").
Proof.
  split; [reflexivity|].
  exact (proj2 (sanitization_keeps_every_other_field
                  [[("ground_truth_team", VStr "Backend");
                    ("subject", VStr "Login")]] 0%nat)
           "subject" eq_refl).
Defined.

End SanitizeProps.

(* ================================================================== *)
(** ** More on the metrics engine *)
(* ================================================================== *)

Module MetricsMore.

Import Evaluation Spec PyFacts EvaluationFacts MetricsFacts.
#[local] Open Scope list_scope.

(** *** Bounds *)

Lemma count_and_le {A} (p q : A -> bool) (xs : list A) :
  (count (fun x => p x && q x) xs <= count p xs)%nat.
Proof.
  induction xs as [|x xs IH]; [unfold count; simpl; lia|].
  rewrite !count_cons. destruct (p x), (q x); simpl; lia.
Qed.

Lemma count_le_len {A} (p : A -> bool) (xs : list A) :
  (count p xs <= List.length xs)%nat.
Proof. unfold count. apply filter_length_le. Qed.

Lemma Qnat_le (a b : nat) : (a <= b)%nat -> (Qnat a <= Qnat b)%Q.
Proof. intros H. unfold Qnat. rewrite <- Zle_Qle. lia. Qed.

Lemma percent_bounds (matched attempts : nat) :
  (matched <= attempts)%nat ->
  (0 <= percent matched attempts <= 100)%Q.
Proof.
  intros H. unfold percent.
  destruct (Nat.ltb_spec 0 attempts) as [Hpos|_];
    [|split; [apply Qle_refl | discriminate]].
  assert (Hq : (0 < Qnat attempts)%Q)
    by (unfold Qnat; rewrite <- (Zlt_Qlt 0); lia).
  assert (H0 : (0 <= Qnat matched)%Q)
    by (unfold Qnat; rewrite <- (Zle_Qle 0); lia).
  split.
  - apply Qmult_le_0_compat; [|discriminate].
    apply Qle_shift_div_l; [exact Hq|]. rewrite Qmult_0_l. exact H0.
  - assert (H1 : (Qnat matched / Qnat attempts <= 1)%Q).
    { apply Qle_shift_div_r; [exact Hq|]. rewrite Qmult_1_l.
      apply Qnat_le. exact H. }
    setoid_replace 100%Q with (1 * 100)%Q at 2 by ring.
    apply Qmult_le_compat_r; [exact H1 | discriminate].
Qed.

(** Whenever [calculate_metrics] returns, its counters are ordered: for
    category, urgency and team the matched count is at most the attempted
    count; routing and urgency attempts are at most the number of tickets;
    team attempts are at most the number of successful solves, itself at
    most the number of tickets. So each of the four percentages lies
    between 0 and 100. *)
Theorem metrics_counters_are_ordered :
  forall (j : judge) (results : list dict) (llm : bool) (m : dict),
    calculate_metrics j results llm = Ok m ->
    exists l,
      compute_locals results = Ok l
      /\ let c := counts l in
         (correctly_routed c <= routing_attempts c <= total_tickets l)%nat
         /\ (correctly_urgent c <= urgency_attempts c <= total_tickets l)%nat
         /\ (correctly_assigned_team c <= team_assignment_attempts c
             <= successful_solves l)%nat
         /\ (successful_solves l <= total_tickets l)%nat
         /\ (0 <= percent (correctly_routed c) (routing_attempts c) <= 100)%Q
         /\ (0 <= percent (correctly_urgent c) (urgency_attempts c) <= 100)%Q
         /\ (0 <= percent (correctly_assigned_team c)
                    (team_assignment_attempts c) <= 100)%Q
         /\ (0 <= percent (successful_solves l) (total_tickets l) <= 100)%Q.
Proof.
  intros j results llm m H.
  assert (Hl : exists l, compute_locals results = Ok l).
  { destruct results as [|r results]; [eexists; reflexivity|].
    apply calculate_metrics_ok in H; [|discriminate].
    destruct H as (l & Hl & _). eauto. }
  destruct Hl as (l & Hl). exists l. split; [exact Hl|].
  apply compute_locals_ok in Hl. destruct Hl as (Hn & _ & Hc & Hs).
  pose proof (tally_all_ok _ _ _ Hc) as (H1 & H2 & H3 & H4 & H5 & H6).
  simpl in H1, H2, H3, H4, H5, H6.
  assert (A1 : (correctly_routed (counts l) <= routing_attempts (counts l))%nat)
    by (rewrite H1, H2; apply count_and_le).
  assert (A2 : (correctly_urgent (counts l) <= urgency_attempts (counts l))%nat)
    by (rewrite H3, H4; apply count_and_le).
  assert (A3 : (correctly_assigned_team (counts l)
                <= team_assignment_attempts (counts l))%nat)
    by (rewrite H5, H6; apply count_and_le).
  assert (A4 : (team_assignment_attempts (counts l) <= successful_solves l)%nat)
    by (rewrite H5, Hs; apply count_and_le).
  assert (A5 : (successful_solves l <= total_tickets l)%nat)
    by (rewrite Hs, Hn; apply count_le_len).
  assert (A6 : (routing_attempts (counts l) <= total_tickets l)%nat)
    by (rewrite H1, Hn; apply count_le_len).
  assert (A7 : (urgency_attempts (counts l) <= total_tickets l)%nat)
    by (rewrite H3, Hn; apply count_le_len).
  cbv zeta. repeat split; try assumption; apply percent_bounds; assumption.
Qed.

Lemma metrics_counters_are_ordered_witness :
  exists l,
    compute_locals fully_labelled = Ok l
    /\ (correctly_routed (counts l) <= routing_attempts (counts l)
        <= total_tickets l)%nat
    /\ (0 <= percent (successful_solves l) (total_tickets l) <= 100)%Q.
Proof.
  destruct (metrics_counters_are_ordered judge_down fully_labelled false _
              eq_refl) as (l & Hl & H1 & _ & _ & _ & _ & _ & _ & H8).
  exists l. repeat split; try assumption; apply H1 || apply H8.
Defined.

(** *** The judgment pass *)

(** The judgment pass only adds: when [calculate_metrics] returns with
    the pass enabled, it also returns with the pass disabled, and every
    entry other than the judge section is the same in both snapshots; and
    on a list with no successful solve the two calls are equal, errors
    included, whatever the judge. *)
Theorem judgment_pass_only_adds :
  forall (j : judge) (results : list dict),
    (forall m,
       calculate_metrics j results true = Ok m ->
       exists m0,
         calculate_metrics j results false = Ok m0
         /\ forall section key,
              key <> "llm_as_judge_metrics" ->
              metric section key m = metric section key m0)
    /\ (count solver_succeeded results = 0%nat ->
        calculate_metrics j results true = calculate_metrics j results false).
Proof.
  intros j results. split.
  - intros m H. destruct results as [|r results].
    + exists []. split; [reflexivity|]. injection H as <-. reflexivity.
    + apply calculate_metrics_ok in H; [|discriminate].
      destruct H as (l & Hl & Hm).
      exists (metrics_of l). split; [|exact Hm].
      unfold calculate_metrics. rewrite Hl. reflexivity.
  - intros Hnone. destruct results as [|r results]; [reflexivity|].
    unfold calculate_metrics.
    destruct (compute_locals (r :: results)) as [l|e] eqn:Hl; [|reflexivity].
    cbn [bind].
    apply compute_locals_ok in Hl. destruct Hl as (_ & _ & Hc & _).
    unfold llm_as_judge.
    rewrite (successes_ok _ (tally_all_solved _ _ _ Hc)).
    unfold count in Hnone. apply length_zero_iff_nil in Hnone.
    rewrite Hnone. reflexivity.
Qed.

Lemma judgment_pass_only_adds_witness :
  (exists m m0,
     calculate_metrics judge_after_first
       [solved_envelope [] "BUGS" "High" "Backend" 1;
        solved_envelope [] "QUERY" "Low" "Backend" 1] true = Ok m
     /\ calculate_metrics judge_after_first
          [solved_envelope [] "BUGS" "High" "Backend" 1;
           solved_envelope [] "QUERY" "Low" "Backend" 1] false = Ok m0
     /\ metric "solver_evaluation" "llm_as_judge_metrics" m <> None
     /\ metric "solver_evaluation" "llm_as_judge_metrics" m0 = None
     /\ forall section key,
          key <> "llm_as_judge_metrics" ->
          metric section key m = metric section key m0)
  /\ count solver_succeeded
       [[("original_ticket", VDict []);
         ("router_output", VDict [("category", VStr "BUGS")]);
         ("solver_output", VDict [("status", VStr "FAILURE")]);
         ("processing_time_seconds", VFloat 1)]] = 0%nat
  /\ calculate_metrics judge_after_first
       [[("original_ticket", VDict []);
         ("router_output", VDict [("category", VStr "BUGS")]);
         ("solver_output", VDict [("status", VStr "FAILURE")]);
         ("processing_time_seconds", VFloat 1)]] true
     = calculate_metrics judge_after_first
         [[("original_ticket", VDict []);
           ("router_output", VDict [("category", VStr "BUGS")]);
           ("solver_output", VDict [("status", VStr "FAILURE")]);
           ("processing_time_seconds", VFloat 1)]] false.
Proof.
  split.
  - destruct (calculate_metrics judge_after_first
                [solved_envelope [] "BUGS" "High" "Backend" 1;
                 solved_envelope [] "QUERY" "Low" "Backend" 1] true)
      as [m|e] eqn:E; [|discriminate E].
    destruct (proj1 (judgment_pass_only_adds judge_after_first
                       [solved_envelope [] "BUGS" "High" "Backend" 1;
                        solved_envelope [] "QUERY" "Low" "Backend" 1]) m E)
      as (m0 & Hm0 & Hsame).
    exists m, m0. split; [reflexivity|]. split; [exact Hm0|].
    split; [injection E as <-; discriminate|].
    split; [injection Hm0 as <-; reflexivity | exact Hsame].
  - split; [reflexivity|].
    exact (proj2 (judgment_pass_only_adds judge_after_first
                    [[("original_ticket", VDict []);
                      ("router_output", VDict [("category", VStr "BUGS")]);
                      ("solver_output", VDict [("status", VStr "FAILURE")]);
                      ("processing_time_seconds", VFloat 1)]]) eq_refl).
Defined.

End MetricsMore.

(* ================================================================== *)
(** ** The counters do not depend on the order of the envelopes *)
(* ================================================================== *)

Module OrderProps.

Import Evaluation Spec PyFacts EvaluationFacts MetricsFacts.
#[local] Open Scope list_scope.

Ltac counters_eq :=
  unfold add_counters, counters0, bump; simpl; f_equal;
  repeat match goal with
         | h : bool |- _ => destruct h
         end; lia.

Lemma add_counters_assoc (c d e : counters) :
  add_counters (add_counters c d) e = add_counters c (add_counters d e).
Proof. destruct c, d, e. counters_eq. Qed.

Lemma add_counters_swap (c d e : counters) :
  add_counters (add_counters c d) e = add_counters (add_counters c e) d.
Proof. destruct c, d, e. counters_eq. Qed.

(** The loop body adds to the counters what it adds to zero counters. *)
Lemma tally_router_additive (r : dict) (c : counters) :
  tally_router r c
  = (d <- tally_router r counters0 ;; Ok (add_counters c d)).
Proof.
  unfold tally_router.
  destruct (negb (eq_str (get "router_output" r VNone) "ROUTING FAILED"));
    [|cbn [bind]; f_equal; destruct c; counters_eq].
  destruct (ground_truth r "ground_truth_category") as [gc|e];
    [|reflexivity].
  cbn [bind]. destruct (truthy gc).
  - destruct (same_lower gc (predicted r "category")) as [h1|e];
      [|reflexivity].
    cbn [bind].
    destruct (ground_truth r "ground_truth_urgency") as [gu|e];
      [|reflexivity].
    cbn [bind]. destruct (truthy gu).
    + destruct (same_lower gu (predicted r "urgency")) as [h2|e];
        [|reflexivity].
      cbn [bind]. f_equal. destruct c. counters_eq.
    + cbn [bind]. f_equal. destruct c. counters_eq.
  - cbn [bind].
    destruct (ground_truth r "ground_truth_urgency") as [gu|e];
      [|reflexivity].
    cbn [bind]. destruct (truthy gu).
    + destruct (same_lower gu (predicted r "urgency")) as [h2|e];
        [|reflexivity].
      cbn [bind]. f_equal. destruct c. counters_eq.
    + cbn [bind]. f_equal. destruct c. counters_eq.
Qed.

Lemma tally_solver_additive (r : dict) (c : counters) :
  tally_solver r c
  = (d <- tally_solver r counters0 ;; Ok (add_counters c d)).
Proof.
  unfold tally_solver. cbv zeta.
  destruct (attr_get (get "solver_output" r (VDict [])) "status" VNone)
    as [st|e]; [|reflexivity].
  cbn [bind]. destruct (eq_str st "SUCCESS");
    [|cbn [bind]; f_equal; destruct c; counters_eq].
  destruct (ground_truth r "ground_truth_team") as [gt|e]; [|reflexivity].
  cbn [bind]. destruct (truthy gt);
    [|cbn [bind]; f_equal; destruct c; counters_eq].
  destruct (attr_get (get "solver_output" r (VDict [])) "data" (VDict []))
    as [data|e]; [|reflexivity].
  cbn [bind].
  destruct (attr_get data "assigned_team" (VStr "")) as [team|e];
    [|reflexivity].
  cbn [bind].
  destruct (same_lower gt (Ok team)) as [h|e]; [|reflexivity].
  cbn [bind]. f_equal. destruct c. counters_eq.
Qed.

Lemma tally_additive (r : dict) (c : counters) :
  tally r c = (d <- tally r counters0 ;; Ok (add_counters c d)).
Proof.
  unfold tally. rewrite (tally_router_additive r c).
  destruct (tally_router r counters0) as [d1|e]; [|reflexivity].
  cbn [bind].
  rewrite (tally_solver_additive r (add_counters c d1)).
  rewrite (tally_solver_additive r d1).
  destruct (tally_solver r counters0) as [d2|e]; [|reflexivity].
  cbn [bind]. rewrite add_counters_assoc. reflexivity.
Qed.

Lemma tally_all_perm (l l' : list dict) :
  Permutation l l' ->
  forall c c', tally_all l c = Ok c' -> tally_all l' c = Ok c'.
Proof.
  induction 1 as [|x l l' _ IH|x y l|l l' l'' _ IH1 _ IH2]; intros c c' H.
  - exact H.
  - simpl in *. bind_inv H as c1 H1. rewrite H1. cbn [bind].
    apply IH. exact H.
  - simpl in *. bind_inv H as c1 Hy. bind_inv H as c2 Hx.
    rewrite tally_additive in Hy. bind_inv Hy as dy Hdy.
    injection Hy as <-.
    rewrite tally_additive in Hx. bind_inv Hx as dx Hdx.
    injection Hx as <-.
    rewrite (tally_additive x c), Hdx. cbn [bind].
    rewrite (tally_additive y (add_counters c dx)), Hdy. cbn [bind].
    rewrite add_counters_swap. exact H.
  - apply IH2, IH1, H.
Qed.

Lemma count_perm {A} (p : A -> bool) (l l' : list A) :
  Permutation l l' -> count p l = count p l'.
Proof.
  induction 1; rewrite ?count_cons; lia.
Qed.

Lemma metrics_but_latency (l1 l2 : locals) :
  total_tickets l1 = total_tickets l2 ->
  counts l1 = counts l2 ->
  successful_solves l1 = successful_solves l2 ->
  forall section key,
    key <> "average_processing_time_seconds" ->
    metric section key (metrics_of l1) = metric section key (metrics_of l2).
Proof.
  intros Hn Hc Hs section key Hkey.
  unfold metric, metrics_of. rewrite Hn, Hc, Hs. cbn [lookup].
  destruct (String.eqb section "overall_performance"); [|reflexivity].
  cbn [lookup].
  destruct (String.eqb key "total_tickets_processed"); [reflexivity|].
  destruct (String.eqb_spec key "average_processing_time_seconds");
    [contradiction | reflexivity].
Qed.

(** With the judgment pass off, the counters of the loop and every entry
    of the snapshot other than the average latency do not depend on the
    order of the envelopes: when [calculate_metrics] returns for a list,
    the loop runs through every reordering of the list to the same
    counters, and a snapshot returned for a reordering has the same ticket
    count, accuracies with their counts and success rate. The average
    latency is left out: it is a sum of floats, taken in list order. *)
Theorem metrics_counts_ignore_the_order :
  forall (j : judge) (results results' : list dict) (m m' : dict),
    Permutation results results' ->
    calculate_metrics j results false = Ok m ->
    (exists c,
       tally_all results counters0 = Ok c
       /\ tally_all results' counters0 = Ok c)
    /\ count solver_succeeded results' = count solver_succeeded results
    /\ (calculate_metrics j results' false = Ok m' ->
        forall section key,
          key <> "average_processing_time_seconds" ->
          metric section key m' = metric section key m).
Proof.
  intros j results results' m m' Hperm H.
  pose proof (Permutation_length Hperm) as Hlen.
  pose proof (count_perm solver_succeeded _ _ Hperm) as Hcount.
  destruct results as [|r rs].
  { apply Permutation_nil in Hperm. subst results'.
    split; [exists counters0; split; reflexivity|].
    split; [reflexivity|].
    intros H'. injection H as <-. injection H' as <-. reflexivity. }
  destruct results' as [|r' rs']; [discriminate|].
  unfold calculate_metrics in H.
  bind_inv H as l Hl. injection H as <-.
  pose proof (compute_locals_ok _ _ Hl) as (Hn & _ & Hc & Hs).
  assert (Hc' : tally_all (r' :: rs') counters0 = Ok (counts l))
    by (apply (tally_all_perm _ _ Hperm); exact Hc).
  split; [exists (counts l); split; assumption|].
  split; [symmetry; exact Hcount|].
  intros H' section key Hkey.
  unfold calculate_metrics in H'.
  bind_inv H' as l' Hl'. injection H' as <-.
  pose proof (compute_locals_ok _ _ Hl') as (Hn' & _ & Hc2 & Hs').
  apply metrics_but_latency; [| | |exact Hkey].
  - rewrite Hn, Hn'. symmetry. exact Hlen.
  - rewrite Hc' in Hc2. injection Hc2 as <-. reflexivity.
  - rewrite Hs, Hs'. symmetry. exact Hcount.
Qed.

Lemma metrics_counts_ignore_the_order_witness :
  Permutation
    [solved_envelope [("ground_truth_category", VStr "bugs")]
       "BUGS" "High" "Backend" 1;
     solved_envelope [] "QUERY" "Low" "Backend" (5 # 2)]
    [solved_envelope [] "QUERY" "Low" "Backend" (5 # 2);
     solved_envelope [("ground_truth_category", VStr "bugs")]
       "BUGS" "High" "Backend" 1]
  /\ exists m m',
       calculate_metrics judge_down
         [solved_envelope [("ground_truth_category", VStr "bugs")]
            "BUGS" "High" "Backend" 1;
          solved_envelope [] "QUERY" "Low" "Backend" (5 # 2)] false = Ok m
       /\ calculate_metrics judge_down
            [solved_envelope [] "QUERY" "Low" "Backend" (5 # 2);
             solved_envelope [("ground_truth_category", VStr "bugs")]
               "BUGS" "High" "Backend" 1] false = Ok m'
       /\ metric "router_evaluation" "routing_accuracy_percent" m'
          = metric "router_evaluation" "routing_accuracy_percent" m.
Proof.
  split; [apply perm_swap|].
  destruct (calculate_metrics judge_down
              [solved_envelope [("ground_truth_category", VStr "bugs")]
                 "BUGS" "High" "Backend" 1;
               solved_envelope [] "QUERY" "Low" "Backend" (5 # 2)] false)
    as [m|e] eqn:E; [|discriminate E].
  destruct (calculate_metrics judge_down
              [solved_envelope [] "QUERY" "Low" "Backend" (5 # 2);
               solved_envelope [("ground_truth_category", VStr "bugs")]
                 "BUGS" "High" "Backend" 1] false)
    as [m'|e'] eqn:E'; [|discriminate E'].
  exists m, m'. split; [reflexivity|]. split; [reflexivity|].
  apply (proj2 (proj2
           (metrics_counts_ignore_the_order judge_down _ _ m m'
              (perm_swap _ _ _) E)) E').
  discriminate.
Defined.

End OrderProps.

(* ================================================================== *)
(** ** When the metrics of a run are computed *)
(* ================================================================== *)

Module RunMetrics.

Import Main Spec PyFacts PipelineFacts EvaluationFacts MetricsFacts.
Import BatchProps DispatchProps RunProps.
#[local] Open Scope list_scope.

Lemma forallb_false_exists {A} (p : A -> bool) (l : list A) :
  forallb p l = false -> exists x, In x l /\ p x = false.
Proof.
  induction l as [|x l IH]; simpl; [discriminate|].
  destruct (p x) eqn:E; simpl.
  - intros H. destruct (IH H) as (y & Hy & Hp). eauto.
  - intros _. eauto.
Qed.

Lemma run_shapes (w : world) (todo : list loc) (tickets : list dict) :
  Forall record_shape
    (all_results (fold_left (process_ticket w) todo (start_state tickets))).
Proof.
  apply (fold_invariant (fun st => Forall record_shape (all_results st))).
  - intros st t H.
    destruct (process_ticket_adds w st t) as (e & -> & He & _).
    apply Forall_app. split; [exact H | constructor; [exact He|constructor]].
  - constructor.
Qed.

(** The view of a routed record of a run is an envelope the metrics loop
    runs through, provided the labels of its ticket are comparable. *)
Lemma routed_record_scorable (h : heap) (e : envelope) :
  record_shape e ->
  routed e = true ->
  labelled_ok (deref h (original_ticket e)) = true ->
  scorable (view h e) = true.
Proof.
  intros Hshape Hrouted Hlabels.
  destruct e as [l ro so pt]. simpl in *.
  remember (deref h l) as t eqn:Et.
  destruct Hshape as [(Hro & _)|(slip & Hro & Hso)]; simpl in *.
  { subst ro. discriminate Hrouted. }
  subst ro. destruct slip as [c u s].
  unfold scorable, view. cbn [original_ticket router_output solver_output
                               processing_time_seconds].
  rewrite <- Et.
  change (get "processing_time_seconds" _ (VInt 0)) with (VFloat pt).
  change (get "original_ticket" _ (VDict [])) with (VDict t).
  change (get "router_output" _ VNone)
    with (VDict (Router.model_dump
                   {| Router.category := c; Router.urgency := u;
                      Router.summary := s |})).
  change (get "solver_output" _ (VDict [])) with so.
  change (lookup "router_output" _)
    with (Some (VDict (Router.model_dump
                         {| Router.category := c; Router.urgency := u;
                            Router.summary := s |}))).
  cbn [as_number]. fold (labelled_ok t). rewrite Hlabels.
  cbn [eq_str andb orb].
  change (Agent.is_str (get "category" _ (VStr ""))) with true.
  change (Agent.is_str (get "urgency" _ (VStr ""))) with true.
  cbn [andb].
  destruct Hso as [->|(raw & data & -> & Hval)].
  - reflexivity.
  - change (get "status" (solver_success _ data) VNone) with (VStr "SUCCESS").
    change (get "data" (solver_success _ data) (VDict [])) with (VDict data).
    cbn [eq_str]. change (String.eqb "SUCCESS" "SUCCESS") with true.
    cbn [negb orb].
    destruct (validated_team _ _ _ Hval) as (team & Hteam & _).
    unfold get. rewrite Hteam. reflexivity.
Qed.

(** With the judgment pass off and ticket labels that are strings or
    falsy, the metrics step of a run returns a snapshot exactly when no
    routing of the run failed: one failed routing among the tickets and
    [calculate_metrics] raises on the records that [main] has just
    written. *)
Theorem run_metrics_return_iff_no_routing_failed :
  forall (w : world) (size : Z) (tickets : list dict) (r : run),
    main w size false tickets = Ok r ->
    forallb labelled_ok tickets = true ->
    ((exists m, evaluation r = Ok m)
     <-> forallb routed (all_results (final r)) = true).
Proof.
  intros w size tickets r Hr Hlabels.
  destruct (main_frame w size false tickets r Hr) as (done & Hinv & Hdone).
  destruct (main_final w size false tickets r Hr)
    as (batches & _ & Hf & Ho & He).
  assert (Hshape : Forall record_shape (all_results (final r)))
    by (rewrite Hf; apply run_shapes).
  rewrite He, Ho. split.
  - intros (m & Hm).
    destruct (forallb routed (all_results (final r))) eqn:E; [reflexivity|].
    exfalso. apply forallb_false_exists in E. destruct E as (e & Hin & Hnr).
    rewrite Forall_forall in Hshape.
    destruct (Hshape e Hin) as [(_ & Hso)|(slip & Hro & _)].
    + apply MetricsProps.calculate_metrics_solved in Hm.
      rewrite Forall_forall in Hm.
      specialize (Hm (view (objects (final r)) e)
                     (in_map _ _ _ Hin)).
      rewrite MetricsProps.solved_null_solver_output in Hm; [discriminate|].
      unfold view. rewrite Hso. reflexivity.
    + rewrite (routed_dump e slip Hro) in Hnr. discriminate.
  - intros Hall.
    apply calculate_metrics_returns_on_scorable.
    apply forallb_forall. intros x Hx.
    apply in_map_iff in Hx. destruct Hx as (e & <- & Hin).
    rewrite forallb_forall in Hall. rewrite Forall_forall in Hshape.
    apply routed_record_scorable; [apply Hshape | apply Hall |]; try exact Hin.
    destruct Hinv as (Hobj & Hres & Hreq).
    assert (Hl : (original_ticket e < List.length tickets)%nat).
    { rewrite Forall_forall in Hdone. apply Hdone.
      rewrite <- Hres. apply in_map. exact Hin. }
    rewrite (run_inv_deref tickets done (final r) _
               (conj Hobj (conj Hres Hreq)) Hl).
    rewrite forallb_forall in Hlabels. apply Hlabels.
    unfold deref. apply nth_In. exact Hl.
Qed.

Lemma run_metrics_return_iff_no_routing_failed_witness :
  forallb labelled_ok sample_tickets = true
  /\ exists r,
       main sample_world BATCH_SIZE false sample_tickets = Ok r
       /\ forallb routed (all_results (final r)) = false
       /\ ~ exists m, evaluation r = Ok m.
Proof.
  split; [reflexivity|].
  eexists. split; [reflexivity|]. split; [reflexivity|].
  intros H.
  apply (run_metrics_return_iff_no_routing_failed sample_world BATCH_SIZE
           sample_tickets _ eq_refl eq_refl) in H.
  discriminate H.
Defined.

End RunMetrics.

(* ================================================================== *)
(** ** The judge section of the snapshot *)
(* ================================================================== *)

Module JudgeProps.

Import Evaluation Spec PyFacts EvaluationFacts MetricsFacts DispatchProps.
#[local] Open Scope list_scope.

Lemma int_field_lookup (k : string) (d : dict) (z : Z) :
  int_field k d = Some z -> lookup k d = Some (VInt z).
Proof.
  unfold int_field. destruct (lookup k d) as [[]|]; try discriminate.
  intros H; injection H as <-; reflexivity.
Qed.

Lemma score_in_range (raw : value) (score : SolverEvaluationScore) :
  SolverEvaluationScore_validate raw = Some score ->
  in_range (relevance score) /\ in_range (clarity score)
  /\ in_range (actionability score).
Proof.
  unfold SolverEvaluationScore_validate. intros H.
  destruct (Agent.validate SolverEvaluationScore_fields raw) as [d|] eqn:E;
    [|discriminate].
  destruct raw as [| | | | | |d0]; try discriminate.
  unfold Agent.validate in E.
  destruct (validate_fields_sound _ _ _ E) as (_ & Hsound).
  assert (Hnd : NoDup (map fst SolverEvaluationScore_fields)).
  { simpl. repeat (constructor; [simpl; intuition discriminate|]).
    constructor. }
  destruct (int_field "relevance" d) as [r|] eqn:Er; [|discriminate].
  destruct (int_field "clarity" d) as [c|] eqn:Ec; [|discriminate].
  destruct (int_field "actionability" d) as [a|] eqn:Ea; [|discriminate].
  injection H as <-. simpl.
  apply int_field_lookup in Er, Ec, Ea.
  assert (Hone : forall k z, In (k, Agent.TInt 1 5) SolverEvaluationScore_fields ->
                   lookup k d = Some (VInt z) -> in_range z).
  { intros k z Hin Hk.
    destruct (Hsound k _ Hin Hnd) as (v & Hv & _ & Hc).
    rewrite Hk in Hv. injection Hv as <-. simpl in Hc.
    apply andb_prop in Hc. destruct Hc as (H1 & H2).
    apply Z.leb_le in H1, H2. split; assumption. }
  repeat split; eapply Hone; try eassumption; simpl; auto.
Qed.

Lemma evaluator_in_range (service : value -> value -> Agent.reply)
    (t s : value) (score : SolverEvaluationScore) :
  run_solver_evaluator service t s = Some score ->
  in_range (relevance score) /\ in_range (clarity score)
  /\ in_range (actionability score).
Proof.
  unfold run_solver_evaluator, Agent.run_sync.
  destruct (service t s) as [raw|m|m]; try discriminate.
  destruct (SolverEvaluationScore_validate raw) as [sc|] eqn:E;
    [|discriminate].
  intros H; injection H as <-. eapply score_in_range; eassumption.
Qed.

(** The three score lists grow together, by scores in range, and by at
    most one entry per judged envelope. *)
Lemma judge_all_scores_ok (j : judge) (solves : list dict) :
  forall n acc scores bound,
    judge_all j n solves acc = Ok scores ->
    scores_ok bound acc ->
    scores_ok (bound + List.length solves) scores.
Proof.
  induction solves as [|r solves IH]; intros n acc scores bound H Hacc;
    simpl in H.
  - injection H as <-. rewrite Nat.add_0_r. exact Hacc.
  - bind_inv H as t Ht. bind_inv H as s Hs.
    destruct (run_solver_evaluator (j n) t s) as [sc|] eqn:E.
    + apply evaluator_in_range in E. destruct E as (R1 & R2 & R3).
      replace (bound + List.length (r :: solves))%nat
        with (S bound + List.length solves)%nat by (simpl; lia).
      apply (IH _ _ _ (S bound) H).
      destruct Hacc as (L1 & L2 & L3 & F1 & F2 & F3).
      unfold scores_ok. simpl. rewrite !length_app. simpl.
      repeat split; try lia;
        (apply Forall_app; split;
         [assumption | constructor; [assumption | constructor]]).
    + replace (bound + List.length (r :: solves))%nat
        with (S bound + List.length solves)%nat by (simpl; lia).
      apply (IH _ _ _ (S bound) H).
      destruct Hacc as (L1 & L2 & L3 & F1 & F2 & F3).
      unfold scores_ok. repeat split; try assumption. lia.
Qed.

Lemma Qsum_in_range (zs : list Z) :
  Forall in_range zs ->
  (inject_Z (Z.of_nat (List.length zs)) <= Qsum (map inject_Z zs)
   <= 5 * inject_Z (Z.of_nat (List.length zs)))%Q.
Proof.
  induction 1 as [|z zs Hz _ IH].
  - simpl. split; discriminate.
  - destruct IH as (IH1 & IH2). destruct Hz as (Hz1 & Hz2).
    change (Qsum (map inject_Z (z :: zs)))
      with (inject_Z z + Qsum (map inject_Z zs))%Q.
    change (List.length (z :: zs)) with (S (List.length zs)).
    rewrite Nat2Z.inj_succ. unfold Z.succ. rewrite inject_Z_plus.
    rewrite Zle_Qle in Hz1, Hz2.
    split.
    + setoid_replace (inject_Z (Z.of_nat (List.length zs)) + inject_Z 1)%Q
        with (inject_Z 1 + inject_Z (Z.of_nat (List.length zs)))%Q by ring.
      apply Qplus_le_compat; assumption.
    + setoid_replace
        (5 * (inject_Z (Z.of_nat (List.length zs)) + inject_Z 1))%Q
        with (inject_Z 5 + 5 * inject_Z (Z.of_nat (List.length zs)))%Q
        by ring.
      apply Qplus_le_compat; assumption.
Qed.

Lemma mean_in_range (zs : list Z) (q : Q) :
  mean zs = Ok q -> Forall in_range zs -> (1 <= q <= 5)%Q.
Proof.
  intros H Hall. destruct zs as [|z zs]; [discriminate|].
  injection H as <-.
  destruct (Qsum_in_range _ Hall) as (H1 & H2).
  assert (Hpos : (0 < inject_Z (Z.of_nat (List.length (z :: zs))))%Q).
  { rewrite <- (Zlt_Qlt 0). simpl List.length. lia. }
  split.
  - apply Qle_shift_div_l; [exact Hpos|]. rewrite Qmult_1_l. exact H1.
  - apply Qle_shift_div_r; [exact Hpos | exact H2].
Qed.

(** When the judgment pass is on and some envelope was solved, a returned
    snapshot has a judge section of four entries: the number of judgments
    that succeeded, which is at least 1 and at most the number of solved
    envelopes, and the three averages, each between 1 and 5 and written
    with two decimals. *)
Theorem judge_section_is_bounded :
  forall (j : judge) (results : list dict) (m : dict),
    calculate_metrics j results true = Ok m ->
    (0 < count solver_succeeded results)%nat ->
    exists (k : nat) (ar ac aa : Q),
      metric "solver_evaluation" "llm_as_judge_metrics" m
      = Some (VDict
                [("evaluations_performed", VInt (Z.of_nat k));
                 ("avg_relevance_score", VStr (format_2f ar ++ " / 5"));
                 ("avg_clarity_score", VStr (format_2f ac ++ " / 5"));
                 ("avg_actionability_score", VStr (format_2f aa ++ " / 5"))])
      /\ (1 <= k <= count solver_succeeded results)%nat
      /\ (1 <= ar <= 5)%Q /\ (1 <= ac <= 5)%Q /\ (1 <= aa <= 5)%Q.
Proof.
  intros j results m H Hsome.
  destruct results as [|r results]; [unfold count in Hsome; simpl in Hsome; lia|].
  unfold calculate_metrics in H.
  bind_inv H as l Hl.
  apply compute_locals_ok in Hl. destruct Hl as (_ & _ & Hc & _).
  remember (metrics_of l) as m0 eqn:Em0.
  unfold llm_as_judge in H.
  rewrite (successes_ok _ (tally_all_solved _ _ _ Hc)) in H.
  unfold count in *.
  remember (filter solver_succeeded (r :: results)) as solves eqn:Es.
  cbn [bind] in H.
  bind_inv H as scores Hscores.
  destruct solves as [|s0 solves]; [simpl in Hsome; lia|].
  bind_inv H as ar Har. bind_inv H as ac Hac. bind_inv H as aa Haa.
  pose proof (judge_all_scores_ok j _ _ _ _ 0%nat Hscores) as Hok.
  destruct Hok as (L1 & L2 & L3 & F1 & F2 & F3).
  { unfold scores_ok; simpl. repeat split; try lia; constructor. }
  exists (List.length (relevances scores)), ar, ac, aa.
  split.
  - unfold set_solver_evaluation in H.
    bind_inv H as se Hse.
    destruct se as [| | | | | |d]; try discriminate.
    injection H as <-.
    unfold metric. rewrite lookup_set_same, lookup_set_same. reflexivity.
  - split.
    + split; [|simpl in L3; exact L3].
      destruct (relevances scores); [discriminate Har | simpl; lia].
    + repeat split; eapply mean_in_range; eassumption.
Qed.

Lemma judge_section_is_bounded_witness :
  (0 < count solver_succeeded
         [solved_envelope [] "BUGS" "High" "Backend" 1;
          solved_envelope [] "QUERY" "Low" "Backend" 1])%nat
  /\ exists (k : nat) (ar ac aa : Q),
       (1 <= k <= 2)%nat
       /\ (1 <= ar <= 5)%Q /\ (1 <= ac <= 5)%Q /\ (1 <= aa <= 5)%Q.
Proof.
  assert (Hpos : (0 < count solver_succeeded
                        [solved_envelope [] "BUGS" "High" "Backend" 1;
                         solved_envelope [] "QUERY" "Low" "Backend" 1])%nat)
    by (unfold count; simpl; lia).
  split; [exact Hpos|].
  destruct (calculate_metrics judge_after_first
              [solved_envelope [] "BUGS" "High" "Backend" 1;
               solved_envelope [] "QUERY" "Low" "Backend" 1] true)
    as [m|e] eqn:E; [|discriminate E].
  destruct (judge_section_is_bounded judge_after_first _ m E Hpos)
    as (k & ar & ac & aa & _ & Hk & Hr & Hc & Ha).
  exists k, ar, ac, aa. repeat split; try apply Hk; try apply Hr;
    try apply Hc; apply Ha.
Defined.

End JudgeProps.
